(** * Printer connectivity layer: transport drivers and the PrinterManager

    A shallow embedding of the connection classes (USB, network, Bluetooth)
    and of [PrinterManager] (utils/PrinterManager.ts), with the proxy
    server's per-message relay handlers (proxy-server.js).

    Conventions of the embedding:
    - a JavaScript object that is mutated through several references
      (printer records, connection objects, print jobs, arrays) lives in an
      object store and is named by its index there;
    - an [async] method is cut at its [await]: the part before it is a
      [_begin] function that returns either a finished call or a
      continuation holding the method's local variables, the part after it
      is a [_finish] function that takes the awaited driver call's outcome;
    - everything the environment decides (clock, random numbers, what a
      device or a socket answers) is an argument. *)

From Stdlib Require Import Strings.Byte.
From stdpp Require Import gmap strings list fin_maps pretty.

Open Scope string_scope.
Open Scope nat_scope.
Open Scope list_scope.

(** ** Shared vocabulary *)

(** A settled promise of type [Promise<void>]: resolved, or rejected with an
    [Error] whose [message] is kept. *)
Inductive Outcome :=
  | Resolved
  | Rejected (message : string).

Definition is_resolved (o : Outcome) : bool :=
  match o with Resolved => true | Rejected _ => false end.

(** [Uint8Array] *)
Abbreviation Uint8Array := (list byte).

(** [a.slice(b, e)] for [0 <= b], [0 <= e]: the elements at indices
    [b .. e-1] that exist. *)
Definition slice {A} (b e : nat) (a : list A) : list A := drop b (take e a).

(** ** BluetoothPrinterConnection (connectivity/BluetoothConnection.ts) *)
Module Bluetooth.

Record BluetoothRemoteGATT := { connected : bool }.

Record BluetoothDevice := {
  id : string;
  name : option string;
  gatt : option BluetoothRemoteGATT
}.

Record BluetoothRemoteGATTCharacteristic := {
  uuid : string;
  write : bool;
  writeWithoutResponse : bool
}.

Record BluetoothPrinterConnection := {
  device : option BluetoothDevice;
  characteristic : option BluetoothRemoteGATTCharacteristic;
  isConnectedFlag : bool;
  currentStatus : string;
  bluetoothId : option string
}.

(** The two GATT write calls [print] can make. *)
Inductive WriteOp :=
  | writeValueWithoutResponse (value : Uint8Array)
  | writeValueWithResponse (value : Uint8Array).


(** What the device answers to the [k]-th write of one [print] call. *)
Definition Link := nat -> Outcome.

Definition chunkSize : nat := 20.

(** The [for (let i = 0; i < data.length; i += chunkSize)] loop of
    [print], from index [i] on, [k] writes having been made; returns the
    loop's outcome and the writes it issued, in order.  The 10 ms pause
    after a write has no counterpart here.  [None]: [fuel] iterations did
    not reach the end of [data]. *)
Fixpoint print_loop (C : nat) (ch : BluetoothRemoteGATTCharacteristic)
    (link : Link) (data : Uint8Array) (fuel i k : nat)
    : option (Outcome * list WriteOp) :=
  if i <? length data then
    match fuel with
    | O => None
    | S fuel' =>
        let chunk := slice i (i + C) data in
        let continue w :=
          match link k with
          | Resolved =>
              '(o, ws) ← print_loop C ch link data fuel' (i + C) (S k);
              Some (o, w :: ws)
          | Rejected m => Some (Rejected m, [w])
          end in
        if writeWithoutResponse ch then
          continue (writeValueWithoutResponse chunk)
        else if write ch then
          continue (writeValueWithResponse chunk)
        else Some (Rejected "Characteristic does not support writing", [])
    end
  else Some (Resolved, []).

(** The [catch] of [print]: whatever was thrown in the loop is thrown
    again as [Bluetooth print failed: <message>]. *)
Definition rethrow (o : Outcome) : Outcome :=
  match o with
  | Resolved => Resolved
  | Rejected m => Rejected ("Bluetooth print failed: " +:+ m)
  end.

Definition print_with (C : nat) (c : BluetoothPrinterConnection)
    (link : Link) (data : Uint8Array) : option (Outcome * list WriteOp) :=
  match characteristic c with
  | None => Some (Rejected "Bluetooth printer not connected", [])
  | Some ch =>
      '(o, ws) ← print_loop C ch link data (length data) 0 0;
      Some (rethrow o, ws)
  end.

Definition print := print_with chunkSize.

Definition isConnected (c : BluetoothPrinterConnection) : bool :=
  isConnectedFlag c &&
  match device c with
  | Some d => match gatt d with Some g => connected g | None => false end
  | None => false
  end.

Definition getStatus (c : BluetoothPrinterConnection) : string :=
  currentStatus c.

(** [new BluetoothPrinterConnection(bluetoothId)] *)
Definition new (bluetoothId : option string) : BluetoothPrinterConnection :=
  {| device := None; characteristic := None;
     isConnectedFlag := false; currentStatus := "Not connected";
     bluetoothId := bluetoothId |}.

(** [disconnect]; the boolean tells whether [gatt.disconnect()] was
    called, which happens when the GATT server is connected. *)
Definition disconnect (c : BluetoothPrinterConnection)
    : BluetoothPrinterConnection * bool :=
  let called :=
    match device c with
    | Some d => match gatt d with Some g => connected g | None => false end
    | None => false
    end in
  ({| device := None; characteristic := None;
      isConnectedFlag := false; currentStatus := "Disconnected";
      bluetoothId := bluetoothId c |}, called).


(** The first [n] pieces of [data] from index [i] on, [C] bytes each. *)
Fixpoint chunks_from (C : nat) (data : Uint8Array) (i n : nat) : list Uint8Array :=
  match n with
  | O => []
  | S n => slice i (i + C) data :: chunks_from C data (i + C) n
  end.

Definition writable (ch : BluetoothRemoteGATTCharacteristic) : bool :=
  writeWithoutResponse ch || write ch.

(** *** [connect] *)

Definition ALTERNATIVE_SERVICE_UUIDS : list string :=
  ["000018f0-0000-1000-8000-00805f9b34fb";
   "49535343-fe7d-4ae5-8fa9-9fafd205e455";
   "6e400001-b5a3-f393-e0a9-e50e24dcca9e"].

(** A GATT service: its uuid and what [getCharacteristics()] settles
    with ([inl]: rejected with that message). *)
Record BluetoothRemoteGATTService := {
  service_uuid : string;
  getCharacteristics : string + list BluetoothRemoteGATTCharacteristic
}.

Record BluetoothRemoteGATTServer := {
  getPrimaryService : string -> string + BluetoothRemoteGATTService;
  getPrimaryServices : string + list BluetoothRemoteGATTService
}.

(** What the browser answers during one [connect]: whether
    [navigator.bluetooth] exists, what the device chooser settles with,
    and what [gatt.connect()] settles with -- the server, and the state
    the device's [gatt] object is in by then. *)
Record Host := {
  supported : bool;
  requestDevice : string + BluetoothDevice;
  gatt_connect : string + (BluetoothRemoteGATT * BluetoothRemoteGATTServer)
}.

Definition with_status (s : string) (c : BluetoothPrinterConnection)
    : BluetoothPrinterConnection :=
  {| device := device c; characteristic := characteristic c;
     isConnectedFlag := isConnectedFlag c; currentStatus := s;
     bluetoothId := bluetoothId c |}.

Definition with_device (d : option BluetoothDevice) (c : BluetoothPrinterConnection)
    : BluetoothPrinterConnection :=
  {| device := d; characteristic := characteristic c;
     isConnectedFlag := isConnectedFlag c; currentStatus := currentStatus c;
     bluetoothId := bluetoothId c |}.

Definition with_characteristic (ch : option BluetoothRemoteGATTCharacteristic)
    (c : BluetoothPrinterConnection) : BluetoothPrinterConnection :=
  {| device := device c; characteristic := ch;
     isConnectedFlag := isConnectedFlag c; currentStatus := currentStatus c;
     bluetoothId := bluetoothId c |}.

Definition with_gatt (g : BluetoothRemoteGATT) (d : BluetoothDevice) : BluetoothDevice :=
  {| id := id d; name := name d; gatt := Some g |}.

(** [getDeviceById(id)] *)
Definition getDeviceById (id : string) : string + BluetoothDevice :=
  inl "Device ID connection not implemented".

(** [for (const serviceUuid of this.ALTERNATIVE_SERVICE_UUIDS)]: the
    first service whose [getPrimaryService] resolves. *)
Fixpoint find_service (server : BluetoothRemoteGATTServer) (uuids : list string)
    : option BluetoothRemoteGATTService :=
  match uuids with
  | [] => None
  | serviceUuid :: rest =>
      match getPrimaryService server serviceUuid with
      | inr service => Some service
      | inl _ => find_service server rest
      end
  end.

(** [characteristics.find(c => c.properties.write ||
    c.properties.writeWithoutResponse) || characteristics[0]] *)
Definition pick_characteristic (characteristics : list BluetoothRemoteGATTCharacteristic)
    : option BluetoothRemoteGATTCharacteristic :=
  match List.find (fun c => write c || writeWithoutResponse c) characteristics with
  | Some c => Some c
  | None => head characteristics
  end.

(** The [catch] of [connect]. *)
Definition failed (m : string) (c : BluetoothPrinterConnection)
    : Outcome * BluetoothPrinterConnection :=
  (Rejected m, with_status ("Bluetooth error: " +:+ m) c).

(** [connect] from the point where [this.device] is set. *)
Definition connect_device (c : BluetoothPrinterConnection) (h : Host)
    : Outcome * BluetoothPrinterConnection :=
  let c := with_status "Connecting to Bluetooth printer..." c in
  match device c with
  | None => failed "GATT server not available" c
  | Some d =>
      match gatt d with
      | None => failed "GATT server not available" c
      | Some _ =>
          match gatt_connect h with
          | inl m => failed m c
          | inr (g, server) =>
              let c := with_device (Some (with_gatt g d)) c in
              let found :=
                match find_service server ALTERNATIVE_SERVICE_UUIDS with
                | Some service => inr service
                | None =>
                    match getPrimaryServices server with
                    | inl m => inl m
                    | inr [] => inl "No compatible printer service found"
                    | inr (service :: _) => inr service
                    end
                end in
              match found with
              | inl m => failed m c
              | inr service =>
                  match getCharacteristics service with
                  | inl m => failed m c
                  | inr characteristics =>
                      let c := with_characteristic
                                 (pick_characteristic characteristics) c in
                      match characteristic c with
                      | None => failed "No writable characteristic found" c
                      | Some _ =>
                          (Resolved,
                           {| device := device c;
                              characteristic := characteristic c;
                              isConnectedFlag := true;
                              currentStatus := "Connected to Bluetooth printer";
                              bluetoothId := bluetoothId c |})
                      end
                  end
              end
          end
      end
  end.

Definition connect (c : BluetoothPrinterConnection) (h : Host)
    : Outcome * BluetoothPrinterConnection :=
  let c := with_status "Scanning for Bluetooth printers..." c in
  if negb (supported h) then
    failed "Web Bluetooth API is not supported in this browser" c
  else
    let c :=
      match bluetoothId c with
      | Some bluetoothId =>
          if bool_decide (bluetoothId = "") then c
          else match getDeviceById bluetoothId with
               | inr d => with_device (Some d) c
               | inl _ => c
               end
      | None => c
      end in
    match device c with
    | Some _ => connect_device c h
    | None =>
        match requestDevice h with
        | inl m => failed m c
        | inr d => connect_device (with_device (Some d) c) h
        end
    end.

(** The [gattserverdisconnected] listener [connect] installs. *)
Definition gattserverdisconnected (c : BluetoothPrinterConnection)
    : BluetoothPrinterConnection :=
  {| device := device c; characteristic := characteristic c;
     isConnectedFlag := false;
     currentStatus := "Bluetooth printer disconnected";
     bluetoothId := bluetoothId c |}.

End Bluetooth.

(** ** USBPrinterConnection (connectivity/USBConnection.ts) *)
Module USB.

Record USBInterface := { interfaceNumber : nat; claimed : bool }.

Record USBConfiguration := { interfaces : list USBInterface }.

(** The WebUSB device object: whether it is open, its selected
    configuration, and the interface numbers claimed through it. *)
Record USBDevice := {
  opened : bool;
  configuration : option USBConfiguration;
  claimedInterfaces : list nat
}.

(** The constructor's [config] argument. *)
Record Filter := { vendorId : option N; productId : option N }.

Record USBPrinterConnection := {
  device : option USBDevice;
  isConnectedFlag : bool;
  currentStatus : string;
  config : Filter
}.

Definition new (f : Filter) : USBPrinterConnection :=
  {| device := None; isConnectedFlag := false;
     currentStatus := "Not connected"; config := f |}.

(** What the browser and the device answer during one [connect]:
    [claimInterface k n] is the outcome of the [k]-th [claimInterface]
    call of that [connect], made for interface number [n]. *)
Record Host := {
  requestDevice : string + USBDevice;
  open : Outcome;
  selectConfiguration : string + USBConfiguration;
  claimInterface : nat -> nat -> Outcome
}.

Definition set_opened (b : bool) (d : USBDevice) : USBDevice :=
  {| opened := b; configuration := configuration d;
     claimedInterfaces := claimedInterfaces d |}.

Definition set_configuration (c : USBConfiguration) (d : USBDevice) : USBDevice :=
  {| opened := opened d; configuration := Some c;
     claimedInterfaces := claimedInterfaces d |}.

Definition add_claim (n : nat) (d : USBDevice) : USBDevice :=
  {| opened := opened d; configuration := configuration d;
     claimedInterfaces := claimedInterfaces d ++ [n] |}.

(** [for (const iface of config.interfaces)]: claim the first interface
    that is not claimed and whose [claimInterface] resolves.  [k] counts
    the [claimInterface] calls made so far; the result is
    [(interfaceClaimed, device, k)]. *)
Fixpoint claim_listed (h : Host) (ifaces : list USBInterface)
    (d : USBDevice) (k : nat) : bool * USBDevice * nat :=
  match ifaces with
  | [] => (false, d, k)
  | iface :: rest =>
      if negb (claimed iface) then
        match claimInterface h k (interfaceNumber iface) with
        | Resolved => (true, add_claim (interfaceNumber iface) d, S k)
        | Rejected _ => claim_listed h rest d (S k)
        end
      else claim_listed h rest d k
  end.

(** [for (const interfaceNum of [0, 1, 2])] *)
Fixpoint claim_common (h : Host) (nums : list nat)
    (d : USBDevice) (k : nat) : bool * USBDevice * nat :=
  match nums with
  | [] => (false, d, k)
  | interfaceNum :: rest =>
      match claimInterface h k interfaceNum with
      | Resolved => (true, add_claim interfaceNum d, S k)
      | Rejected _ => claim_common h rest d (S k)
      end
  end.

Definition with_status (s : string) (c : USBPrinterConnection) : USBPrinterConnection :=
  {| device := device c; isConnectedFlag := isConnectedFlag c;
     currentStatus := s; config := config c |}.

(** The [catch] of [connect]. *)
Definition failed (m : string) (c : USBPrinterConnection)
    (d : option USBDevice) : Outcome * USBPrinterConnection * option USBDevice :=
  (Rejected m, with_status ("Error: " +:+ m) c, d).

(** [connect]: the outcome, the connection object afterwards, and the
    device object afterwards ([None] when none was handed out). *)
Definition connect (c : USBPrinterConnection) (h : Host)
    : Outcome * USBPrinterConnection * option USBDevice :=
  let c := with_status "Connecting..." c in
  match requestDevice h with
  | inl m => failed m c None
  | inr d =>
      match open h with
      | Rejected m => failed m c (Some d)
      | Resolved =>
          let d := set_opened true d in
          let selected :=
            match configuration d with
            | None =>
                match selectConfiguration h with
                | inl m => inl m
                | inr cfg => inr (set_configuration cfg d)
                end
            | Some _ => inr d
            end in
          match selected with
          | inl m => failed m c (Some d)
          | inr d =>
              let '(interfaceClaimed, d, k) :=
                match configuration d with
                | Some cfg => claim_listed h (interfaces cfg) d 0
                | None => (false, d, 0)
                end in
              let '(interfaceClaimed, d, k) :=
                if negb interfaceClaimed
                then claim_common h [0; 1; 2] d k
                else (interfaceClaimed, d, k) in
              if negb interfaceClaimed then
                failed "Could not claim any interface" c (Some d)
              else
                (Resolved,
                 {| device := Some d; isConnectedFlag := true;
                    currentStatus := "Connected"; config := config c |},
                 Some d)
          end
      end
  end.

(** [disconnect], given the outcome of [device.close()] should it be
    called; the boolean tells whether it was called. *)
Definition disconnect (c : USBPrinterConnection) (close : Outcome)
    : USBPrinterConnection * bool :=
  ({| device := None; isConnectedFlag := false;
      currentStatus := "Disconnected"; config := config c |},
   match device c with Some _ => true | None => false end).

Definition isConnected (c : USBPrinterConnection) : bool := isConnectedFlag c.

Definition getStatus (c : USBPrinterConnection) : string := currentStatus c.

(** What [device.transferOut(endpoint, data)] settles with during one
    [print], by endpoint number. *)
Definition Transfers := nat -> Outcome.

(** [for (const endpoint of endpoints)]: the outcome of [print] and the
    [transferOut] calls it made, in order. *)
Fixpoint try_endpoints (out : Transfers) (endpoints : list nat)
    (data : Uint8Array) : Outcome * list (nat * Uint8Array) :=
  match endpoints with
  | [] => (Rejected "Could not find working endpoint", [])
  | endpoint :: rest =>
      match out endpoint with
      | Resolved => (Resolved, [(endpoint, data)])
      | Rejected _ =>
          let '(o, ts) := try_endpoints out rest data in
          (o, (endpoint, data) :: ts)
      end
  end.

Definition print (c : USBPrinterConnection) (out : Transfers)
    (data : Uint8Array) : Outcome * list (nat * Uint8Array) :=
  match device c with
  | None => (Rejected "No USB device connected", [])
  | Some _ => try_endpoints out [1; 2; 3] data
  end.

End USB.

(** ** The proxy server's relay of one WebSocket message (proxy-server.js) *)
Module Proxy.

(** The JSON messages the proxy sends to the browser. *)
Inductive Message :=
  | response (data : Uint8Array)
  | status (message : string)
  | error (message : string)
  | connected (message : string).

(** Events of the TCP socket opened for one message. *)
Inductive SocketEvent :=
  | on_connect
  | on_data (response : Uint8Array)
  | on_close
  | on_error (message : string)
  | on_timeout.

(** What a handler does. *)
Inductive Action :=
  | socket_write (data : Uint8Array)
  | socket_end_after (ms : nat)
  | socket_destroy
  | ws_send (m : Message).

(** [if (ws.readyState === WebSocket.OPEN) ws.send(...)] *)
Definition send_if_open (ws_open : bool) (m : Message) : list Action :=
  if ws_open then [ws_send m] else [].

(** The handlers registered in [ws.on('message', ...)] for the socket
    that carries [data]. *)
Definition handle (ws_open : bool) (data : Uint8Array) (e : SocketEvent)
    : list Action :=
  match e with
  | on_connect => [socket_write data; socket_end_after 1000]
  | on_data r => send_if_open ws_open (response r)
  | on_close => send_if_open ws_open (status "Print job completed")
  | on_error m => send_if_open ws_open (error m)
  | on_timeout => socket_destroy :: send_if_open ws_open (error "Connection timeout")
  end.

(** All the proxy does for one message whose socket goes through the
    events [es]. *)
Definition relay (ws_open : bool) (data : Uint8Array) (es : list SocketEvent)
    : list Action :=
  concat (map (handle ws_open data) es).

(** The messages that reach the browser. *)
Definition sent (acts : list Action) : list Message :=
  omap (fun a => match a with ws_send m => Some m | _ => None end) acts.

End Proxy.

(** ** NetworkPrinterConnection (connectivity/NetworkConnection.ts) *)
Module Network.

Inductive ReadyState := CONNECTING | OPEN | CLOSING | CLOSED.

(** The browser's WebSocket object.  [connect] sets [onopen], [onerror]
    and [onclose] on it and no [onmessage]. *)
Record WebSocket := {
  url : string;
  readyState : ReadyState
}.

Record NetworkPrinterConnection := {
  isConnectedFlag : bool;
  currentStatus : string;
  socket : option WebSocket;
  ipAddress : string;
  port : N
}.

Definition new (ipAddress : string) (port : N) : NetworkPrinterConnection :=
  {| isConnectedFlag := false; currentStatus := "Not connected";
     socket := None; ipAddress := ipAddress; port := port |}.

(** A settled [fetch]: rejected, or a response with its [ok] flag. *)
Inductive Fetched :=
  | fetch_failed (message : string)
  | fetch_response (ok : bool).

(** The two requests [printViaHTTP] can make. *)
Record Http := {
  post_printer : Fetched;      (* POST http://ip:port/print, no-cors *)
  post_api : Fetched           (* POST /api/network-print *)
}.

(** What [print] does to the outside. *)
Inductive Effect :=
  | socket_send (data : Uint8Array)
  | fetch_printer (data : Uint8Array)
  | fetch_api (data : Uint8Array).

Definition printViaHTTP (c : NetworkPrinterConnection) (http : Http)
    (data : Uint8Array) : Outcome * list Effect :=
  match post_printer http with
  | fetch_response _ => (Resolved, [fetch_printer data])
  | fetch_failed _ =>
      match post_api http with
      | fetch_response _ => (Resolved, [fetch_printer data; fetch_api data])
      | fetch_failed m => (Rejected m, [fetch_printer data; fetch_api data])
      end
  end.

Definition socket_open (c : NetworkPrinterConnection) : bool :=
  match socket c with
  | Some s => match readyState s with OPEN => true | _ => false end
  | None => false
  end.

Definition print (c : NetworkPrinterConnection) (http : Http)
    (data : Uint8Array) : Outcome * list Effect :=
  if negb (isConnectedFlag c) then
    (Rejected "Network printer not connected", [])
  else if socket_open c then
    (Resolved, [socket_send data])
  else printViaHTTP c http data.

(** The [onopen] and [onclose] handlers installed by [connect]. *)
Definition onopen (c : NetworkPrinterConnection) : NetworkPrinterConnection :=
  {| isConnectedFlag := true; currentStatus := "Connected to network printer";
     socket := socket c; ipAddress := ipAddress c; port := port c |}.

Definition onclose (c : NetworkPrinterConnection) : NetworkPrinterConnection :=
  {| isConnectedFlag := false; currentStatus := "Connection closed";
     socket := socket c; ipAddress := ipAddress c; port := port c |}.

(** A message event on the socket: with no [onmessage] handler the
    message is dropped and the connection object stays as it is. *)
Definition onmessage (c : NetworkPrinterConnection) (m : Proxy.Message)
    : NetworkPrinterConnection := c.

Definition disconnect (c : NetworkPrinterConnection) : NetworkPrinterConnection :=
  {| isConnectedFlag := false; currentStatus := "Disconnected";
     socket := None; ipAddress := ipAddress c; port := port c |}.

Definition isConnected (c : NetworkPrinterConnection) : bool := isConnectedFlag c.

Definition getStatus (c : NetworkPrinterConnection) : string := currentStatus c.

(** One [print] through the proxy: the driver's outcome, what it did, the
    messages the proxy sent back while the TCP socket went through [es]
    (nothing when the payload did not go over the WebSocket), and the
    connection object after those messages were delivered. *)
Definition print_relayed (c : NetworkPrinterConnection) (http : Http)
    (data : Uint8Array) (es : list Proxy.SocketEvent)
    : Outcome * list Effect * list Proxy.Message * NetworkPrinterConnection :=
  let '(o, effs) := print c http data in
  let msgs :=
    flat_map (fun e => match e with
                       | socket_send d => Proxy.sent (Proxy.relay true d es)
                       | _ => []
                       end) effs in
  (o, effs, msgs, foldl onmessage c msgs).

(** The address [connect] opens its WebSocket to. *)
Definition wsUrl (c : NetworkPrinterConnection) : string :=
  "ws://localhost:8080/printer-proxy?ip=" +:+ ipAddress c
  +:+ "&port=" +:+ pretty (port c).

(** [connectDirect], given what the [fetch] of the printer's [/status]
    settles with. *)
Definition connectDirect (c : NetworkPrinterConnection) (status : Fetched)
    : Outcome * NetworkPrinterConnection :=
  (Resolved,
   {| isConnectedFlag := true;
      currentStatus :=
        match status with
        | fetch_response _ => "Connected to network printer"
        | fetch_failed _ => "Network printer ready (direct mode)"
        end;
      socket := socket c; ipAddress := ipAddress c; port := port c |}).

(** [testConnection], given what the [fetch] of [/api/test-printer]
    settles with. *)
Definition testConnection (c : NetworkPrinterConnection) (test : Fetched) : bool :=
  match test with
  | fetch_response ok => ok
  | fetch_failed _ => false
  end.

(** *** [connect] *)

(** What happens to a WebSocket made by [connect]. *)
Inductive WsEvent := ws_open | ws_error | ws_close.

Definition with_status (s : string) (c : NetworkPrinterConnection)
    : NetworkPrinterConnection :=
  {| isConnectedFlag := isConnectedFlag c; currentStatus := s;
     socket := socket c; ipAddress := ipAddress c; port := port c |}.

(** The [onerror] handler installed by [connect]. *)
Definition onerror (c : NetworkPrinterConnection) : NetworkPrinterConnection :=
  with_status "Network connection failed" c.

(** The browser's part of an event: the socket is [OPEN] when its
    [onopen] handler runs and [CLOSED] when its [onclose] handler runs. *)
Definition ready (e : WsEvent) (s : WebSocket) : WebSocket :=
  {| url := url s;
     readyState := match e with
                   | ws_open => OPEN
                   | ws_error => readyState s
                   | ws_close => CLOSED
                   end |}.

(** An event of the object's socket: the socket changes state, then the
    handler [connect] installed for the event runs. *)
Definition handle (c : NetworkPrinterConnection) (e : WsEvent)
    : NetworkPrinterConnection :=
  let c := {| isConnectedFlag := isConnectedFlag c;
              currentStatus := currentStatus c;
              socket := ready e <$> socket c;
              ipAddress := ipAddress c; port := port c |} in
  match e with
  | ws_open => onopen c
  | ws_error => onerror c
  | ws_close => onclose c
  end.

(** What the handlers do to the promise of [connect]: [onopen] resolves
    it, [onerror] rejects it, and a promise settles once. *)
Fixpoint settled_by (es : list WsEvent) : option Outcome :=
  match es with
  | [] => None
  | ws_open :: _ => Some Resolved
  | ws_error :: _ => Some (Rejected "Failed to connect to network printer")
  | ws_close :: es => settled_by es
  end.

(** [connect]: [thrown] is the message of the exception [new
    WebSocket(wsUrl)] throws, if it throws, and [es] the events of the
    socket afterwards.  The result is what the promise settled with
    ([None]: it is still pending after [es]) and the connection object
    after the handlers ran. *)
Definition connect (c : NetworkPrinterConnection) (thrown : option string)
    (es : list WsEvent) : option Outcome * NetworkPrinterConnection :=
  let c := with_status "Connecting to network printer..." c in
  match thrown with
  | Some m => (Some (Rejected m), with_status ("Error: " +:+ m) c)
  | None =>
      let c := {| isConnectedFlag := isConnectedFlag c;
                  currentStatus := currentStatus c;
                  socket := Some {| url := wsUrl c; readyState := CONNECTING |};
                  ipAddress := ipAddress c; port := port c |} in
      (settled_by es, foldl handle c es)
  end.

End Network.

(** ** APIPrinterConnection (connectivity/APIConnection.ts), as far as the
    manager sees it *)
Module API.

Record APIPrinterConnection := {
  isConnectedFlag : bool;
  currentStatus : string;
  apiEndpoint : string;
  apiKey : option string
}.

Definition new (apiEndpoint : string) (apiKey : option string) : APIPrinterConnection :=
  {| isConnectedFlag := false; currentStatus := "Not connected";
     apiEndpoint := apiEndpoint; apiKey := apiKey |}.

Definition isConnected (c : APIPrinterConnection) : bool := isConnectedFlag c.

Definition getStatus (c : APIPrinterConnection) : string := currentStatus c.

End API.

(** ** PrinterManager (utils/PrinterManager.ts) *)
Module Manager.

(** *** types/printer.ts *)

Inductive PrinterConnectionType := usb | network | bluetooth | api.

(** The string a [PrinterConnectionType] is at run time. *)
Definition type_name (t : PrinterConnectionType) : string :=
  match t with
  | usb => "usb" | network => "network"
  | bluetooth => "bluetooth" | api => "api"
  end.

Module PrinterConfig.
Record t := {
  name : string;
  type : PrinterConnectionType;
  model : option string;
  paperWidth : option N;
  vendorId : option N;
  productId : option N;
  ipAddress : option string;
  port : option N;
  bluetoothId : option string;
  apiEndpoint : option string;
  apiKey : option string
}.
End PrinterConfig.

Inductive Status := connected | disconnected | connecting | error.

#[global] Instance Status_eq_dec : EqDecision Status.
Proof. solve_decision. Defined.

(** Dates are milliseconds since the epoch. *)
Module PrinterDevice.
Record t := {
  id : string;
  name : string;
  type : PrinterConnectionType;
  status : Status;
  lastUsed : option N;
  config : PrinterConfig.t
}.

Definition set_status (s : Status) (d : t) : t :=
  {| id := id d; name := name d; type := type d; status := s;
     lastUsed := lastUsed d; config := config d |}.

Definition set_lastUsed (now : N) (d : t) : t :=
  {| id := id d; name := name d; type := type d; status := status d;
     lastUsed := Some now; config := config d |}.
End PrinterDevice.

Inductive JobStatus := pending | printing | completed | failed.

#[global] Instance JobStatus_eq_dec : EqDecision JobStatus.
Proof. solve_decision. Defined.

Module PrintJob.
Record t := {
  id : string;
  printerId : string;
  data : Uint8Array;
  timestamp : N;
  status : JobStatus;
  retries : option N;
  error : option string
}.

Definition set_status (s : JobStatus) (j : t) : t :=
  {| id := id j; printerId := printerId j; data := data j;
     timestamp := timestamp j; status := s; retries := retries j;
     error := error j |}.

Definition set_error (m : string) (j : t) : t :=
  {| id := id j; printerId := printerId j; data := data j;
     timestamp := timestamp j; status := status j; retries := retries j;
     error := Some m |}.
End PrintJob.

(** The four classes behind the [PrinterConnection] interface. *)
Inductive PrinterConnection :=
  | USBPrinterConnection (c : USB.USBPrinterConnection)
  | NetworkPrinterConnection (c : Network.NetworkPrinterConnection)
  | BluetoothPrinterConnection (c : Bluetooth.BluetoothPrinterConnection)
  | APIPrinterConnection (c : API.APIPrinterConnection).

Definition isConnected (c : PrinterConnection) : bool :=
  match c with
  | USBPrinterConnection c => USB.isConnected c
  | NetworkPrinterConnection c => Network.isConnected c
  | BluetoothPrinterConnection c => Bluetooth.isConnected c
  | APIPrinterConnection c => API.isConnected c
  end.

Definition getStatus (c : PrinterConnection) : string :=
  match c with
  | USBPrinterConnection c => USB.getStatus c
  | NetworkPrinterConnection c => Network.getStatus c
  | BluetoothPrinterConnection c => Bluetooth.getStatus c
  | APIPrinterConnection c => API.getStatus c
  end.

(** *** What the manager does to the outside *)

(** [emit(event, data)]: the event and the value of [data] when it was
    emitted; a job is named by its place in the object store. *)
Inductive Event :=
  | printerAdded (printer : PrinterDevice.t)
  | printerRemoved (id : string)
  | activePrinterChanged (id : string)
  | printerStatusChanged (id : string) (status : Status) (error : option string)
  | printJobAdded (job : nat) (now : PrintJob.t)
  | printJobUpdated (job : nat) (now : PrintJob.t)
  | printQueueCleared
  | printJobRemoved (jobId : string).

(** Calls on connection objects, which are named by their place in the
    object store: construction in [connectPrinter(id)], the three
    interface methods that do I/O, and the settling of their promises. *)
Inductive Method := connect | disconnect | print (data : Uint8Array).

Inductive DriverCall :=
  | constructed (c : nat) (id : string)
  | called (c : nat) (m : Method)
  | settled (c : nat) (m : Method) (o : Outcome).

(** The item [thermalPrinters] of [localStorage]. *)
Inductive Item :=
  | no_item
  | malformed
  | saved (printersData : list PrinterDevice.t).

(** *** The manager and the objects it refers to *)

Record World := {
  (* fields of PrinterManager; a number is a reference into the store *)
  printers : gmap string nat;
  connections : gmap string nat;
  activePrinterId : option string;
  printQueue : nat;
  (* object store *)
  devices : list PrinterDevice.t;
  connObjs : list PrinterConnection;
  jobs : list PrintJob.t;
  arrays : list (list nat);
  (* environment *)
  window : bool;
  localStorage : Item;
  emitted : list Event;
  calls : list DriverCall
}.

Definition set_printers (f : gmap string nat -> gmap string nat) (w : World) : World :=
  {| printers := f (printers w); connections := connections w;
     activePrinterId := activePrinterId w; printQueue := printQueue w;
     devices := devices w; connObjs := connObjs w; jobs := jobs w;
     arrays := arrays w; window := window w; localStorage := localStorage w;
     emitted := emitted w; calls := calls w |}.

Definition set_connections (f : gmap string nat -> gmap string nat) (w : World) : World :=
  {| printers := printers w; connections := f (connections w);
     activePrinterId := activePrinterId w; printQueue := printQueue w;
     devices := devices w; connObjs := connObjs w; jobs := jobs w;
     arrays := arrays w; window := window w; localStorage := localStorage w;
     emitted := emitted w; calls := calls w |}.

Definition set_activePrinterId (a : option string) (w : World) : World :=
  {| printers := printers w; connections := connections w;
     activePrinterId := a; printQueue := printQueue w;
     devices := devices w; connObjs := connObjs w; jobs := jobs w;
     arrays := arrays w; window := window w; localStorage := localStorage w;
     emitted := emitted w; calls := calls w |}.

Definition set_printQueue (q : nat) (w : World) : World :=
  {| printers := printers w; connections := connections w;
     activePrinterId := activePrinterId w; printQueue := q;
     devices := devices w; connObjs := connObjs w; jobs := jobs w;
     arrays := arrays w; window := window w; localStorage := localStorage w;
     emitted := emitted w; calls := calls w |}.

Definition set_devices (f : list PrinterDevice.t -> list PrinterDevice.t) (w : World) : World :=
  {| printers := printers w; connections := connections w;
     activePrinterId := activePrinterId w; printQueue := printQueue w;
     devices := f (devices w); connObjs := connObjs w; jobs := jobs w;
     arrays := arrays w; window := window w; localStorage := localStorage w;
     emitted := emitted w; calls := calls w |}.

Definition set_connObjs (f : list PrinterConnection -> list PrinterConnection) (w : World) : World :=
  {| printers := printers w; connections := connections w;
     activePrinterId := activePrinterId w; printQueue := printQueue w;
     devices := devices w; connObjs := f (connObjs w); jobs := jobs w;
     arrays := arrays w; window := window w; localStorage := localStorage w;
     emitted := emitted w; calls := calls w |}.

Definition set_jobs (f : list PrintJob.t -> list PrintJob.t) (w : World) : World :=
  {| printers := printers w; connections := connections w;
     activePrinterId := activePrinterId w; printQueue := printQueue w;
     devices := devices w; connObjs := connObjs w; jobs := f (jobs w);
     arrays := arrays w; window := window w; localStorage := localStorage w;
     emitted := emitted w; calls := calls w |}.

Definition set_arrays (f : list (list nat) -> list (list nat)) (w : World) : World :=
  {| printers := printers w; connections := connections w;
     activePrinterId := activePrinterId w; printQueue := printQueue w;
     devices := devices w; connObjs := connObjs w; jobs := jobs w;
     arrays := f (arrays w); window := window w; localStorage := localStorage w;
     emitted := emitted w; calls := calls w |}.

Definition set_localStorage (i : Item) (w : World) : World :=
  {| printers := printers w; connections := connections w;
     activePrinterId := activePrinterId w; printQueue := printQueue w;
     devices := devices w; connObjs := connObjs w; jobs := jobs w;
     arrays := arrays w; window := window w; localStorage := i;
     emitted := emitted w; calls := calls w |}.

(** [this.emit(event, data)]; listeners only observe. *)
Definition emit (e : Event) (w : World) : World :=
  {| printers := printers w; connections := connections w;
     activePrinterId := activePrinterId w; printQueue := printQueue w;
     devices := devices w; connObjs := connObjs w; jobs := jobs w;
     arrays := arrays w; window := window w; localStorage := localStorage w;
     emitted := emitted w ++ [e]; calls := calls w |}.

Definition log (c : DriverCall) (w : World) : World :=
  {| printers := printers w; connections := connections w;
     activePrinterId := activePrinterId w; printQueue := printQueue w;
     devices := devices w; connObjs := connObjs w; jobs := jobs w;
     arrays := arrays w; window := window w; localStorage := localStorage w;
     emitted := emitted w; calls := calls w ++ [c] |}.

(** [this.printers.get(id)]: the object and what it holds now. *)
Definition get_printer (w : World) (id : string) : option (nat * PrinterDevice.t) :=
  p ← printers w !! id; d ← devices w !! p; Some (p, d).

(** [this.connections.get(id)] *)
Definition get_connection (w : World) (id : string) : option (nat * PrinterConnection) :=
  c ← connections w !! id; o ← connObjs w !! c; Some (c, o).

(** The contents of the array [this.printQueue]. *)
Definition queue (w : World) : list nat := default [] (arrays w !! printQueue w).

(** [Array.from(this.printers.values())], its order left open. *)
Definition values (w : World) : list PrinterDevice.t :=
  omap (fun p => devices w !! p) (map_to_list (printers w)).*2.

(** *** Persistence *)

Definition savePrinters (w : World) : World :=
  set_localStorage
    (if window w then saved (values w) else localStorage w) w.

(** The body of [printersData.forEach]. *)
Definition load_one (w : World) (printer : PrinterDevice.t) : World :=
  let p := length (devices w) in
  let w := set_devices
             (fun ds => ds ++ [PrinterDevice.set_status disconnected printer]) w in
  set_printers <[PrinterDevice.id printer := p]> w.

Definition loadSavedPrinters (w : World) : World :=
  if window w then
    match localStorage w with
    | saved printersData => foldl load_one w printersData
    | _ => w
    end
  else w.

(** [new PrinterManager()] in a page ([window = true]) or on the server,
    with the given stored item. *)
Definition init (window : bool) (stored : Item) : World :=
  loadSavedPrinters
    {| printers := ∅; connections := ∅; activePrinterId := None;
       printQueue := 0; devices := []; connObjs := []; jobs := [];
       arrays := [[]]; window := window; localStorage := stored;
       emitted := []; calls := [] |}.

(** *** Calls that finish, throw, or wait for a driver *)

Inductive Started (K R : Type) :=
  | Returned (r : R) (w : World)
  | Threw (message : string) (w : World)
  | Awaiting (k : K) (w : World).
Arguments Returned {K R}.
Arguments Threw {K R}.
Arguments Awaiting {K R}.

Inductive Settled (R : Type) :=
  | Fulfilled (r : R) (w : World)
  | Failed (message : string) (w : World).
Arguments Fulfilled {R}.
Arguments Failed {R}.

Definition world_of {R} (s : Settled R) : World :=
  match s with Fulfilled _ w => w | Failed _ w => w end.

Definition started_world {K R} (s : Started K R) : World :=
  match s with Returned _ w => w | Threw _ w => w | Awaiting _ w => w end.

(** A call that is awaited with nothing else running in between. *)
Definition complete {K R} (finish : K -> World -> Settled R)
    (s : Started K R) : Settled R :=
  match s with
  | Returned r w => Fulfilled r w
  | Threw m w => Failed m w
  | Awaiting k w => finish k w
  end.

(** A connection object changes under the driver's own code (a method
    running, a socket closing). *)
Definition driver_sets (c : nat) (st : PrinterConnection) (w : World) : World :=
  set_connObjs <[c := st]> w.

(** *** Printer management *)

(** [Math.random().toString(36).substr(2, 9)], [rnd] being what
    [Math.random().toString(36)] returned. *)
Definition suffix (rnd : string) : string := String.substring 2 9 rnd.

(** The id [addPrinter] builds from the type, the clock and the random
    number. *)
Definition printer_id (config : PrinterConfig.t) (now : N) (rnd : string) : string :=
  type_name (PrinterConfig.type config) +:+ "_" +:+ pretty now
  +:+ "_" +:+ suffix rnd.

(** [addPrinter(config)] with the clock at [now]. *)
Definition addPrinter (config : PrinterConfig.t) (now : N) (rnd : string)
    (w : World) : Settled string :=
  let id := printer_id config now rnd in
  let printer :=
    {| PrinterDevice.id := id;
       PrinterDevice.name := PrinterConfig.name config;
       PrinterDevice.type := PrinterConfig.type config;
       PrinterDevice.status := disconnected;
       PrinterDevice.lastUsed := None;
       PrinterDevice.config := config |} in
  let p := length (devices w) in
  let w := set_devices (fun ds => ds ++ [printer]) w in
  let w := set_printers <[id := p]> w in
  let w := savePrinters w in
  let w := emit (printerAdded printer) w in
  Fulfilled id w.

Definition getPrinters (w : World) : list PrinterDevice.t := values w.

Definition getPrinter (w : World) (id : string) : option PrinterDevice.t :=
  snd <$> get_printer w id.

(** A string in a condition: the empty string counts as absent. *)
Definition truthy (s : option string) : option string :=
  match s with
  | Some s => if bool_decide (s = "") then None else Some s
  | None => None
  end.

Definition getActivePrinter (w : World) : option PrinterDevice.t :=
  id ← truthy (activePrinterId w); getPrinter w id.

Definition setActivePrinter (id : string) (w : World) : bool * World :=
  match printers w !! id with
  | None => (false, w)
  | Some _ =>
      (true, emit (activePrinterChanged id) (set_activePrinterId (Some id) w))
  end.

(** *** Connection management *)

(** [config.port || 9100] *)
Definition port_or_default (port : option N) : N :=
  match port with
  | Some p => if (p =? 0)%N then 9100%N else p
  | None => 9100%N
  end.

(** [createConnection(config)]; [config.ipAddress!] and
    [config.apiEndpoint!] that are missing reach the constructors as
    [undefined], written here as the text it becomes in a URL. *)
Definition createConnection (config : PrinterConfig.t) : PrinterConnection :=
  match PrinterConfig.type config with
  | usb =>
      USBPrinterConnection
        (USB.new {| USB.vendorId := PrinterConfig.vendorId config;
                    USB.productId := PrinterConfig.productId config |})
  | network =>
      NetworkPrinterConnection
        (Network.new (default "undefined" (PrinterConfig.ipAddress config))
                     (port_or_default (PrinterConfig.port config)))
  | bluetooth =>
      BluetoothPrinterConnection
        (Bluetooth.new (PrinterConfig.bluetoothId config))
  | api =>
      APIPrinterConnection
        (API.new (default "undefined" (PrinterConfig.apiEndpoint config))
                 (PrinterConfig.apiKey config))
  end.

(** Local variables of [connectPrinter] at [await connection.connect()]. *)
Record ConnectK := { ck_id : string; ck_printer : nat; ck_connection : nat }.

Definition connectPrinter_begin (id : string) (w : World)
    : Started ConnectK unit :=
  match get_printer w id with
  | None => Threw "Printer not found" w
  | Some (p, printer) =>
      match PrinterDevice.status printer with
      | connected => Returned () w
      | _ =>
          let w := set_devices (alter (PrinterDevice.set_status connecting) p) w in
          let w := emit (printerStatusChanged id connecting None) w in
          let c := length (connObjs w) in
          let w := set_connObjs
                     (fun cs => cs ++ [createConnection (PrinterDevice.config printer)])
                     w in
          let w := log (constructed c id) w in
          let w := log (called c connect) w in
          Awaiting {| ck_id := id; ck_printer := p; ck_connection := c |} w
      end
  end.

(** The rest of [connectPrinter] once [connection.connect()] settled with
    [o], the clock being at [now]. *)
Definition connectPrinter_finish (k : ConnectK) (o : Outcome) (now : N)
    (w : World) : Settled unit :=
  let w := log (settled (ck_connection k) connect o) w in
  match o with
  | Resolved =>
      let w := set_connections <[ck_id k := ck_connection k]> w in
      let w := set_devices
                 (alter (fun d => PrinterDevice.set_lastUsed now
                                    (PrinterDevice.set_status connected d))
                        (ck_printer k)) w in
      let w := savePrinters w in
      let w := emit (printerStatusChanged (ck_id k) connected None) w in
      Fulfilled () w
  | Rejected m =>
      let w := set_devices (alter (PrinterDevice.set_status error) (ck_printer k)) w in
      let w := emit (printerStatusChanged (ck_id k) error (Some m)) w in
      Failed m w
  end.

(** Local variables of [disconnectPrinter] at
    [await connection.disconnect()]. *)
Record DisconnectK := { dk_id : string; dk_printer : nat; dk_connection : nat }.

Definition disconnectPrinter_begin (id : string) (w : World)
    : Started DisconnectK unit :=
  match get_printer w id, get_connection w id with
  | Some (p, _), Some (c, _) =>
      Awaiting {| dk_id := id; dk_printer := p; dk_connection := c |}
               (log (called c disconnect) w)
  | _, _ => Returned () w
  end.

(** The rest of [disconnectPrinter]; a rejection is only written to the
    console. *)
Definition disconnectPrinter_finish (k : DisconnectK) (o : Outcome)
    (w : World) : Settled unit :=
  let w := log (settled (dk_connection k) disconnect o) w in
  let w := set_devices (alter (PrinterDevice.set_status disconnected) (dk_printer k)) w in
  let w := set_connections (delete (dk_id k)) w in
  let w := emit (printerStatusChanged (dk_id k) disconnected None) w in
  Fulfilled () w.

(** [removePrinter(id)].  The [disconnectPrinter(id)] it calls is not
    awaited: that call runs up to its [await] and its rest, if any, is
    returned to be run later. *)
Definition removePrinter (id : string) (w : World)
    : bool * World * option DisconnectK :=
  match get_printer w id with
  | None => (false, w, None)
  | Some (_, printer) =>
      let '(w, rest) :=
        match PrinterDevice.status printer with
        | connected =>
            match disconnectPrinter_begin id w with
            | Awaiting k w => (w, Some k)
            | Returned _ w | Threw _ w => (w, None)
            end
        | _ => (w, None)
        end in
      let w := set_printers (delete id) w in
      let w := set_connections (delete id) w in
      let w := if bool_decide (activePrinterId w = Some id)
               then set_activePrinterId None w else w in
      let w := savePrinters w in
      let w := emit (printerRemoved id) w in
      (true, w, rest)
  end.

(** [disconnectAll()]: every [disconnectPrinter(id)] runs up to its
    [await] inside [map]; the calls that wait are returned.  The ids are
    distinct, and the order in which the map hands them out only shows in
    the order of the logged calls. *)
Definition disconnectAll_begin (w : World) : list DisconnectK * World :=
  foldl (fun '(ks, w) id =>
           match disconnectPrinter_begin id w with
           | Awaiting k w => (ks ++ [k], w)
           | Returned _ w | Threw _ w => (ks, w)
           end)
        ([], w) (map_to_list (printers w)).*1.

(** *** Printing *)

(** Local variables of [print] at [await connection.print(data)]. *)
Record PrintK := {
  pk_data : Uint8Array; pk_jobId : string; pk_job : nat;
  pk_printer : nat; pk_connection : nat
}.

(** [printerId || this.activePrinterId] *)
Definition target (printerId : option string) (w : World) : option string :=
  match truthy printerId with
  | Some id => Some id
  | None => truthy (activePrinterId w)
  end.

Definition print_begin (data : Uint8Array) (printerId : option string)
    (now : N) (rnd : string) (w : World) : Started PrintK string :=
  match target printerId w with
  | None => Threw "No printer selected" w
  | Some targetId =>
      match get_printer w targetId, get_connection w targetId with
      | Some (p, _), Some (c, connection) =>
          if negb (isConnected connection) then Threw "Printer not connected" w
          else
            let jobId := "job_" +:+ pretty now +:+ "_" +:+ suffix rnd in
            let job :=
              {| PrintJob.id := jobId; PrintJob.printerId := targetId;
                 PrintJob.data := data; PrintJob.timestamp := now;
                 PrintJob.status := pending; PrintJob.retries := None;
                 PrintJob.error := None |} in
            let j := length (jobs w) in
            let w := set_jobs (fun js => js ++ [job]) w in
            let w := set_arrays (alter (fun q => q ++ [j]) (printQueue w)) w in
            let w := emit (printJobAdded j job) w in
            let job := PrintJob.set_status printing job in
            let w := set_jobs <[j := job]> w in
            let w := emit (printJobUpdated j job) w in
            let w := log (called c (print data)) w in
            Awaiting {| pk_data := data; pk_jobId := jobId; pk_job := j;
                        pk_printer := p; pk_connection := c |} w
      | _, _ => Threw "Printer not found or not connected" w
      end
  end.

(** [emit('printJobUpdated', job)] with what the job object holds now. *)
Definition emit_job (j : nat) (w : World) : World :=
  match jobs w !! j with
  | Some job => emit (printJobUpdated j job) w
  | None => w
  end.

(** The rest of [print] once [connection.print(data)] settled with [o]. *)
Definition print_finish (k : PrintK) (o : Outcome) (now : N) (w : World)
    : Settled string :=
  let w := log (settled (pk_connection k) (print (pk_data k)) o) w in
  match o with
  | Resolved =>
      let w := set_jobs (alter (PrintJob.set_status completed) (pk_job k)) w in
      let w := set_devices (alter (PrinterDevice.set_lastUsed now) (pk_printer k)) w in
      let w := emit_job (pk_job k) w in
      let w := savePrinters w in
      Fulfilled (pk_jobId k) w
  | Rejected m =>
      let w := set_jobs
                 (alter (fun j => PrintJob.set_error m (PrintJob.set_status failed j))
                        (pk_job k)) w in
      let w := emit_job (pk_job k) w in
      Failed m w
  end.

(** *** Print queue management *)

(** [getPrintQueue()]: a new array with the queue's elements. *)
Definition getPrintQueue (w : World) : nat * World :=
  (length (arrays w), set_arrays (fun hs => hs ++ [queue w]) w).

Definition clearPrintQueue (w : World) : World :=
  let q := length (arrays w) in
  let w := set_arrays (fun hs => hs ++ [[]]) w in
  let w := set_printQueue q w in
  emit printQueueCleared w.

(** [this.printQueue.findIndex(job => job.id === jobId)] *)
Fixpoint findIndex (w : World) (jobId : string) (q : list nat) : option nat :=
  match q with
  | [] => None
  | j :: rest =>
      match jobs w !! j with
      | Some job =>
          if bool_decide (PrintJob.id job = jobId) then Some 0
          else S <$> findIndex w jobId rest
      | None => S <$> findIndex w jobId rest
      end
  end.

Definition removePrintJob (jobId : string) (w : World) : bool * World :=
  match findIndex w jobId (queue w) with
  | None => (false, w)
  | Some index =>
      let w := set_arrays (alter (delete index) (printQueue w)) w in
      (true, emit (printJobRemoved jobId) w)
  end.

(** What a caller can do to an array it holds: [push] and
    [splice(index, 1)]. *)
Definition array_push (a : nat) (x : nat) (w : World) : World :=
  set_arrays (alter (fun l => l ++ [x]) a) w.

Definition array_splice (a : nat) (index : nat) (w : World) : World :=
  set_arrays (alter (delete index) a) w.

(** *** Utility methods *)

Definition getConnectionStatus (w : World) (id : string) : string :=
  match get_connection w id with
  | Some (_, connection) => getStatus connection
  | None => "Not connected"
  end.

(** *** Calls awaited one at a time

    Each function below is one call of a public method that is run to its
    end before anything else happens: [o] is what the driver call it waits
    for settles with and [st] what that call leaves in the connection
    object. *)

Definition connectPrinter (id : string) (o : Outcome)
    (st : PrinterConnection) (now : N) (w : World) : Settled unit :=
  complete (fun k w => connectPrinter_finish k o now
                         (driver_sets (ck_connection k) st w))
           (connectPrinter_begin id w).

Definition disconnectPrinter (id : string) (o : Outcome)
    (st : PrinterConnection) (w : World) : Settled unit :=
  complete (fun k w => disconnectPrinter_finish k o
                         (driver_sets (dk_connection k) st w))
           (disconnectPrinter_begin id w).

Definition print_job (data : Uint8Array) (printerId : option string)
    (now : N) (rnd : string) (o : Outcome) (st : PrinterConnection)
    (done : N) (w : World) : Settled string :=
  complete (fun k w => print_finish k o done
                         (driver_sets (pk_connection k) st w))
           (print_begin data printerId now rnd w).

Definition removePrinter_awaited (id : string) (o : Outcome)
    (st : PrinterConnection) (w : World) : bool * World :=
  let '(r, w, rest) := removePrinter id w in
  match rest with
  | Some k =>
      (r, world_of (disconnectPrinter_finish k o
                      (driver_sets (dk_connection k) st w)))
  | None => (r, w)
  end.

Definition disconnectAll (o : string -> Outcome)
    (st : string -> PrinterConnection) (w : World) : World :=
  let '(ks, w) := disconnectAll_begin w in
  foldl (fun w k => world_of (disconnectPrinter_finish k (o (dk_id k))
                                (driver_sets (dk_connection k) (st (dk_id k)) w)))
        w ks.

(** [testPrinter(id)] *)
Definition testPrinter (id : string) (o : Outcome) (st : PrinterConnection)
    (now : N) (w : World) : bool * World :=
  match connectPrinter id o st now w with
  | Fulfilled _ w =>
      (match get_connection w id with
       | Some (_, connection) => isConnected connection
       | None => false
       end, w)
  | Failed _ w => (false, w)
  end.

(** *** Sequences of awaited calls *)

(** One call of a public method, awaited before the next one is made, or
    something that happens between two calls: a connection object
    changing under its driver, the holder of an array returned by
    [getPrintQueue] changing that array. *)
Inductive Call :=
  | do_addPrinter (config : PrinterConfig.t) (now : N) (rnd : string)
  | do_removePrinter (id : string) (o : Outcome) (st : PrinterConnection)
  | do_setActivePrinter (id : string)
  | do_connectPrinter (id : string) (o : Outcome) (st : PrinterConnection) (now : N)
  | do_disconnectPrinter (id : string) (o : Outcome) (st : PrinterConnection)
  | do_disconnectAll (o : string -> Outcome) (st : string -> PrinterConnection)
  | do_print (data : Uint8Array) (printerId : option string) (now : N)
             (rnd : string) (o : Outcome) (st : PrinterConnection) (done : N)
  | do_getPrintQueue
  | do_clearPrintQueue
  | do_removePrintJob (jobId : string)
  | do_testPrinter (id : string) (o : Outcome) (st : PrinterConnection) (now : N)
  | driver_changes (c : nat) (st : PrinterConnection)
  | holder_pushes (a : nat) (x : nat)
  | holder_splices (a : nat) (index : nat).

Definition run (call : Call) (w : World) : World :=
  match call with
  | do_addPrinter config now rnd => world_of (addPrinter config now rnd w)
  | do_removePrinter id o st => (removePrinter_awaited id o st w).2
  | do_setActivePrinter id => (setActivePrinter id w).2
  | do_connectPrinter id o st now => world_of (connectPrinter id o st now w)
  | do_disconnectPrinter id o st => world_of (disconnectPrinter id o st w)
  | do_disconnectAll o st => disconnectAll o st w
  | do_print data printerId now rnd o st done =>
      world_of (print_job data printerId now rnd o st done w)
  | do_getPrintQueue => (getPrintQueue w).2
  | do_clearPrintQueue => clearPrintQueue w
  | do_removePrintJob jobId => (removePrintJob jobId w).2
  | do_testPrinter id o st now => (testPrinter id o st now w).2
  | driver_changes c st => driver_sets c st w
  | holder_pushes a x =>
      if bool_decide (a = printQueue w) then w else array_push a x w
  | holder_splices a index =>
      if bool_decide (a = printQueue w) then w else array_splice a index w
  end.

(** The environment does not hand [addPrinter] a clock value and a random
    number that make an id already in use. *)
Definition admissible (w : World) (call : Call) : Prop :=
  match call with
  | do_addPrinter config now rnd => printers w !! printer_id config now rnd = None
  | _ => True
  end.

(** The worlds a manager gets into by awaited calls. *)
Inductive reachable : World -> Prop :=
  | reachable_init window stored : reachable (init window stored)
  | reachable_run w call :
      reachable w -> admissible w call -> reachable (run call w).

(** *** Sessions *)

(** Connection object [c] was made by [connectPrinter(id)]. *)
Definition session_of (w : World) (c : nat) (id : string) : Prop :=
  constructed c id ∈ calls w.

(** Connection object [c] is live: its [connect()] resolved and its
    [disconnect()] has not been called. *)
Definition live (w : World) (c : nat) : Prop :=
  settled c connect Resolved ∈ calls w /\ called c disconnect ∉ calls w.

Definition at_most_one_session (w : World) : Prop :=
  forall id c1 c2,
    session_of w c1 id -> session_of w c2 id ->
    live w c1 -> live w c2 -> c1 = c2.

End Manager.

(** ** AddPrinterModal (components/AddPrinterModal.tsx) *)
Module AddPrinterModal.

(** What [handleTestConnection] passes to [setTestStatus] at its end. *)
Inductive TestStatus :=
  | Connection_successful
  | Connection_failed
  | Test_failed (message : string).

(** [handleTestConnection], the two awaited calls run one after the
    other: register a temporary printer, test it, remove it.
    [removePrinter] is not awaited; the [disconnectPrinter] it may have
    started is returned to be finished later. *)
Definition handleTestConnection (tempConfig : Manager.PrinterConfig.t)
    (now : N) (rnd : string) (o : Outcome) (st : Manager.PrinterConnection)
    (tested : N) (w : Manager.World)
    : TestStatus * Manager.World * option Manager.DisconnectK :=
  match Manager.addPrinter tempConfig now rnd w with
  | Manager.Fulfilled tempId w =>
      let '(success, w) := Manager.testPrinter tempId o st tested w in
      let '(_, w, rest) := Manager.removePrinter tempId w in
      (if success then Connection_successful else Connection_failed, w, rest)
  | Manager.Failed message w => (Test_failed message, w, None)
  end.

End AddPrinterModal.

(** ** ESCPOSCommands (utils/escpos.ts)

    The command buffer is the array of numbers pushed so far.  Numbers
    are integers here; a text is given by the bytes [TextEncoder] makes of
    it. *)
Module ESCPOS.

Definition ESC : Z := 0x1b.
Definition GS : Z := 0x1d.
Definition LF : Z := 0x0a.
Definition FF : Z := 0x0c.

Definition Buffer := list Z.

Definition new : Buffer := [].

Definition init (b : Buffer) : Buffer := b ++ [ESC; 0x40]%Z.

Definition addText (encoded : list Z) (b : Buffer) : Buffer := b ++ encoded.

(** [for (let i = 0; i < lines; i++)] *)
Definition feed (lines : Z) (b : Buffer) : Buffer :=
  b ++ replicate (Z.to_nat lines) LF.

Inductive Alignment := left | center | right.

Definition align (alignment : Alignment) (b : Buffer) : Buffer :=
  b ++ [ESC; 0x61; match alignment with left => 0 | center => 1 | right => 2 end]%Z.

Definition bold (enabled : bool) (b : Buffer) : Buffer :=
  b ++ [ESC; 0x45; if enabled then 1 else 0]%Z.

Definition underline (enabled : bool) (b : Buffer) : Buffer :=
  b ++ [ESC; 0x2d; if enabled then 1 else 0]%Z.

Definition setTextSize (width height : Z) (b : Buffer) : Buffer :=
  let width := Z.max 1 (Z.min 8 width) in
  let height := Z.max 1 (Z.min 8 height) in
  let size := Z.lor (Z.shiftl (width - 1) 4) (height - 1) in
  b ++ [GS; 0x21; size]%Z.

Definition cut (partial : bool) (b : Buffer) : Buffer :=
  b ++ [GS; 0x56; if partial then 1 else 0]%Z.

Definition barcode (encoded : list Z) (type : Z) (b : Buffer) : Buffer :=
  let b := b ++ [GS; 0x6b; type]%Z in
  b ++ encoded ++ [0%Z].

Definition qrCode (encoded : list Z) (b : Buffer) : Buffer :=
  let b := b ++ [GS; 0x28; 0x6b; 0x03; 0x00; 0x31; 0x43; 0x03]%Z in
  let b := b ++ [GS; 0x28; 0x6b; 0x03; 0x00; 0x31; 0x45; 0x31]%Z in
  let len := (Z.of_nat (length encoded) + 3)%Z in
  let b := b ++ [GS; 0x28; 0x6b; Z.land len 0xff; Z.land (Z.shiftr len 8) 0xff;
                 0x31; 0x50; 0x30]%Z in
  let b := b ++ encoded in
  b ++ [GS; 0x28; 0x6b; 0x03; 0x00; 0x31; 0x51; 0x30]%Z.

(** [new Uint8Array(this.buffer)]: every number modulo 256. *)
Definition getBuffer (b : Buffer) : list Z := (fun n => (n mod 256)%Z) <$> b.

Definition clear (b : Buffer) : Buffer := [].

End ESCPOS.

(** * Specification vocabulary

    Predicates the properties below are stated with. *)

(** Every [claimInterface] call of the connect is rejected. *)
Definition no_interface_claimable (h : USB.Host) : Prop :=
  forall k n, is_resolved (USB.claimInterface h k n) = false.

(** C5 as the specification states it: when no interface can be claimed,
    [connect] fails and the device it was handed is neither open nor holds
    a claimed interface. *)
Definition usb_connect_releases : Prop :=
  forall (c : USB.USBPrinterConnection) (h : USB.Host),
    no_interface_claimable h ->
    exists m c' d',
      USB.connect c h = (Rejected m, c', d') /\
      forall d, d' = Some d -> USB.opened d = false /\ USB.claimedInterfaces d = [].

(** The relay of one payload failed with [kind]: the TCP socket raised an
    error with that message, or timed out. *)
Definition relay_failure (es : list Proxy.SocketEvent) (kind : string) : Prop :=
  Proxy.on_error kind ∈ es \/ (Proxy.on_timeout ∈ es /\ kind = "Connection timeout").

(** C3 as the specification states it: a relay failure makes the driver's
    [print] fail with a reason that contains the relay's error. *)
Definition network_print_reports_relay_failure : Prop :=
  forall (c : Network.NetworkPrinterConnection) (http : Network.Http)
         (data : Uint8Array) (es : list Proxy.SocketEvent) (kind : string),
    Network.isConnected c = true ->
    Network.socket_open c = true ->
    relay_failure es kind ->
    exists reason before after,
      (Network.print_relayed c http data es).1.1.1 = Rejected reason /\
      reason = before +:+ kind +:+ after.

(** The fields the specification requires of a configuration. *)
Definition required_fields_present (config : Manager.PrinterConfig.t) : bool :=
  match Manager.PrinterConfig.type config with
  | Manager.network =>
      match Manager.PrinterConfig.ipAddress config, Manager.PrinterConfig.port config with
      | Some _, Some _ => true
      | _, _ => false
      end
  | Manager.api =>
      match Manager.PrinterConfig.apiEndpoint config with
      | Some _ => true
      | None => false
      end
  | _ => true
  end.

(** C7 as the specification states it: a configuration without its
    required fields is refused; otherwise the identity gets an id no other
    identity has, and starts disconnected. *)
Definition addPrinter_validates : Prop :=
  forall (config : Manager.PrinterConfig.t) (now : N) (rnd : string) (w : Manager.World),
    if required_fields_present config then
      exists id w' d,
        Manager.addPrinter config now rnd w = Manager.Fulfilled id w' /\
        Manager.printers w !! id = None /\
        Manager.getPrinter w' id = Some d /\
        Manager.PrinterDevice.status d = Manager.disconnected
    else
      exists m w', Manager.addPrinter config now rnd w = Manager.Failed m w'.

(** Every reference in the printer map names an object in the store. *)
Definition printers_in_store (w : Manager.World) : Prop :=
  forall id p, Manager.printers w !! id = Some p -> p < length (Manager.devices w).





(** The state of the printer object [p]. *)
Definition status_of (w : Manager.World) (p : nat) : option Manager.Status :=
  Manager.PrinterDevice.status <$> Manager.devices w !! p.

(** The connection object a driver call is about. *)
Definition conn_of (e : Manager.DriverCall) : nat :=
  match e with
  | Manager.constructed c _ => c
  | Manager.called c _ => c
  | Manager.settled c _ _ => c
  end.

(** What holds of every world reached by awaited calls. *)
Record Inv (w : Manager.World) : Prop := {
  inv_store : forall id p,
    Manager.printers w !! id = Some p -> p < length (Manager.devices w);
  inv_inj : forall id1 id2 p,
    Manager.printers w !! id1 = Some p -> Manager.printers w !! id2 = Some p -> id1 = id2;
  inv_conn : forall id c,
    Manager.connections w !! id = Some c ->
    exists p, Manager.printers w !! id = Some p /\ status_of w p = Some Manager.connected;
  inv_live : forall id c,
    Manager.session_of w c id -> Manager.live w c ->
    Manager.connections w !! id = Some c;
  inv_fresh : forall e,
    e ∈ Manager.calls w -> conn_of e < length (Manager.connObjs w);
  inv_queue : Manager.printQueue w < length (Manager.arrays w)
}.

(** The driver calls that make or end a session. *)
Definition lifecycle (e : Manager.DriverCall) : bool :=
  match e with
  | Manager.constructed _ _ => true
  | Manager.settled _ Manager.connect Resolved => true
  | Manager.called _ Manager.disconnect => true
  | _ => false
  end.

(** A [disconnectPrinter] that waits for its driver can be finished in [w]. *)
Record Finishable (k : Manager.DisconnectK) (w : Manager.World) : Prop := {
  fin_called : forall c,
    Manager.connections w !! Manager.dk_id k = Some c ->
    Manager.called c Manager.disconnect ∈ Manager.calls w;
  fin_printer : forall id,
    Manager.printers w !! id = Some (Manager.dk_printer k) -> id = Manager.dk_id k;
  fin_conn : Manager.dk_connection k < length (Manager.connObjs w)
}.

(** C1 as the specification states it: a [connectPrinter] on an identity
    that is connecting or connected returns at once and creates nothing. *)
Definition connect_guarded : Prop :=
  forall (w : Manager.World) (id : string) (p : nat) (d : Manager.PrinterDevice.t),
    Manager.get_printer w id = Some (p, d) ->
    Manager.PrinterDevice.status d = Manager.connecting \/
    Manager.PrinterDevice.status d = Manager.connected ->
    Manager.connectPrinter_begin id w = Manager.Returned () w.


(** The job at position [i] of the queue [q] has the id [jobId]. *)
Definition job_at (w : Manager.World) (q : list nat) (i : nat) (jobId : string) : Prop :=
  exists j job,
    q !! i = Some j /\ Manager.jobs w !! j = Some job /\
    Manager.PrintJob.id job = jobId.

(** A [fetch] that settled with a response, whatever its status. *)
Definition responded (f : Network.Fetched) : bool :=
  match f with
  | Network.fetch_response _ => true
  | Network.fetch_failed _ => false
  end.

(** The payloads written to the printer's TCP socket. *)
Definition writes (acts : list Proxy.Action) : list Uint8Array :=
  omap (fun a => match a with Proxy.socket_write d => Some d | _ => None end) acts.

(** How often the TCP socket connected. *)
Definition connects (es : list Proxy.SocketEvent) : nat :=
  length (omap (fun e => match e with Proxy.on_connect => Some () | _ => None end) es).

(** The connection object [c] with another stored device id. *)
Definition remembering (saved : option string) (c : Bluetooth.BluetoothPrinterConnection)
    : Bluetooth.BluetoothPrinterConnection :=
  {| Bluetooth.device := Bluetooth.device c;
     Bluetooth.characteristic := Bluetooth.characteristic c;
     Bluetooth.isConnectedFlag := Bluetooth.isConnectedFlag c;
     Bluetooth.currentStatus := Bluetooth.currentStatus c;
     Bluetooth.bluetoothId := saved |}.

(** The id stored in the printer object [p]. *)
Definition id_of (w : Manager.World) (p : nat) : option string :=
  Manager.PrinterDevice.id <$> Manager.devices w !! p.

(** More of what holds of every world reached by awaited calls: a printer
    is registered under its own id, a registered connection names an
    object of the store, and a printer in state [connected] has a
    connection registered. *)
Record Inv2 (w : Manager.World) : Prop := {
  inv_key : forall id p i,
    Manager.printers w !! id = Some p -> id_of w p = Some i -> i = id;
  inv_obj : forall id c,
    Manager.connections w !! id = Some c -> c < length (Manager.connObjs w);
  inv_on : forall id p,
    Manager.printers w !! id = Some p -> status_of w p = Some Manager.connected ->
    is_Some (Manager.connections w !! id)
}.

(** The printer object [p] with its state forgotten. *)
Definition norm (w : Manager.World) (p : nat) : option Manager.PrinterDevice.t :=
  Manager.PrinterDevice.set_status Manager.disconnected <$> Manager.devices w !! p.

(** What the printer map and the printer objects satisfy in a world
    reached by awaited calls. *)
Record store_ok (w : Manager.World) : Prop := {
  so_store : forall id p,
    Manager.printers w !! id = Some p -> p < length (Manager.devices w);
  so_inj : forall id1 id2 p,
    Manager.printers w !! id1 = Some p -> Manager.printers w !! id2 = Some p -> id1 = id2;
  so_key : forall id p i,
    Manager.printers w !! id = Some p -> id_of w p = Some i -> i = id
}.

(** [w'] has the printers of [w], up to their states. *)
Definition same_printers (w w' : Manager.World) : Prop :=
  Manager.printers w' = Manager.printers w /\ forall p, norm w' p = norm w p.

(** A new manager made in a page over what [w] has stored holds the
    printers [w] holds, each [disconnected]. *)
Definition restorable (w : Manager.World) : Prop :=
  forall id,
    Manager.getPrinter (Manager.init true (Manager.localStorage w)) id
    = Manager.PrinterDevice.set_status Manager.disconnected <$> Manager.getPrinter w id.

(** The pending disconnects of a [disconnectAll] are about the printers
    registered under their ids. *)
Definition about_registered (w : Manager.World) (k : Manager.DisconnectK) : Prop :=
  Manager.printers w !! Manager.dk_id k = Some (Manager.dk_printer k).

(** How a call leaves what is stored: untouched, the printers being the
    same up to their states; or, in a page, written anew from printers
    that are the ones the manager holds afterwards, up to their states. *)
Definition keeps_stored (w w' : Manager.World) : Prop :=
  Manager.window w' = Manager.window w /\
  ((Manager.localStorage w' = Manager.localStorage w /\ same_printers w w') \/
   (Manager.window w = true ->
    exists wm, store_ok wm /\
               Manager.localStorage w' = Manager.saved (Manager.values wm) /\
               same_printers wm w')).

(** [Math.max(1, Math.min(8, x))] read as a size. *)
Definition clamp_size (x : Z) : Z :=
  if (x <? 1)%Z then 1%Z else if (8 <? x)%Z then 8%Z else x.

(** The width and height an ESC/POS character size byte stands for. *)
Definition decode_size (size : Z) : Z * Z := ((size / 16 + 1)%Z, (size mod 16 + 1)%Z).




(** ** Concrete inputs used by the examples below *)
Module Ex.

Definition ch0 : Bluetooth.BluetoothRemoteGATTCharacteristic :=
  {| Bluetooth.uuid := "00002af1-0000-1000-8000-00805f9b34fb";
     Bluetooth.write := true; Bluetooth.writeWithoutResponse := false |}.

Definition bt0 : Bluetooth.BluetoothPrinterConnection :=
  {| Bluetooth.device :=
       Some {| Bluetooth.id := "dev"; Bluetooth.name := Some "Printer-1";
               Bluetooth.gatt := Some {| Bluetooth.connected := true |} |};
     Bluetooth.characteristic := Some ch0;
     Bluetooth.isConnectedFlag := true;
     Bluetooth.currentStatus := "Connected to Bluetooth printer";
     Bluetooth.bluetoothId := None |}.

Definition payload45 : Uint8Array := replicate 45 "a"%byte.

Definition link_ok : Bluetooth.Link := fun _ => Resolved.

(** A USB printer with one unclaimed interface that refuses every claim. *)
Definition usb_device0 : USB.USBDevice :=
  {| USB.opened := false;
     USB.configuration :=
       Some {| USB.interfaces :=
                 [{| USB.interfaceNumber := 0; USB.claimed := false |}] |};
     USB.claimedInterfaces := [] |}.

Definition usb_host_busy : USB.Host :=
  {| USB.requestDevice := inr usb_device0;
     USB.open := Resolved;
     USB.selectConfiguration := inl "Unable to set device configuration.";
     USB.claimInterface := fun _ _ => Rejected "Unable to claim interface." |}.

Definition usb_filter0 : USB.Filter :=
  {| USB.vendorId := Some 1208%N; USB.productId := None |}.

(** A network connection whose WebSocket to the proxy is open. *)
Definition net0 : Network.NetworkPrinterConnection :=
  {| Network.isConnectedFlag := true;
     Network.currentStatus := "Connected to network printer";
     Network.socket :=
       Some {| Network.url := "ws://localhost:8080/printer-proxy?ip=192.168.1.100&port=9100";
               Network.readyState := Network.OPEN |};
     Network.ipAddress := "192.168.1.100";
     Network.port := 9100%N |}.

Definition http_down : Network.Http :=
  {| Network.post_printer := Network.fetch_failed "Failed to fetch";
     Network.post_api := Network.fetch_failed "Failed to fetch" |}.

Definition payload20 : Uint8Array := replicate 20 "a"%byte.

(** The printer refuses the TCP connection. *)
Definition refused : list Proxy.SocketEvent :=
  [Proxy.on_error "connect ECONNREFUSED 192.168.1.100:9100"; Proxy.on_close].

(** A network printer registered without address and port. *)
Definition config_no_host : Manager.PrinterConfig.t :=
  {| Manager.PrinterConfig.name := "Front desk";
     Manager.PrinterConfig.type := Manager.network;
     Manager.PrinterConfig.model := None;
     Manager.PrinterConfig.paperWidth := None;
     Manager.PrinterConfig.vendorId := None;
     Manager.PrinterConfig.productId := None;
     Manager.PrinterConfig.ipAddress := None;
     Manager.PrinterConfig.port := None;
     Manager.PrinterConfig.bluetoothId := None;
     Manager.PrinterConfig.apiEndpoint := None;
     Manager.PrinterConfig.apiKey := None |}.

(** The network printer of the specification's scenario. *)
Definition config_net : Manager.PrinterConfig.t :=
  {| Manager.PrinterConfig.name := "Kitchen";
     Manager.PrinterConfig.type := Manager.network;
     Manager.PrinterConfig.model := None;
     Manager.PrinterConfig.paperWidth := Some 80%N;
     Manager.PrinterConfig.vendorId := None;
     Manager.PrinterConfig.productId := None;
     Manager.PrinterConfig.ipAddress := Some "192.168.1.100";
     Manager.PrinterConfig.port := Some 9100%N;
     Manager.PrinterConfig.bluetoothId := None;
     Manager.PrinterConfig.apiEndpoint := None;
     Manager.PrinterConfig.apiKey := None |}.

Definition clock0 : N := 1700000000000%N.
Definition random0 : string := "0.4fzyo82mvyr".
Definition id_net : string := "network_1700000000000_4fzyo82mv".

(** A manager started in a page with nothing stored. *)
Definition fresh : Manager.World := Manager.init true Manager.no_item.

(** ... after [addPrinter(config_net)]. *)
Definition registered : Manager.World :=
  Manager.world_of (Manager.addPrinter config_net clock0 random0 fresh).

(** ... after [connectPrinter] was called and is waiting for the driver. *)
Definition while_connecting : Manager.World :=
  Manager.started_world (Manager.connectPrinter_begin id_net registered).

(** ... and, instead, after an awaited [connectPrinter] that succeeded. *)
Definition online : Manager.World :=
  Manager.world_of
    (Manager.connectPrinter id_net Resolved
       (Manager.NetworkPrinterConnection net0) (clock0 + 50)%N registered).

(** Two [connectPrinter] calls that overlap: the second starts while the
    first waits, then both drivers resolve. *)
Definition connect_k (c : nat) : Manager.ConnectK :=
  {| Manager.ck_id := id_net; Manager.ck_printer := 0;
     Manager.ck_connection := c |}.

Definition overlapped : Manager.World :=
  let w := Manager.started_world (Manager.connectPrinter_begin id_net while_connecting) in
  let w := Manager.world_of
             (Manager.connectPrinter_finish (connect_k 0) Resolved (clock0 + 50)%N w) in
  Manager.world_of
    (Manager.connectPrinter_finish (connect_k 1) Resolved (clock0 + 60)%N w).

(** The local variables of a [print] of twenty bytes on [online]. *)
Definition printing_k : Manager.PrintK :=
  {| Manager.pk_data := payload20;
     Manager.pk_jobId := "job_1700000000100_4fzyo82mv";
     Manager.pk_job := 0; Manager.pk_printer := 0;
     Manager.pk_connection := 0 |}.

Definition while_printing : Manager.World :=
  Manager.started_world
    (Manager.print_begin payload20 (Some id_net) (clock0 + 100)%N random0 online).

(** The printer record [registered] holds. *)
Definition kitchen : Manager.PrinterDevice.t :=
  {| Manager.PrinterDevice.id := id_net;
     Manager.PrinterDevice.name := "Kitchen";
     Manager.PrinterDevice.type := Manager.network;
     Manager.PrinterDevice.status := Manager.disconnected;
     Manager.PrinterDevice.lastUsed := None;
     Manager.PrinterDevice.config := config_net |}.

(** [online] after the proxy closed the WebSocket: the driver's [onclose]
    handler ran, the manager was not told. *)
Definition dropped : Manager.World :=
  Manager.driver_sets 0 (Manager.NetworkPrinterConnection (Network.onclose net0)) online.

(** [registered] with its printer made the active one. *)
Definition active : Manager.World := (Manager.setActivePrinter id_net registered).2.

(** What [disconnect()] leaves of [net0]. *)
Definition net_off : Manager.PrinterConnection :=
  Manager.NetworkPrinterConnection (Network.disconnect net0).

(** A USB printer whose interface can be claimed. *)
Definition usb_host_ok : USB.Host :=
  {| USB.requestDevice := inr usb_device0;
     USB.open := Resolved;
     USB.selectConfiguration := inl "Unable to set device configuration.";
     USB.claimInterface := fun _ _ => Resolved |}.

(** Only endpoint 2 takes the data. *)
Definition usb_out2 : USB.Transfers :=
  fun endpoint => if endpoint =? 2 then Resolved else Rejected "The specified endpoint is not part of a claimed interface.".

(** A Bluetooth printer whose service offers the characteristics [cs]. *)
Definition ch_readonly : Bluetooth.BluetoothRemoteGATTCharacteristic :=
  {| Bluetooth.uuid := "00002a00-0000-1000-8000-00805f9b34fb";
     Bluetooth.write := false; Bluetooth.writeWithoutResponse := false |}.

Definition bt_device : Bluetooth.BluetoothDevice :=
  {| Bluetooth.id := "dev"; Bluetooth.name := Some "Printer-1";
     Bluetooth.gatt := Some {| Bluetooth.connected := false |} |}.

Definition bt_service (cs : list Bluetooth.BluetoothRemoteGATTCharacteristic)
    : Bluetooth.BluetoothRemoteGATTService :=
  {| Bluetooth.service_uuid := "49535343-fe7d-4ae5-8fa9-9fafd205e455";
     Bluetooth.getCharacteristics := inr cs |}.

Definition bt_host (cs : list Bluetooth.BluetoothRemoteGATTCharacteristic)
    : Bluetooth.Host :=
  {| Bluetooth.supported := true;
     Bluetooth.requestDevice := inr bt_device;
     Bluetooth.gatt_connect :=
       inr ({| Bluetooth.connected := true |},
            {| Bluetooth.getPrimaryService :=
                 fun serviceUuid =>
                   if bool_decide (serviceUuid = "49535343-fe7d-4ae5-8fa9-9fafd205e455")
                   then inr (bt_service cs) else inl "No Services matching UUID found in Device.";
               Bluetooth.getPrimaryServices := inr [bt_service cs] |}) |}.

(** Two overlapping [connectPrinter] calls of which the first resolves
    and the second is rejected: the printer ends in state [error] with
    the first call's connection registered and connected. *)
Definition half_failed : Manager.World :=
  let w := Manager.started_world (Manager.connectPrinter_begin id_net while_connecting) in
  let w := Manager.world_of
             (Manager.connectPrinter_finish (connect_k 0) Resolved (clock0 + 50)%N
                (Manager.driver_sets 0 (Manager.NetworkPrinterConnection net0) w)) in
  Manager.world_of
    (Manager.connectPrinter_finish (connect_k 1)
       (Rejected "Failed to connect to network printer") (clock0 + 60)%N w).

(** A USB printer without a configuration that refuses to take one. *)
Definition usb_device_unconfigured : USB.USBDevice :=
  {| USB.opened := false; USB.configuration := None; USB.claimedInterfaces := [] |}.

Definition usb_host_unconfigured : USB.Host :=
  {| USB.requestDevice := inr usb_device_unconfigured;
     USB.open := Resolved;
     USB.selectConfiguration := inl "Unable to set device configuration.";
     USB.claimInterface := fun _ _ => Rejected "Unable to claim interface." |}.

End Ex.

(** * Properties *)

(** ** Slices *)



(** ** Bluetooth: the chunked send *)

Section BluetoothFacts.
Import Bluetooth.
Variable C : nat.
Hypothesis C_pos : 0 < C.




Lemma slice_length {A} (b : nat) (l : list A) : length (slice b (b + C) l) <= C.
Proof. unfold slice. rewrite length_drop, length_take. lia. Qed.


Lemma chunks_from_bounded data i n :
  Forall (fun c => length c <= C) (chunks_from C data i n).
Proof.
  revert i. induction n as [|n IH]; intros i; simpl; constructor; auto using slice_length.
Qed.


Variable ch : BluetoothRemoteGATTCharacteristic.
Hypothesis ch_writable : writable ch = true.
Variable link : Link.
Variable data : Uint8Array.



(** [length data] iterations are enough. *)
Lemma print_loop_total fuel i k :
  length data - i <= fuel ->
  exists o ws, print_loop C ch link data fuel i k = Some (o, ws).
Proof.
  revert i k. induction fuel as [|fuel IH]; intros i k Hfuel; cbn [print_loop].
  - replace (i <? length data) with false by (symmetry; apply Nat.ltb_ge; lia).
    by eexists _, _.
  - destruct (Nat.ltb_spec i (length data)) as [Hlt|Hge]; [|by eexists _, _].
    destruct (IH (i + C) (S k)) as (o & ws & E); [lia|].
    rewrite E. simpl.
    destruct (link k), (writeWithoutResponse ch), (write ch); by eexists _, _.
Qed.

End BluetoothFacts.




(** Three writes for 45 bytes; a rejected second write ends the call. *)
Example bluetooth_print_45 :
  Bluetooth.print Ex.bt0 Ex.link_ok Ex.payload45
  = Some (Resolved,
          [Bluetooth.writeValueWithResponse (replicate 20 "a"%byte);
           Bluetooth.writeValueWithResponse (replicate 20 "a"%byte);
           Bluetooth.writeValueWithResponse (replicate 5 "a"%byte)]).
Proof. vm_compute. reflexivity. Qed.

Example bluetooth_print_45_second_write_fails :
  Bluetooth.print Ex.bt0
    (fun k => if k =? 1 then Rejected "GATT operation failed" else Resolved)
    Ex.payload45
  = Some (Rejected "Bluetooth print failed: GATT operation failed",
          [Bluetooth.writeValueWithResponse (replicate 20 "a"%byte);
           Bluetooth.writeValueWithResponse (replicate 20 "a"%byte)]).
Proof. vm_compute. reflexivity. Qed.


Example bluetooth_print_45_read_only :
  exists c',
    Bluetooth.connect (Bluetooth.new None) (Ex.bt_host [Ex.ch_readonly]) = (Resolved, c') /\
    Bluetooth.characteristic c' = Some Ex.ch_readonly /\
    Bluetooth.print c' Ex.link_ok Ex.payload45
    = Some (Rejected "Bluetooth print failed: Characteristic does not support writing", []).
Proof. eexists. repeat split; vm_compute; reflexivity. Qed.
(** ** USB: a connect that claims no interface *)

Lemma claim_listed_none (h : USB.Host) (ifaces : list USB.USBInterface)
    (d : USB.USBDevice) (k : nat) :
  no_interface_claimable h ->
  exists k', USB.claim_listed h ifaces d k = (false, d, k').
Proof.
  intros Hno. revert k. induction ifaces as [|iface rest IH]; intros k; simpl.
  - by exists k.
  - destruct (USB.claimed iface); simpl; [apply IH|].
    specialize (Hno k (USB.interfaceNumber iface)).
    destruct (USB.claimInterface h k (USB.interfaceNumber iface)); [done|apply IH].
Qed.

Lemma claim_common_none (h : USB.Host) (nums : list nat)
    (d : USB.USBDevice) (k : nat) :
  no_interface_claimable h ->
  exists k', USB.claim_common h nums d k = (false, d, k').
Proof.
  intros Hno. revert k. induction nums as [|n rest IH]; intros k; simpl.
  - by exists k.
  - specialize (Hno k n). destruct (USB.claimInterface h k n); [done|apply IH].
Qed.

(** C5, amended.  A [connect] on a new connection object during which
    every [claimInterface] is rejected fails, claims nothing, and leaves
    the connection object unconnected, without a reference to the device
    and with the error as its status; a [disconnect] after it does not
    call [close].  A device that was handed out and opened is left open.
    The error is [Could not claim any interface], unless no device was
    handed out, the device could not be opened, or it has no
    configuration and could not be given one: then it is the error of
    that step. *)
Theorem usb_connect_no_interface (f : USB.Filter) (h : USB.Host) :
  no_interface_claimable h ->
  exists m c' d',
    USB.connect (USB.new f) h = (Rejected m, c', d') /\
    USB.device c' = None /\
    USB.isConnected c' = false /\
    USB.getStatus c' = "Error: " +:+ m /\
    (forall close, snd (USB.disconnect c' close) = false) /\
    match USB.requestDevice h with
    | inl m0 => m = m0 /\ d' = None
    | inr d =>
        exists d1,
          d' = Some d1 /\
          USB.claimedInterfaces d1 = USB.claimedInterfaces d /\
          match USB.open h with
          | Rejected m0 => m = m0 /\ d1 = d
          | Resolved =>
              USB.opened d1 = true /\
              match USB.configuration d, USB.selectConfiguration h with
              | None, inl m0 => m = m0
              | _, _ => m = "Could not claim any interface"
              end
          end
    end.
Proof.
  intros Hno. unfold USB.connect, USB.failed.
  assert (forall d0 : USB.USBDevice,
            exists k,
              match USB.configuration d0 with
              | Some cfg => USB.claim_listed h (USB.interfaces cfg) d0 0
              | None => (false, d0, 0)
              end = (false, d0, k)) as Hlisted.
  { intros d0.
    destruct (USB.configuration d0); [by apply claim_listed_none|by exists 0]. }
  destruct (USB.requestDevice h) as [m0|d].
  { eexists _, _, _. split; [reflexivity|]. by repeat split. }
  destruct (USB.open h) as [|m0].
  2:{ eexists _, _, _. split; [reflexivity|]. repeat split. by exists d. }
  destruct (USB.configuration d) as [cfg|] eqn:Ecfg.
  - cbn [USB.set_opened USB.configuration]. rewrite Ecfg.
    destruct (Hlisted (USB.set_opened true d)) as [k ->]. cbn [negb].
    destruct (claim_common_none h [0; 1; 2] (USB.set_opened true d) k Hno) as [k' ->].
    cbn [negb]. eexists _, _, _. split; [reflexivity|]. repeat split.
    by exists (USB.set_opened true d).
  - cbn [USB.set_opened USB.configuration]. rewrite Ecfg.
    destruct (USB.selectConfiguration h) as [m0|cfg].
    + eexists _, _, _. split; [reflexivity|]. repeat split.
      by exists (USB.set_opened true d).
    + destruct (Hlisted (USB.set_configuration cfg (USB.set_opened true d))) as [k ->].
      cbn [negb].
      destruct (claim_common_none h [0; 1; 2]
                  (USB.set_configuration cfg (USB.set_opened true d)) k Hno) as [k' ->].
      cbn [negb]. eexists _, _, _. split; [reflexivity|]. repeat split.
      by exists (USB.set_configuration cfg (USB.set_opened true d)).
Qed.

Lemma usb_connect_no_interface_witness :
  exists c' d',
    USB.connect (USB.new Ex.usb_filter0) Ex.usb_host_busy
    = (Rejected "Could not claim any interface", c', Some d') /\
    USB.opened d' = true /\
    USB.claimedInterfaces d' = USB.claimedInterfaces Ex.usb_device0 /\
    USB.device c' = None /\
    USB.isConnected c' = false /\
    USB.getStatus c' = "Error: Could not claim any interface" /\
    forall close, snd (USB.disconnect c' close) = false.
Proof.
  destruct (usb_connect_no_interface Ex.usb_filter0 Ex.usb_host_busy)
    as (m & c' & d' & E & Hdev & Hconn & Hst & Hdis & Hrest).
  { intros k n. reflexivity. }
  cbn in Hrest. destruct Hrest as (d1 & -> & Hcl & Hop & ->).
  exists c', d1. split; [exact E|]. split; [exact Hop|]. split; [exact Hcl|].
  split; [exact Hdev|]. split; [exact Hconn|]. split; [exact Hst|exact Hdis].
Defined.

(** A device without a configuration that cannot be given one: the
    connect fails at that step, and the device is left open. *)
Example usb_connect_no_configuration :
  exists c',
    USB.connect (USB.new Ex.usb_filter0) Ex.usb_host_unconfigured
    = (Rejected "Unable to set device configuration.", c',
       Some (USB.set_opened true Ex.usb_device_unconfigured)) /\
    USB.device c' = None.
Proof. eexists. split; reflexivity. Qed.

(** The device of [Ex.usb_host_busy] stays open after the failed connect. *)
Lemma usb_connect_releases_fails : ~ usb_connect_releases.
Proof.
  intros H.
  destruct (H (USB.new Ex.usb_filter0) Ex.usb_host_busy) as (m & c' & d' & E & Hd).
  { intros k n. reflexivity. }
  vm_compute in E. injection E as _ _ <-.
  destruct (Hd _ eq_refl) as [Hopen _]. discriminate Hopen.
Qed.
(** ** Network: relay failures *)

Lemma proxy_reports_error (data : Uint8Array) (es : list Proxy.SocketEvent) (m : string) :
  Proxy.on_error m ∈ es ->
  Proxy.error m ∈ Proxy.sent (Proxy.relay true data es).
Proof.
  unfold Proxy.relay, Proxy.sent.
  induction es as [|e es IH]; intros Hin; [by apply elem_of_nil in Hin|].
  simpl. rewrite omap_app, elem_of_app.
  apply elem_of_cons in Hin as [<-|Hin]; [left; simpl; set_solver|right; auto].
Qed.

Lemma proxy_reports_timeout (data : Uint8Array) (es : list Proxy.SocketEvent) :
  Proxy.on_timeout ∈ es ->
  Proxy.error "Connection timeout" ∈ Proxy.sent (Proxy.relay true data es).
Proof.
  unfold Proxy.relay, Proxy.sent.
  induction es as [|e es IH]; intros Hin; [by apply elem_of_nil in Hin|].
  simpl. rewrite omap_app, elem_of_app.
  apply elem_of_cons in Hin as [<-|Hin]; [left; simpl; set_solver|right; auto].
Qed.

Lemma onmessage_ignored (c : Network.NetworkPrinterConnection) (ms : list Proxy.Message) :
  foldl Network.onmessage c ms = c.
Proof. induction ms as [|m ms IH]; [done|apply IH]. Qed.

(** C3, amended.  With the WebSocket to the proxy open, [print] hands the
    payload to the socket and resolves, whatever happens to the relay's TCP
    socket afterwards.  The proxy reports every socket error, with its
    message, and every timeout, as [Connection timeout], in an [error]
    message on the WebSocket; the driver does not read those messages and
    its connection object stays as it was. *)
Theorem network_print_ignores_relay (c : Network.NetworkPrinterConnection)
    (http : Network.Http) (data : Uint8Array) (es : list Proxy.SocketEvent) :
  Network.isConnected c = true ->
  Network.socket_open c = true ->
  exists msgs,
    Network.print_relayed c http data es
    = (Resolved, [Network.socket_send data], msgs, c) /\
    (forall kind, relay_failure es kind -> Proxy.error kind ∈ msgs).
Proof.
  intros Hc Hs. unfold Network.print_relayed, Network.print.
  unfold Network.isConnected in Hc. rewrite Hc, Hs. cbn [negb flat_map].
  rewrite app_nil_r, onmessage_ignored.
  eexists. split; [done|].
  intros kind [Herr|[Hto ->]];
    [by apply proxy_reports_error|by apply proxy_reports_timeout].
Qed.

Lemma network_print_ignores_relay_witness :
  exists msgs,
    Network.print_relayed Ex.net0 Ex.http_down Ex.payload20 Ex.refused
    = (Resolved, [Network.socket_send Ex.payload20], msgs, Ex.net0) /\
    (forall kind, relay_failure Ex.refused kind -> Proxy.error kind ∈ msgs).
Proof.
  apply (network_print_ignores_relay Ex.net0 Ex.http_down Ex.payload20 Ex.refused);
    reflexivity.
Defined.

(** A refused TCP connection: [print] has resolved all the same. *)
Lemma network_print_reports_relay_failure_fails :
  ~ network_print_reports_relay_failure.
Proof.
  intros H.
  destruct (H Ex.net0 Ex.http_down Ex.payload20 Ex.refused
              "connect ECONNREFUSED 192.168.1.100:9100")
    as (reason & before & after & E & _); [reflexivity|reflexivity| |].
  - left. set_solver.
  - vm_compute in E. discriminate E.
Qed.

Example network_print_refused :
  Network.print_relayed Ex.net0 Ex.http_down Ex.payload20 Ex.refused
  = (Resolved, [Network.socket_send Ex.payload20],
     [Proxy.error "connect ECONNREFUSED 192.168.1.100:9100";
      Proxy.status "Print job completed"],
     Ex.net0).
Proof. vm_compute. reflexivity. Qed.
(** ** The manager: what [savePrinters] leaves alone *)

Section SavePrinters.
Import Manager.

Ltac save_proj := intros; reflexivity.

Lemma printers_savePrinters w : printers (savePrinters w) = printers w.
Proof. save_proj. Qed.
Lemma connections_savePrinters w : connections (savePrinters w) = connections w.
Proof. save_proj. Qed.
Lemma devices_savePrinters w : devices (savePrinters w) = devices w.
Proof. save_proj. Qed.
Lemma connObjs_savePrinters w : connObjs (savePrinters w) = connObjs w.
Proof. save_proj. Qed.
Lemma jobs_savePrinters w : jobs (savePrinters w) = jobs w.
Proof. save_proj. Qed.
Lemma arrays_savePrinters w : arrays (savePrinters w) = arrays w.
Proof. save_proj. Qed.
Lemma printQueue_savePrinters w : printQueue (savePrinters w) = printQueue w.
Proof. save_proj. Qed.
Lemma activePrinterId_savePrinters w :
  activePrinterId (savePrinters w) = activePrinterId w.
Proof. save_proj. Qed.
Lemma emitted_savePrinters w : emitted (savePrinters w) = emitted w.
Proof. save_proj. Qed.
Lemma calls_savePrinters w : calls (savePrinters w) = calls w.
Proof. save_proj. Qed.

End SavePrinters.

Create Rewrite HintDb save.
#[local] Hint Rewrite
  printers_savePrinters connections_savePrinters devices_savePrinters
  connObjs_savePrinters jobs_savePrinters arrays_savePrinters
  printQueue_savePrinters activePrinterId_savePrinters emitted_savePrinters
  calls_savePrinters : save.

(** ** Registration *)

(** C7, amended.  [addPrinter] checks nothing and never fails: for every
    configuration it registers an identity under the id made of the type,
    the clock and nine characters of the random number, with that
    configuration and the state [disconnected]; the identities under other
    ids, the objects in the store and the connections stay as they were. *)
Theorem addPrinter_registers (config : Manager.PrinterConfig.t) (now : N)
    (rnd : string) (w : Manager.World) :
  exists w',
    Manager.addPrinter config now rnd w
    = Manager.Fulfilled (Manager.printer_id config now rnd) w' /\
    Manager.getPrinter w' (Manager.printer_id config now rnd)
    = Some {| Manager.PrinterDevice.id := Manager.printer_id config now rnd;
              Manager.PrinterDevice.name := Manager.PrinterConfig.name config;
              Manager.PrinterDevice.type := Manager.PrinterConfig.type config;
              Manager.PrinterDevice.status := Manager.disconnected;
              Manager.PrinterDevice.lastUsed := None;
              Manager.PrinterDevice.config := config |} /\
    (forall id', id' <> Manager.printer_id config now rnd ->
                 Manager.printers w' !! id' = Manager.printers w !! id') /\
    (forall p d, Manager.devices w !! p = Some d -> Manager.devices w' !! p = Some d) /\
    Manager.connections w' = Manager.connections w.
Proof.
  unfold Manager.addPrinter. eexists. split; [reflexivity|].
  unfold Manager.getPrinter, Manager.get_printer. cbn.
  autorewrite with save. cbn.
  repeat split.
  - rewrite lookup_insert_eq. cbn.
    rewrite lookup_app_r by done. by rewrite Nat.sub_diag.
  - intros id' Hne. by rewrite lookup_insert_ne.
  - intros p d Hp. by apply lookup_app_l_Some.
Qed.

(** A network printer without address and port is registered all the same. *)
Lemma addPrinter_validates_fails : ~ addPrinter_validates.
Proof.
  intros H. specialize (H Ex.config_no_host Ex.clock0 Ex.random0 Ex.fresh).
  cbn in H. destruct H as (m & w' & E). discriminate E.
Qed.

(** The same clock value and random number give the same id again, and the
    second registration takes the place of the first. *)
Example addPrinter_same_id :
  exists w1 w2,
    Manager.addPrinter Ex.config_net Ex.clock0 Ex.random0 Ex.fresh
    = Manager.Fulfilled Ex.id_net w1 /\
    Manager.addPrinter Ex.config_net Ex.clock0 Ex.random0 w1
    = Manager.Fulfilled Ex.id_net w2 /\
    Manager.printers w1 !! Ex.id_net = Some 0 /\
    Manager.printers w2 !! Ex.id_net = Some 1.
Proof. eexists _, _. repeat split; vm_compute; reflexivity. Qed.
(** ** Reloading the stored identities *)

Lemma load_one_in_store (w : Manager.World) (printer : Manager.PrinterDevice.t) :
  printers_in_store w -> printers_in_store (Manager.load_one w printer).
Proof.
  intros Hw id p. unfold Manager.load_one. cbn. rewrite length_app. cbn.
  destruct (decide (Manager.PrinterDevice.id printer = id)) as [->|Hne].
  - rewrite lookup_insert_eq. intros [= <-]. lia.
  - rewrite lookup_insert_ne by done. intros Hp. apply Hw in Hp. lia.
Qed.

Lemma getPrinter_load_one (w : Manager.World) (printer : Manager.PrinterDevice.t)
    (id : string) :
  printers_in_store w ->
  Manager.getPrinter (Manager.load_one w printer) id
  = if decide (Manager.PrinterDevice.id printer = id)
    then Some (Manager.PrinterDevice.set_status Manager.disconnected printer)
    else Manager.getPrinter w id.
Proof.
  intros Hw. unfold Manager.getPrinter, Manager.get_printer, Manager.load_one. cbn.
  destruct (decide (Manager.PrinterDevice.id printer = id)) as [->|Hne].
  - rewrite lookup_insert_eq. cbn. rewrite lookup_app_r by done.
    by rewrite Nat.sub_diag.
  - rewrite lookup_insert_ne by done.
    destruct (Manager.printers w !! id) as [p|] eqn:Ep; [|done]. cbn.
    apply Hw in Ep. by rewrite lookup_app_l.
Qed.

Lemma getPrinter_load (printersData : list Manager.PrinterDevice.t)
    (w : Manager.World) (id : string) :
  printers_in_store w ->
  Manager.getPrinter (foldl Manager.load_one w printersData) id
  = match last (filter (fun p => Manager.PrinterDevice.id p = id) printersData) with
    | Some p => Some (Manager.PrinterDevice.set_status Manager.disconnected p)
    | None => Manager.getPrinter w id
    end.
Proof.
  revert w. induction printersData as [|printer rest IH]; intros w Hw; [done|].
  cbn [foldl]. rewrite IH by by apply load_one_in_store.
  rewrite getPrinter_load_one by done. rewrite filter_cons.
  destruct (decide (Manager.PrinterDevice.id printer = id)) as [E|E]; [|done].
  rewrite last_cons. by destruct (last _).
Qed.

(** C9.  A manager constructed in a page over a stored list: under each id
    it holds the last stored record with that id, its status set to
    [disconnected] and everything else as stored.  So every identity it
    holds is a stored record with the state reset, whatever state was
    stored, and every stored id is held. *)
Theorem reload_resets_status (printersData : list Manager.PrinterDevice.t) :
  let w := Manager.init true (Manager.saved printersData) in
  (forall id,
     Manager.getPrinter w id
     = Manager.PrinterDevice.set_status Manager.disconnected
       <$> last (filter (fun p => Manager.PrinterDevice.id p = id) printersData)) /\
  (forall id d,
     Manager.getPrinter w id = Some d ->
     Manager.PrinterDevice.status d = Manager.disconnected /\
     exists p, p ∈ printersData /\
               Manager.PrinterDevice.id p = id /\
               Manager.PrinterDevice.id d = Manager.PrinterDevice.id p /\
               Manager.PrinterDevice.name d = Manager.PrinterDevice.name p /\
               Manager.PrinterDevice.type d = Manager.PrinterDevice.type p /\
               Manager.PrinterDevice.lastUsed d = Manager.PrinterDevice.lastUsed p /\
               Manager.PrinterDevice.config d = Manager.PrinterDevice.config p) /\
  (forall p, p ∈ printersData ->
             is_Some (Manager.getPrinter w (Manager.PrinterDevice.id p))).
Proof.
  intros w.
  assert (forall id,
     Manager.getPrinter w id
     = Manager.PrinterDevice.set_status Manager.disconnected
       <$> last (filter (fun p => Manager.PrinterDevice.id p = id) printersData)) as Hget.
  { intros id. subst w. unfold Manager.init, Manager.loadSavedPrinters. cbn [Manager.window Manager.localStorage].
    rewrite getPrinter_load by (intros ? ?; cbn; by rewrite lookup_empty).
    by destruct (last _). }
  split; [done|]. split.
  - intros id d Hd. rewrite Hget in Hd.
    destruct (last _) as [p|] eqn:El; [|done]. injection Hd as <-.
    split; [done|]. exists p.
    apply last_Some_elem_of, list_elem_of_filter in El as [Hid Hin]. done.
  - intros p Hp. rewrite Hget.
    destruct (last _) as [q|] eqn:El; [by eexists|].
    apply last_None in El.
    assert (p ∈ filter (fun q => Manager.PrinterDevice.id q = Manager.PrinterDevice.id p) printersData) as Hin
      by by apply list_elem_of_filter.
    rewrite El in Hin. by apply elem_of_nil in Hin.
Qed.

(** A record stored as [connected] comes back [disconnected]. *)
Example reload_connected :
  Manager.getPrinter
    (Manager.init true
       (Manager.saved
          [{| Manager.PrinterDevice.id := Ex.id_net;
              Manager.PrinterDevice.name := "Kitchen";
              Manager.PrinterDevice.type := Manager.network;
              Manager.PrinterDevice.status := Manager.connected;
              Manager.PrinterDevice.lastUsed := Some Ex.clock0;
              Manager.PrinterDevice.config := Ex.config_net |}]))
    Ex.id_net
  = Some {| Manager.PrinterDevice.id := Ex.id_net;
            Manager.PrinterDevice.name := "Kitchen";
            Manager.PrinterDevice.type := Manager.network;
            Manager.PrinterDevice.status := Manager.disconnected;
            Manager.PrinterDevice.lastUsed := Some Ex.clock0;
            Manager.PrinterDevice.config := Ex.config_net |}.
Proof. vm_compute. reflexivity. Qed.
(** ** The print queue *)

(** C10.  [getPrintQueue] returns a new array holding the queue's
    elements: it is not the manager's array, the manager is otherwise as
    before, and pushing onto the returned array or splicing it leaves the
    manager's queue as it was. *)
Theorem getPrintQueue_copy (w : Manager.World) :
  Manager.printQueue w < length (Manager.arrays w) ->
  let '(a, w') := Manager.getPrintQueue w in
  a <> Manager.printQueue w' /\
  Manager.arrays w' !! a = Some (Manager.queue w) /\
  Manager.arrays w' = Manager.arrays w ++ [Manager.queue w] /\
  Manager.set_arrays (fun _ => Manager.arrays w) w' = w /\
  Manager.queue w' = Manager.queue w /\
  (forall x, Manager.queue (Manager.array_push a x w') = Manager.queue w) /\
  (forall index, Manager.queue (Manager.array_splice a index w') = Manager.queue w).
Proof.
  intros Hq. unfold Manager.getPrintQueue.
  assert (Manager.queue (Manager.set_arrays (fun hs => hs ++ [Manager.queue w]) w)
          = Manager.queue w) as Hsame.
  { unfold Manager.queue. cbn. by rewrite lookup_app_l. }
  repeat split.
  - cbn. lia.
  - cbn. rewrite lookup_app_r by done. by rewrite Nat.sub_diag.
  - by destruct w.
  - done.
  - intros x. unfold Manager.queue, Manager.array_push in *. cbn in *.
    rewrite list_lookup_alter_ne by lia. done.
  - intros index. unfold Manager.queue, Manager.array_splice in *. cbn in *.
    rewrite list_lookup_alter_ne by lia. done.
Qed.

Lemma getPrintQueue_copy_witness :
  Manager.queue Ex.while_printing = [0] /\
  let '(a, w') := Manager.getPrintQueue Ex.while_printing in
  a <> Manager.printQueue w' /\
  Manager.arrays w' !! a = Some (Manager.queue Ex.while_printing) /\
  Manager.arrays w' = Manager.arrays Ex.while_printing ++ [Manager.queue Ex.while_printing] /\
  Manager.set_arrays (fun _ => Manager.arrays Ex.while_printing) w' = Ex.while_printing /\
  Manager.queue w' = Manager.queue Ex.while_printing /\
  (forall x, Manager.queue (Manager.array_push a x w') = Manager.queue Ex.while_printing) /\
  (forall index,
     Manager.queue (Manager.array_splice a index w') = Manager.queue Ex.while_printing).
Proof.
  split; [vm_compute; reflexivity|].
  apply (getPrintQueue_copy Ex.while_printing). vm_compute. lia.
Defined.

(** The array handed out for a queue of one job holds that job; emptying
    the array leaves the job in the manager's queue. *)
Example getPrintQueue_one_job :
  let '(a, w') := Manager.getPrintQueue Ex.while_printing in
  Manager.arrays w' !! a = Some [0] /\
  Manager.arrays (Manager.array_splice a 0 w') !! a = Some [] /\
  Manager.queue (Manager.array_splice a 0 w') = [0].
Proof. vm_compute. done. Qed.

(** ** Disconnecting *)

(** Without a registered connection [disconnectPrinter] does nothing. *)
Lemma disconnectPrinter_no_connection (id : string) (w : Manager.World) :
  Manager.get_connection w id = None ->
  Manager.disconnectPrinter_begin id w = Manager.Returned () w.
Proof.
  intros Hc. unfold Manager.disconnectPrinter_begin. rewrite Hc.
  by destruct (Manager.get_printer w id) as [[? ?]|].
Qed.

Lemma disconnectPrinter_no_printer (id : string) (w : Manager.World) :
  Manager.get_printer w id = None ->
  Manager.disconnectPrinter_begin id w = Manager.Returned () w.
Proof. intros Hp. unfold Manager.disconnectPrinter_begin. by rewrite Hp. Qed.

(** Two awaited [disconnectPrinter(id)] in a row leave the world the first
    one leaves, in every world. *)
Lemma disconnectPrinter_twice (id : string) (o1 o2 : Outcome)
    (st1 st2 : Manager.PrinterConnection) (w : Manager.World) :
  Manager.disconnectPrinter id o2 st2
    (Manager.world_of (Manager.disconnectPrinter id o1 st1 w))
  = Manager.Fulfilled () (Manager.world_of (Manager.disconnectPrinter id o1 st1 w)).
Proof.
  destruct (Manager.get_printer w id) as [[p d]|] eqn:Ep;
    [destruct (Manager.get_connection w id) as [[c connection]|] eqn:Ec|].
  - unfold Manager.disconnectPrinter at 1.
    rewrite disconnectPrinter_no_connection; [done|].
    unfold Manager.disconnectPrinter, Manager.disconnectPrinter_begin.
    rewrite Ep, Ec. unfold Manager.get_connection. cbn. by rewrite lookup_delete_eq.
  - unfold Manager.disconnectPrinter.
    rewrite !(disconnectPrinter_no_connection id w Ec). cbn.
    by rewrite (disconnectPrinter_no_connection id w Ec).
  - unfold Manager.disconnectPrinter.
    rewrite !(disconnectPrinter_no_printer id w Ep). cbn.
    by rewrite (disconnectPrinter_no_printer id w Ep).
Qed.

(** ** Jobs are only changed by their own [print] *)








(** ** The life of a print job *)



(** The specification's scenario: register, connect, send twenty bytes. *)
Example print_scenario :
  exists w,
    Manager.print_job Ex.payload20 (Some Ex.id_net) (Ex.clock0 + 100)%N Ex.random0
      Resolved (Manager.NetworkPrinterConnection Ex.net0) (Ex.clock0 + 200)%N Ex.online
    = Manager.Fulfilled "job_1700000000100_4fzyo82mv" w /\
    Manager.PrintJob.status <$> Manager.jobs w !! 0 = Some Manager.completed /\
    Manager.queue w = [0] /\
    omap (fun e => match e with
                   | Manager.printJobAdded 0 j | Manager.printJobUpdated 0 j =>
                       Some (Manager.PrintJob.status j)
                   | _ => None
                   end) (Manager.emitted w)
    = [Manager.pending; Manager.printing; Manager.completed].
Proof. eexists. repeat split; vm_compute; reflexivity. Qed.
(** ** Sessions *)

Ltac calls_mem :=
  unfold Manager.session_of, Manager.live in *; cbn in *;
  autorewrite with save in *; cbn in *;
  rewrite ?elem_of_app, ?list_elem_of_singleton in *.


Lemma get_printer_Some (w : Manager.World) (id : string) (p : nat)
    (d : Manager.PrinterDevice.t) :
  Manager.get_printer w id = Some (p, d) <->
  Manager.printers w !! id = Some p /\ Manager.devices w !! p = Some d.
Proof.
  unfold Manager.get_printer.
  destruct (Manager.printers w !! id) as [p'|]; cbn.
  - destruct (Manager.devices w !! p') as [d'|] eqn:E; cbn.
    + split; [by intros [= <- <-]|].
      intros [[= <-] Hd]. rewrite E in Hd. by injection Hd as <-.
    + split; [done|]. intros [[= <-] Hd]. congruence.
  - split; [done|]. by intros [? _].
Qed.

Lemma get_connection_Some (w : Manager.World) (id : string) (c : nat)
    (o : Manager.PrinterConnection) :
  Manager.get_connection w id = Some (c, o) <->
  Manager.connections w !! id = Some c /\ Manager.connObjs w !! c = Some o.
Proof.
  unfold Manager.get_connection.
  destruct (Manager.connections w !! id) as [c'|]; cbn.
  - destruct (Manager.connObjs w !! c') as [o'|] eqn:E; cbn.
    + split; [by intros [= <- <-]|].
      intros [[= <-] Ho]. rewrite E in Ho. by injection Ho as <-.
    + split; [done|]. intros [[= <-] Ho]. congruence.
  - split; [done|]. by intros [? _].
Qed.

(** A step that touches neither the maps, nor a printer's state, nor the
    sessions keeps the invariant. *)
Lemma Inv_frame (w w' : Manager.World) :
  Inv w ->
  Manager.printers w' = Manager.printers w ->
  Manager.connections w' = Manager.connections w ->
  length (Manager.devices w') = length (Manager.devices w) ->
  (forall p, status_of w' p = status_of w p) ->
  (forall e, lifecycle e = true -> e ∈ Manager.calls w' -> e ∈ Manager.calls w) ->
  (forall e, lifecycle e = true -> e ∈ Manager.calls w -> e ∈ Manager.calls w') ->
  (forall e, e ∈ Manager.calls w' -> conn_of e < length (Manager.connObjs w')) ->
  Manager.printQueue w' < length (Manager.arrays w') ->
  Inv w'.
Proof.
  intros [Hstore Hinj Hconn Hlive Hfresh Hq] Hp Hc Hlen Hst Hin Hout Hfr Hq'.
  constructor.
  - intros id p. rewrite Hp, Hlen. apply Hstore.
  - intros id1 id2 p. rewrite Hp. apply Hinj.
  - intros id c. rewrite Hc, Hp. intros H.
    destruct (Hconn _ _ H) as (p & ? & ?). exists p. by rewrite Hst.
  - intros id c Hs [Hl Hd]. rewrite Hc. apply Hlive.
    + by apply Hin.
    + split; [by apply Hin|]. intros H. apply Hd. by apply Hout.
  - done.
  - done.
Qed.

Lemma Inv_connect (id : string) (o : Outcome) (st : Manager.PrinterConnection)
    (now : N) (w : Manager.World) :
  Inv w -> Inv (Manager.world_of (Manager.connectPrinter id o st now w)).
Proof.
  intros [Hstore Hinj Hconn Hlive Hfresh Hq].
  unfold Manager.connectPrinter, Manager.connectPrinter_begin.
  destruct (Manager.get_printer w id) as [[p d]|] eqn:Ep; [|by constructor].
  assert (Manager.printers w !! id = Some p /\ Manager.devices w !! p = Some d) as [Epr Edev].
  { unfold Manager.get_printer in Ep. destruct (Manager.printers w !! id) as [p'|]; [|done].
    cbn in Ep. destruct (Manager.devices w !! p') as [d'|] eqn:E'; [|done].
    cbn in Ep. by injection Ep as -> ->. }
  destruct (decide (Manager.PrinterDevice.status d = Manager.connected)) as [Hst|Hst].
  { rewrite Hst. by constructor. }
  assert (Manager.connections w !! id = None) as Hnone.
  { destruct (Manager.connections w !! id) as [c|] eqn:Ec; [|done].
    destruct (Hconn _ _ Ec) as (p' & Hp' & Hs). rewrite Epr in Hp'. injection Hp' as <-.
    unfold status_of in Hs. rewrite Edev in Hs. cbn in Hs. congruence. }
  set (body := Manager.complete _ _).
  assert (body = Manager.complete
            (fun k w => Manager.connectPrinter_finish k o now
                          (Manager.driver_sets (Manager.ck_connection k) st w))
            (let w1 := Manager.set_devices (alter (Manager.PrinterDevice.set_status Manager.connecting) p) w in
             let w2 := Manager.emit (Manager.printerStatusChanged id Manager.connecting None) w1 in
             let c := length (Manager.connObjs w2) in
             let w3 := Manager.set_connObjs
                       (fun cs => cs ++ [Manager.createConnection (Manager.PrinterDevice.config d)]) w2 in
             let w4 := Manager.log (Manager.constructed c id) w3 in
             let w5 := Manager.log (Manager.called c Manager.connect) w4 in
             Manager.Awaiting {| Manager.ck_id := id; Manager.ck_printer := p; Manager.ck_connection := c |} w5)) as ->.
  { subst body. by destruct (Manager.PrinterDevice.status d). }
  cbn [Manager.complete]. cbv zeta. unfold Manager.connectPrinter_finish.
  cbn [Manager.ck_connection Manager.ck_id Manager.ck_printer].
  assert (forall e, e ∈ Manager.calls w -> conn_of e <> length (Manager.connObjs w)) as Hnew.
  { intros e He. apply Hfresh in He. lia. }
  destruct o as [|m]; cbn [Manager.world_of].
  - constructor.
    + intros id' p'. calls_mem. rewrite !length_alter. apply Hstore.
    + intros id1 id2 p'. calls_mem. apply Hinj.
    + intros id' c'. calls_mem. unfold status_of. cbn. autorewrite with save. cbn.
      destruct (decide (id = id')) as [<-|Hne].
      * rewrite lookup_insert_eq. intros _. exists p. split; [done|].
        rewrite !list_lookup_alter_eq, Edev. done.
      * rewrite lookup_insert_ne by done. intros Hc.
        destruct (Hconn _ _ Hc) as (p' & Hp' & Hs). exists p'. split; [done|].
        assert (p <> p') by (intros <-; eauto).
        rewrite !list_lookup_alter_ne by done. done.
    + intros id' c'. calls_mem. rewrite ?length_insert, ?length_app; cbn.
      intros Hs [Hl Hd].
      destruct (decide (c' = length (Manager.connObjs w))) as [->|Hne].
      * assert (id' = id) as ->.
        { destruct Hs as [[[Hs|Hs]|Hs]|Hs]; try congruence.
          apply Hnew in Hs. done. }
        by rewrite lookup_insert_eq.
      * assert (Manager.connections w !! id' = Some c') as Hreg.
        { apply Hlive.
          - destruct Hs as [[[Hs|Hs]|Hs]|Hs]; first [done|congruence].
          - split; [|tauto].
            destruct Hl as [[[Hl|Hl]|Hl]|Hl]; first [done|congruence]. }
        rewrite lookup_insert_ne; [done|]. intros <-. congruence.
    + intros e. calls_mem. rewrite ?length_insert, ?length_app; cbn.
      intros [[[He | ->] | ->] | ->]; cbn; try lia.
      apply Hfresh in He. lia.
    + calls_mem. done.
  - constructor.
    + intros id' p'. calls_mem. rewrite !length_alter. apply Hstore.
    + intros id1 id2 p'. calls_mem. apply Hinj.
    + intros id' c'. calls_mem. unfold status_of. cbn. intros Hc.
      destruct (Hconn _ _ Hc) as (p' & Hp' & Hs). exists p'. split; [done|].
      assert (p <> p') by (intros <-; assert (id' = id) as -> by eauto; congruence).
      rewrite !list_lookup_alter_ne by done. done.
    + intros id' c'. calls_mem. rewrite ?length_insert, ?length_app; cbn.
      intros Hs [Hl Hd].
      apply Hlive.
      * destruct Hs as [[[Hs|Hs]|Hs]|Hs]; try congruence.
        injection Hs as -> ->.
        destruct Hl as [[[Hl|Hl]|Hl]|Hl]; try congruence.
        apply Hnew in Hl. done.
      * split; [|tauto].
        destruct Hl as [[[Hl|Hl]|Hl]|Hl]; first [done|congruence].
    + intros e. calls_mem. rewrite ?length_insert, ?length_app; cbn.
      intros [[[He | ->] | ->] | ->]; cbn; try lia.
      apply Hfresh in He. lia.
    + calls_mem. done.
Qed.
Lemma status_of_alter_same (f : Manager.PrinterDevice.t -> Manager.PrinterDevice.t)
    (w : Manager.World) (p q : nat) :
  (forall d, Manager.PrinterDevice.status (f d) = Manager.PrinterDevice.status d) ->
  status_of (Manager.set_devices (alter f p) w) q = status_of w q.
Proof.
  intros Hf. unfold status_of. cbn.
  destruct (decide (p = q)) as [->|Hne].
  - rewrite list_lookup_alter_eq. destruct (Manager.devices w !! q); cbn; by rewrite ?Hf.
  - by rewrite list_lookup_alter_ne.
Qed.

Lemma Inv_load (printersData : list Manager.PrinterDevice.t) (w : Manager.World) :
  Inv w -> Manager.connections w = ∅ ->
  Inv (foldl Manager.load_one w printersData) /\
  Manager.connections (foldl Manager.load_one w printersData) = ∅.
Proof.
  revert w. induction printersData as [|printer rest IH]; intros w Hw Hc; [done|].
  cbn [foldl]. apply IH; [|done].
  destruct Hw as [Hstore Hinj Hconn Hlive Hfresh Hq].
  constructor; unfold Manager.load_one; cbn.
  - intros id p. rewrite length_app. cbn.
    destruct (decide (Manager.PrinterDevice.id printer = id)) as [->|Hne].
    + rewrite lookup_insert_eq. intros [= <-]. lia.
    + rewrite lookup_insert_ne by done. intros Hp. apply Hstore in Hp. lia.
  - intros id1 id2 p.
    destruct (decide (Manager.PrinterDevice.id printer = id1)) as [<-|Hne1];
      destruct (decide (Manager.PrinterDevice.id printer = id2)) as [<-|Hne2];
      rewrite ?lookup_insert_eq, ?lookup_insert_ne by done; try done.
    + intros [= <-] Hp. apply Hstore in Hp. lia.
    + intros Hp [= <-]. apply Hstore in Hp. lia.
    + apply Hinj.
  - intros id c. rewrite Hc, lookup_empty. done.
  - intros id c Hs Hl. rewrite Hc in *. by apply Hlive.
  - done.
  - done.
Qed.

Lemma Inv_init (window : bool) (stored : Manager.Item) :
  Inv (Manager.init window stored).
Proof.
  unfold Manager.init, Manager.loadSavedPrinters. cbn [Manager.window Manager.localStorage].
  set (w0 := Manager.Build_World _ _ _ _ _ _ _ _ _ _ _ _).
  assert (Inv w0) as H0.
  { constructor; subst w0; cbn.
    - intros id p. by rewrite lookup_empty.
    - intros id1 id2 p. by rewrite lookup_empty.
    - intros id c. by rewrite lookup_empty.
    - intros id c Hs. unfold Manager.session_of in Hs. cbn in Hs.
      by apply elem_of_nil in Hs.
    - intros e He. by apply elem_of_nil in He.
    - lia. }
  destruct window; [|done]. destruct stored; try done.
  by apply Inv_load.
Qed.

Lemma Inv_addPrinter (config : Manager.PrinterConfig.t) (now : N) (rnd : string)
    (w : Manager.World) :
  Inv w ->
  Manager.printers w !! Manager.printer_id config now rnd = None ->
  Inv (Manager.world_of (Manager.addPrinter config now rnd w)).
Proof.
  intros [Hstore Hinj Hconn Hlive Hfresh Hq] Hnew.
  unfold Manager.addPrinter. cbn [Manager.world_of].
  set (id := Manager.printer_id config now rnd) in *.
  constructor; cbn.
  - intros id' p. rewrite length_app. cbn.
    destruct (decide (id = id')) as [<-|Hne].
    + rewrite lookup_insert_eq. intros [= <-]. lia.
    + rewrite lookup_insert_ne by done. intros Hp. apply Hstore in Hp. lia.
  - intros id1 id2 p.
    destruct (decide (id = id1)) as [<-|Hne1]; destruct (decide (id = id2)) as [<-|Hne2];
      rewrite ?lookup_insert_eq, ?lookup_insert_ne by done; try done.
    + intros [= <-] Hp. apply Hstore in Hp. lia.
    + intros Hp [= <-]. apply Hstore in Hp. lia.
    + apply Hinj.
  - intros id' c Hc. destruct (Hconn _ _ Hc) as (p & Hp & Hs).
    assert (id <> id') by congruence.
    exists p. rewrite lookup_insert_ne by done. split; [done|].
    unfold status_of in *. cbn. apply Hstore in Hp. by rewrite lookup_app_l.
  - apply Hlive.
  - apply Hfresh.
  - done.
Qed.

Lemma Inv_setActivePrinter (id : string) (w : Manager.World) :
  Inv w -> Inv (Manager.setActivePrinter id w).2.
Proof.
  intros Hw. unfold Manager.setActivePrinter.
  destruct (Manager.printers w !! id); [|done]. cbn.
  destruct Hw as [Hstore Hinj Hconn Hlive Hfresh Hq]. by constructor.
Qed.

Lemma Inv_driver_sets (c : nat) (st : Manager.PrinterConnection) (w : Manager.World) :
  Inv w -> Inv (Manager.driver_sets c st w).
Proof.
  intros [Hstore Hinj Hconn Hlive Hfresh Hq].
  constructor; try done. cbn. intros e He. rewrite length_insert. by apply Hfresh.
Qed.

Lemma Inv_arrays (f : list (list nat) -> list (list nat)) (w : Manager.World) :
  Inv w -> length (Manager.arrays w) <= length (f (Manager.arrays w)) ->
  Inv (Manager.set_arrays f w).
Proof.
  intros [Hstore Hinj Hconn Hlive Hfresh Hq] Hlen. constructor; try done. cbn. lia.
Qed.

Lemma Inv_getPrintQueue (w : Manager.World) : Inv w -> Inv (Manager.getPrintQueue w).2.
Proof.
  intros Hw. unfold Manager.getPrintQueue. cbn. apply Inv_arrays; [done|].
  rewrite length_app. lia.
Qed.

Lemma Inv_clearPrintQueue (w : Manager.World) : Inv w -> Inv (Manager.clearPrintQueue w).
Proof.
  intros [Hstore Hinj Hconn Hlive Hfresh Hq]. unfold Manager.clearPrintQueue.
  constructor; try done. cbn. rewrite length_app. cbn. lia.
Qed.

Lemma Inv_removePrintJob (jobId : string) (w : Manager.World) :
  Inv w -> Inv (Manager.removePrintJob jobId w).2.
Proof.
  intros Hw. unfold Manager.removePrintJob.
  destruct (Manager.findIndex w jobId (Manager.queue w)); [|done]. cbn.
  destruct Hw as [Hstore Hinj Hconn Hlive Hfresh Hq].
  constructor; try done. cbn. by rewrite length_alter.
Qed.

Lemma Inv_holder (a x : nat) (w : Manager.World) :
  Inv w ->
  Inv (Manager.run (Manager.holder_pushes a x) w) /\
  Inv (Manager.run (Manager.holder_splices a x) w).
Proof.
  intros Hw. cbn. unfold Manager.array_push, Manager.array_splice.
  split; case_bool_decide; try done; apply Inv_arrays; try done; by rewrite length_alter.
Qed.

Lemma Inv_print (data : Uint8Array) (printerId : option string) (now : N)
    (rnd : string) (o : Outcome) (st : Manager.PrinterConnection) (done : N)
    (w : Manager.World) :
  Inv w ->
  Inv (Manager.world_of (Manager.print_job data printerId now rnd o st done w)).
Proof.
  intros Hw. unfold Manager.print_job, Manager.print_begin.
  destruct (Manager.target printerId w) as [targetId|]; [|done].
  destruct (Manager.get_printer w targetId) as [[p d]|]; [|done].
  destruct (Manager.get_connection w targetId) as [[c connection]|] eqn:Ec; [|done].
  destruct (negb (Manager.isConnected connection)); [done|].
  apply get_connection_Some in Ec as [_ Ec]. apply lookup_lt_Some in Ec.
  cbn [Manager.complete]. unfold Manager.print_finish.
  cbn [Manager.pk_connection Manager.pk_job Manager.pk_printer Manager.pk_data].
  pose proof Hw as [Hstore Hinj Hconn Hlive Hfresh Hq].
  destruct o as [|m]; cbn [Manager.world_of]; unfold Manager.emit_job.
  - match goal with |- context [Manager.jobs ?W !! ?J] => destruct (Manager.jobs W !! J) end.
    all: apply (Inv_frame w); try done; cbn; try done.
    all: try (by rewrite length_alter).
    all: try (intros q; rewrite <- (status_of_alter_same (Manager.PrinterDevice.set_lastUsed done) w p q) by done; done).
    all: try (intros e He; rewrite !elem_of_app, !list_elem_of_singleton;
              intros [[? | ->] | ->]; done).
    all: try (intros e He ?; rewrite !elem_of_app; by repeat left).
    all: try (intros e; rewrite !elem_of_app, !list_elem_of_singleton, length_insert;
              intros [[? | ->] | ->]; cbn; auto).
  - match goal with |- context [Manager.jobs ?W !! ?J] => destruct (Manager.jobs W !! J) end.
    all: apply (Inv_frame w); try done; cbn; try done.
    all: try (intros e He; rewrite !elem_of_app, !list_elem_of_singleton;
              intros [[? | ->] | ->]; done).
    all: try (intros e He ?; rewrite !elem_of_app; by repeat left).
    all: try (intros e; rewrite !elem_of_app, !list_elem_of_singleton, length_insert;
              intros [[? | ->] | ->]; cbn; auto).
    all: by rewrite length_alter.
Qed.
Lemma Inv_disconnect_begin (id : string) (w w1 : Manager.World)
    (k : Manager.DisconnectK) :
  Inv w ->
  Manager.disconnectPrinter_begin id w = Manager.Awaiting k w1 ->
  Inv w1 /\ Finishable k w1 /\ Manager.dk_id k = id /\
  w1 = Manager.log (Manager.called (Manager.dk_connection k) Manager.disconnect) w /\
  Manager.connections w !! id = Some (Manager.dk_connection k).
Proof.
  intros Hw. unfold Manager.disconnectPrinter_begin.
  destruct (Manager.get_printer w id) as [[p d]|] eqn:Ep; [|done].
  destruct (Manager.get_connection w id) as [[c connection]|] eqn:Ec; [|done].
  intros [= <- <-]. cbn [Manager.dk_id Manager.dk_connection].
  apply get_printer_Some in Ep as [Ep _].
  apply get_connection_Some in Ec as [Ec Eo]. apply lookup_lt_Some in Eo.
  destruct Hw as [Hstore Hinj Hconn Hlive Hfresh Hq].
  repeat split; try done; cbn.
  - intros id' c' Hs [Hl Hd]. unfold Manager.session_of, Manager.live in *. cbn in *.
    rewrite elem_of_app, list_elem_of_singleton in *.
    apply Hlive; [|split]; try tauto.
    + by destruct Hs.
    + by destruct Hl.
  - intros e. rewrite elem_of_app, list_elem_of_singleton.
    intros [He | ->]; [by apply Hfresh|done].
  - intros c'. rewrite Ec. intros [= <-]. rewrite elem_of_app, list_elem_of_singleton. by right.
  - intros id' Hid'. by eapply Hinj.
Qed.

Lemma Inv_disconnect_finish (k : Manager.DisconnectK) (o : Outcome)
    (st : Manager.PrinterConnection) (w : Manager.World) :
  Inv w -> Finishable k w ->
  Inv (Manager.world_of
         (Manager.disconnectPrinter_finish k o
            (Manager.driver_sets (Manager.dk_connection k) st w))).
Proof.
  intros [Hstore Hinj Hconn Hlive Hfresh Hq] [Hcalled Hprinter Hc].
  unfold Manager.disconnectPrinter_finish. cbn [Manager.world_of].
  constructor; cbn.
  - intros id p. rewrite length_alter. apply Hstore.
  - apply Hinj.
  - intros id c. destruct (decide (Manager.dk_id k = id)) as [<-|Hne].
    + by rewrite lookup_delete_eq.
    + rewrite lookup_delete_ne by done. intros Hid.
      destruct (Hconn _ _ Hid) as (p & Hp & Hs). exists p. split; [done|].
      unfold status_of in *. cbn.
      rewrite list_lookup_alter_ne; [done|]. intros <-. by apply Hprinter in Hp.
  - intros id c Hs [Hl Hd]. unfold Manager.session_of, Manager.live in *. cbn in *.
    rewrite elem_of_app, list_elem_of_singleton in *.
    assert (Manager.connections w !! id = Some c) as Hreg.
    { apply Hlive; [|split]; try tauto.
      - by destruct Hs.
      - by destruct Hl. }
    rewrite lookup_delete_ne; [done|]. intros <-.
    apply Hd. left. by apply Hcalled.
  - intros e. rewrite elem_of_app, list_elem_of_singleton, length_insert.
    intros [He | ->]; [by apply Hfresh|done].
  - done.
Qed.

Lemma Finishable_finish (k k' : Manager.DisconnectK) (o : Outcome)
    (st : Manager.PrinterConnection) (w : Manager.World) :
  Finishable k w ->
  Finishable k
    (Manager.world_of
       (Manager.disconnectPrinter_finish k' o
          (Manager.driver_sets (Manager.dk_connection k') st w))).
Proof.
  intros [Hcalled Hprinter Hc]. unfold Manager.disconnectPrinter_finish.
  cbn [Manager.world_of]. constructor; cbn.
  - intros c Hk. rewrite elem_of_app. left. apply Hcalled.
    destruct (decide (Manager.dk_id k' = Manager.dk_id k)) as [E|E].
    + rewrite E, lookup_delete_eq in Hk. done.
    + by rewrite lookup_delete_ne in Hk.
  - done.
  - by rewrite length_insert.
Qed.

Lemma Inv_disconnectPrinter (id : string) (o : Outcome)
    (st : Manager.PrinterConnection) (w : Manager.World) :
  Inv w -> Inv (Manager.world_of (Manager.disconnectPrinter id o st w)).
Proof.
  intros Hw. unfold Manager.disconnectPrinter.
  destruct (Manager.disconnectPrinter_begin id w) as [r w1|m w1|k w1] eqn:E.
  - unfold Manager.disconnectPrinter_begin in E.
    destruct (Manager.get_printer w id) as [[? ?]|], (Manager.get_connection w id) as [[? ?]|];
      first [discriminate E | by injection E as <- <-].
  - unfold Manager.disconnectPrinter_begin in E.
    by destruct (Manager.get_printer w id) as [[? ?]|], (Manager.get_connection w id) as [[? ?]|].
  - destruct (Inv_disconnect_begin id w w1 k Hw E) as (H1 & Hk & _).
    cbn [Manager.complete]. by apply Inv_disconnect_finish.
Qed.
Lemma Finishable_log (k : Manager.DisconnectK) (e : Manager.DriverCall)
    (w : Manager.World) :
  Finishable k w -> Finishable k (Manager.log e w).
Proof.
  intros [Hcalled Hprinter Hc]. constructor; cbn; try done.
  intros c Hk. rewrite elem_of_app. left. by apply Hcalled.
Qed.

(** The synchronous rest of [removePrinter], when no live session of [id]
    is left. *)
Lemma Inv_remove_sync (id : string) (w : Manager.World) :
  Inv w ->
  (forall c, Manager.session_of w c id -> Manager.live w c -> False) ->
  Inv (Manager.emit (Manager.printerRemoved id)
         (Manager.savePrinters
            (let w := Manager.set_connections (delete id)
                        (Manager.set_printers (delete id) w) in
             if bool_decide (Manager.activePrinterId w = Some id)
             then Manager.set_activePrinterId None w else w))).
Proof.
  intros [Hstore Hinj Hconn Hlive Hfresh Hq] Hdead. cbv zeta.
  constructor; cbn; case_bool_decide; cbn.
  all: try done.
  - intros id' p Hp. apply lookup_delete_Some in Hp as [_ Hp]. by eapply Hstore.
  - intros id' p Hp. apply lookup_delete_Some in Hp as [_ Hp]. by eapply Hstore.
  - intros id1 id2 p Hp1 Hp2. apply lookup_delete_Some in Hp1 as [_ Hp1].
    apply lookup_delete_Some in Hp2 as [_ Hp2]. by eapply Hinj.
  - intros id1 id2 p Hp1 Hp2. apply lookup_delete_Some in Hp1 as [_ Hp1].
    apply lookup_delete_Some in Hp2 as [_ Hp2]. by eapply Hinj.
  - intros id' c Hc. apply lookup_delete_Some in Hc as [Hne Hc].
    destruct (Hconn _ _ Hc) as (p & Hp & Hs). exists p.
    by rewrite lookup_delete_ne.
  - intros id' c Hc. apply lookup_delete_Some in Hc as [Hne Hc].
    destruct (Hconn _ _ Hc) as (p & Hp & Hs). exists p.
    by rewrite lookup_delete_ne.
  - intros id' c Hs Hl. rewrite lookup_delete_ne; [by apply Hlive|].
    intros <-. by eapply Hdead.
  - intros id' c Hs Hl. rewrite lookup_delete_ne; [by apply Hlive|].
    intros <-. by eapply Hdead.
Qed.

Lemma Finishable_remove_sync (k : Manager.DisconnectK) (w : Manager.World) :
  Inv w -> Finishable k w ->
  Manager.printers w !! Manager.dk_id k = Some (Manager.dk_printer k) ->
  Finishable k
    (Manager.emit (Manager.printerRemoved (Manager.dk_id k))
       (Manager.savePrinters
          (let w := Manager.set_connections (delete (Manager.dk_id k))
                      (Manager.set_printers (delete (Manager.dk_id k)) w) in
           if bool_decide (Manager.activePrinterId w = Some (Manager.dk_id k))
           then Manager.set_activePrinterId None w else w))).
Proof.
  intros Hw [Hcalled Hprinter Hc] Hp. cbv zeta.
  constructor; cbn; case_bool_decide; cbn; try done.
  all: try (intros c; by rewrite lookup_delete_eq).
  all: intros id' Hid'; apply lookup_delete_Some in Hid' as [_ Hid']; by apply Hprinter.
Qed.

Lemma Inv_removePrinter (id : string) (o : Outcome)
    (st : Manager.PrinterConnection) (w : Manager.World) :
  Inv w -> Inv (Manager.removePrinter_awaited id o st w).2.
Proof.
  intros Hw. unfold Manager.removePrinter_awaited, Manager.removePrinter.
  destruct (Manager.get_printer w id) as [[p d]|] eqn:Eget; [|done].
  pose proof Eget as Ep. apply get_printer_Some in Ep as [Ep Ed].
  assert (Manager.PrinterDevice.status d <> Manager.connected ->
          forall c, Manager.session_of w c id -> Manager.live w c -> False) as Hoff.
  { intros Hst c Hs Hl. pose proof (inv_live w Hw _ _ Hs Hl) as Hc.
    destruct (inv_conn w Hw _ _ Hc) as (p' & Hp' & Hst').
    rewrite Ep in Hp'. injection Hp' as <-.
    unfold status_of in Hst'. rewrite Ed in Hst'. cbn in Hst'. congruence. }
  destruct (decide (Manager.PrinterDevice.status d = Manager.connected)) as [Hst|Hst].
  - rewrite Hst.
    destruct (Manager.disconnectPrinter_begin id w) as [r w1|m w1|k w1] eqn:E.
    + assert (w1 = w /\ Manager.get_connection w id = None) as [-> Hno].
      { unfold Manager.disconnectPrinter_begin in E. rewrite Eget in E.
        destruct (Manager.get_connection w id) as [[? ?]|];
          first [discriminate E | by injection E as <- <-]. }
      cbn. apply Inv_remove_sync; [done|].
      intros c Hs Hl. pose proof (inv_live w Hw _ _ Hs Hl) as Hc.
      apply (inv_fresh w Hw) in Hs. cbn in Hs.
      apply lookup_lt_is_Some_2 in Hs as [x Hx].
      assert (Manager.get_connection w id = Some (c, x)) as Hget
        by by apply get_connection_Some.
      congruence.
    + unfold Manager.disconnectPrinter_begin in E.
      by destruct (Manager.get_printer w id) as [[? ?]|], (Manager.get_connection w id) as [[? ?]|].
    + destruct (Inv_disconnect_begin id w w1 k Hw E) as (H1 & Hk & <- & Hw1 & Hreg).
      cbn [snd]. rewrite Hw1. apply Inv_disconnect_finish.
      * rewrite <- Hw1. apply Inv_remove_sync; [done|].
        intros c Hs Hl. pose proof (inv_live w1 H1 _ _ Hs Hl) as Hc.
        rewrite Hw1 in Hc. cbn in Hc. rewrite Hreg in Hc. injection Hc as <-.
        destruct Hl as [_ Hd]. apply Hd. rewrite Hw1. cbn.
        rewrite elem_of_app, list_elem_of_singleton. by right.
      * rewrite <- Hw1. apply Finishable_remove_sync; try done.
        rewrite Hw1. cbn.
        unfold Manager.disconnectPrinter_begin in E.
        destruct (Manager.get_printer w (Manager.dk_id k)) as [[p' d']|] eqn:Ep'; [|done].
        destruct (Manager.get_connection w (Manager.dk_id k)) as [[? ?]|]; [|done].
        injection E as <- _. cbn. by apply get_printer_Some in Ep' as [? _].
  - assert ((let '(w0, rest) :=
               match Manager.PrinterDevice.status d with
               | Manager.connected =>
                   match Manager.disconnectPrinter_begin id w with
                   | Manager.Awaiting k w0 => (w0, Some k)
                   | Manager.Returned _ w0 | Manager.Threw _ w0 => (w0, None)
                   end
               | _ => (w, None)
               end in (w0, rest)) = (w, None)) as Hsame
      by by destruct (Manager.PrinterDevice.status d).
    destruct (match Manager.PrinterDevice.status d with
              | Manager.connected => _ | _ => _ end) as [w0 rest].
    injection Hsame as -> ->. cbn. apply Inv_remove_sync; [done|by apply Hoff].
Qed.
Lemma Inv_disconnectAll_begin (ids : list string) (ks : list Manager.DisconnectK)
    (w : Manager.World) :
  Inv w -> Forall (fun k => Finishable k w) ks ->
  let r := foldl (fun '(ks, w) id =>
                    match Manager.disconnectPrinter_begin id w with
                    | Manager.Awaiting k w => (ks ++ [k], w)
                    | Manager.Returned _ w | Manager.Threw _ w => (ks, w)
                    end) (ks, w) ids in
  Inv r.2 /\ Forall (fun k => Finishable k r.2) r.1.
Proof.
  revert ks w. induction ids as [|id ids IH]; intros ks w Hw Hks; [done|].
  cbn [foldl].
  destruct (Manager.disconnectPrinter_begin id w) as [r w1|m w1|k w1] eqn:E.
  - assert (w1 = w) as ->; [|by apply IH].
    unfold Manager.disconnectPrinter_begin in E.
    destruct (Manager.get_printer w id) as [[? ?]|], (Manager.get_connection w id) as [[? ?]|];
      first [discriminate E | by injection E as <- <-].
  - unfold Manager.disconnectPrinter_begin in E.
    by destruct (Manager.get_printer w id) as [[? ?]|], (Manager.get_connection w id) as [[? ?]|].
  - destruct (Inv_disconnect_begin id w w1 k Hw E) as (H1 & Hk & _ & Hw1 & _).
    apply IH; [done|]. apply Forall_app. split; [|by constructor].
    rewrite Hw1. eapply Forall_impl; [exact Hks|]. intros k0. apply Finishable_log.
Qed.

Lemma Inv_disconnectAll_finish (o : string -> Outcome)
    (st : string -> Manager.PrinterConnection) (ks : list Manager.DisconnectK)
    (w : Manager.World) :
  Inv w -> Forall (fun k => Finishable k w) ks ->
  Inv (foldl (fun w k =>
                Manager.world_of
                  (Manager.disconnectPrinter_finish k (o (Manager.dk_id k))
                     (Manager.driver_sets (Manager.dk_connection k)
                        (st (Manager.dk_id k)) w)))
             w ks).
Proof.
  revert w. induction ks as [|k ks IH]; intros w Hw Hks; [done|].
  cbn [foldl]. apply Forall_cons in Hks as [Hk Hks].
  apply IH; [by apply Inv_disconnect_finish|].
  eapply Forall_impl; [exact Hks|]. intros k0. apply Finishable_finish.
Qed.

Lemma Inv_disconnectAll (o : string -> Outcome)
    (st : string -> Manager.PrinterConnection) (w : Manager.World) :
  Inv w -> Inv (Manager.disconnectAll o st w).
Proof.
  intros Hw. unfold Manager.disconnectAll, Manager.disconnectAll_begin.
  pose proof (Inv_disconnectAll_begin (map_to_list (Manager.printers w)).*1 [] w Hw
                (Forall_nil_2 _)) as H.
  cbv zeta in H. destruct (foldl _ _ _) as [ks w1]. destruct H as [H1 Hks].
  by apply Inv_disconnectAll_finish.
Qed.

Lemma Inv_testPrinter (id : string) (o : Outcome) (st : Manager.PrinterConnection)
    (now : N) (w : Manager.World) :
  Inv w -> Inv (Manager.testPrinter id o st now w).2.
Proof.
  intros Hw. unfold Manager.testPrinter.
  pose proof (Inv_connect id o st now w Hw) as H.
  by destruct (Manager.connectPrinter id o st now w).
Qed.

(** Every world reached by awaited calls satisfies the invariant. *)
Theorem reachable_Inv (w : Manager.World) : Manager.reachable w -> Inv w.
Proof.
  induction 1 as [window stored|w call Hr IH Hadm]; [apply Inv_init|].
  destruct call; cbn [Manager.run].
  - by apply Inv_addPrinter.
  - by apply Inv_removePrinter.
  - by apply Inv_setActivePrinter.
  - by apply Inv_connect.
  - by apply Inv_disconnectPrinter.
  - by apply Inv_disconnectAll.
  - by apply Inv_print.
  - by apply Inv_getPrintQueue.
  - by apply Inv_clearPrintQueue.
  - by apply Inv_removePrintJob.
  - by apply Inv_testPrinter.
  - by apply Inv_driver_sets.
  - by apply (Inv_holder a x w).
  - by apply (Inv_holder a index w).
Qed.

(** C1, amended.  A [connectPrinter] on an identity that is [connected]
    returns at once: no connection object is made and the world is as
    before (on an identity that is [connecting] the call goes on and makes
    another connection object).  And in every world reached by calls that
    are awaited one after the other, no printer id has two live sessions,
    the live session of an id is the connection registered for it, and an
    id with a registered connection is [connected]. *)
Theorem connect_once :
  (forall (w : Manager.World) (id : string) (p : nat) (d : Manager.PrinterDevice.t),
     Manager.get_printer w id = Some (p, d) ->
     Manager.PrinterDevice.status d = Manager.connected ->
     Manager.connectPrinter_begin id w = Manager.Returned () w /\
     forall o st now,
       Manager.connectPrinter id o st now w = Manager.Fulfilled () w) /\
  (forall w : Manager.World,
     Manager.reachable w ->
     Manager.at_most_one_session w /\
     (forall id c, Manager.session_of w c id -> Manager.live w c ->
                   Manager.connections w !! id = Some c) /\
     (forall id c, Manager.connections w !! id = Some c ->
                   exists p d, Manager.get_printer w id = Some (p, d) /\
                               Manager.PrinterDevice.status d = Manager.connected)).
Proof.
  split.
  - intros w id p d Hp Hd.
    assert (Manager.connectPrinter_begin id w = Manager.Returned () w) as Hb.
    { unfold Manager.connectPrinter_begin. by rewrite Hp, Hd. }
    split; [done|]. intros o st now. unfold Manager.connectPrinter. by rewrite Hb.
  - intros w Hr. apply reachable_Inv in Hr as [Hstore Hinj Hconn Hlive Hfresh Hq].
    split; [|split].
    + intros id c1 c2 Hs1 Hs2 Hl1 Hl2.
      pose proof (Hlive _ _ Hs1 Hl1) as H1. pose proof (Hlive _ _ Hs2 Hl2) as H2.
      congruence.
    + done.
    + intros id c Hc. destruct (Hconn _ _ Hc) as (p & Hp & Hs).
      unfold status_of in Hs. destruct (Manager.devices w !! p) as [d|] eqn:Ed; [|done].
      exists p, d. split; [by apply get_printer_Some|]. cbn in Hs. congruence.
Qed.

(** A second [connectPrinter] while the first one waits for its driver
    makes a second connection object. *)
Lemma connect_guarded_fails : ~ connect_guarded.
Proof.
  intros H.
  specialize (H Ex.while_connecting Ex.id_net 0
                {| Manager.PrinterDevice.id := Ex.id_net;
                   Manager.PrinterDevice.name := "Kitchen";
                   Manager.PrinterDevice.type := Manager.network;
                   Manager.PrinterDevice.status := Manager.connecting;
                   Manager.PrinterDevice.lastUsed := None;
                   Manager.PrinterDevice.config := Ex.config_net |}).
  vm_compute in H. specialize (H eq_refl (or_introl eq_refl)). discriminate H.
Qed.

Lemma overlapped_calls :
  Manager.calls Ex.overlapped
  = [Manager.constructed 0 Ex.id_net; Manager.called 0 Manager.connect;
     Manager.constructed 1 Ex.id_net; Manager.called 1 Manager.connect;
     Manager.settled 0 Manager.connect Resolved;
     Manager.settled 1 Manager.connect Resolved].
Proof. vm_compute. reflexivity. Qed.

Lemma overlapped_sessions (c : nat) :
  c = 0 \/ c = 1 ->
  Manager.session_of Ex.overlapped c Ex.id_net /\ Manager.live Ex.overlapped c.
Proof.
  unfold Manager.session_of, Manager.live. rewrite overlapped_calls.
  rewrite !elem_of_cons.
  intros [-> | ->]; (split; [tauto|split; [tauto|]]); intros H;
    repeat (destruct H as [H|H]; [discriminate H|]); by apply elem_of_nil in H.
Qed.

(** Two overlapping [connectPrinter] calls whose drivers both resolve leave
    two live sessions of one id; the map knows the second only. *)
Example overlapping_connects :
  Manager.connectPrinter_begin Ex.id_net Ex.registered
  = Manager.Awaiting (Ex.connect_k 0) Ex.while_connecting /\
  (exists w, Manager.connectPrinter_begin Ex.id_net Ex.while_connecting
             = Manager.Awaiting (Ex.connect_k 1) w) /\
  Manager.connections Ex.overlapped !! Ex.id_net = Some 1 /\
  ~ Manager.at_most_one_session Ex.overlapped.
Proof.
  split; [vm_compute; reflexivity|].
  split; [eexists; vm_compute; reflexivity|].
  split; [vm_compute; reflexivity|].
  intros H.
  destruct (overlapped_sessions 0 (or_introl eq_refl)) as [Hs0 Hl0].
  destruct (overlapped_sessions 1 (or_intror eq_refl)) as [Hs1 Hl1].
  discriminate (H Ex.id_net 0 1 Hs0 Hs1 Hl0 Hl1).
Qed.

(** In a world reached by awaited calls: the queue is an array of the
    store, and an identity that is not [connected] has no connection
    registered, so that [print] refuses it and [disconnectPrinter] does
    nothing. *)
Lemma reachable_queue (w : Manager.World) :
  Manager.reachable w -> Manager.printQueue w < length (Manager.arrays w).
Proof. intros Hr. by apply reachable_Inv in Hr as []. Qed.

Lemma reachable_not_connected (w : Manager.World) (id : string) (p : nat)
    (d : Manager.PrinterDevice.t) :
  Manager.reachable w ->
  Manager.get_printer w id = Some (p, d) ->
  Manager.PrinterDevice.status d <> Manager.connected ->
  Manager.get_connection w id = None.
Proof.
  intros Hr Hp Hd. apply reachable_Inv in Hr.
  unfold Manager.get_connection.
  destruct (Manager.connections w !! id) as [c|] eqn:Ec; [|done].
  destruct (inv_conn w Hr _ _ Ec) as (p' & Hp' & Hs).
  apply get_printer_Some in Hp as [Hp Hdev]. rewrite Hp in Hp'. injection Hp' as <-.
  unfold status_of in Hs. rewrite Hdev in Hs. cbn in Hs. congruence.
Qed.

(** ** Sending *)




Example print_in_state_error :
  Manager.PrinterDevice.status <$> Manager.getPrinter Ex.half_failed Ex.id_net
  = Some Manager.error /\
  exists k w,
    Manager.print_begin Ex.payload20 (Some Ex.id_net) (Ex.clock0 + 100)%N Ex.random0
      Ex.half_failed
    = Manager.Awaiting k w /\
    last (Manager.calls w) = Some (Manager.called 0 (Manager.print Ex.payload20)).
Proof. split; [vm_compute; reflexivity|]. eexists _, _. split; vm_compute; reflexivity. Qed.

(** ** Disconnecting an identity that is disconnected *)

(** C6.  [disconnectPrinter] on an identity that is [disconnected] -- in a
    world reached by awaited calls, or in any world where no connection is
    registered for it -- returns without throwing and leaves the world as
    it was: printers, connections, states, events, driver calls; a second
    call after it does the same. *)
Theorem disconnect_when_disconnected (id : string) (w : Manager.World)
    (p : nat) (d : Manager.PrinterDevice.t) :
  Manager.get_printer w id = Some (p, d) ->
  Manager.PrinterDevice.status d = Manager.disconnected ->
  Manager.reachable w \/ Manager.get_connection w id = None ->
  Manager.disconnectPrinter_begin id w = Manager.Returned () w /\
  forall o1 st1,
    Manager.disconnectPrinter id o1 st1 w = Manager.Fulfilled () w /\
    forall o2 st2,
      Manager.disconnectPrinter id o2 st2
        (Manager.world_of (Manager.disconnectPrinter id o1 st1 w))
      = Manager.disconnectPrinter id o1 st1 w.
Proof.
  intros Hp Hd Hrc.
  assert (Manager.get_connection w id = None) as Hc.
  { destruct Hrc as [Hr|Hc]; [|done].
    eapply reachable_not_connected; [done..|]. by rewrite Hd. }
  assert (Manager.disconnectPrinter_begin id w = Manager.Returned () w) as Hb.
  { unfold Manager.disconnectPrinter_begin. by rewrite Hp, Hc. }
  split; [done|]. intros o1 st1.
  assert (Manager.disconnectPrinter id o1 st1 w = Manager.Fulfilled () w) as H1.
  { unfold Manager.disconnectPrinter. by rewrite Hb. }
  split; [done|]. intros o2 st2.
  rewrite disconnectPrinter_twice. by rewrite H1.
Qed.

Lemma disconnect_when_disconnected_witness :
  Manager.disconnectPrinter_begin Ex.id_net Ex.registered
  = Manager.Returned () Ex.registered /\
  forall o1 st1,
    Manager.disconnectPrinter Ex.id_net o1 st1 Ex.registered
    = Manager.Fulfilled () Ex.registered /\
    forall o2 st2,
      Manager.disconnectPrinter Ex.id_net o2 st2
        (Manager.world_of (Manager.disconnectPrinter Ex.id_net o1 st1 Ex.registered))
      = Manager.disconnectPrinter Ex.id_net o1 st1 Ex.registered.
Proof.
  apply (disconnect_when_disconnected Ex.id_net Ex.registered 0
           {| Manager.PrinterDevice.id := Ex.id_net;
              Manager.PrinterDevice.name := "Kitchen";
              Manager.PrinterDevice.type := Manager.network;
              Manager.PrinterDevice.status := Manager.disconnected;
              Manager.PrinterDevice.lastUsed := None;
              Manager.PrinterDevice.config := Ex.config_net |});
    [vm_compute; reflexivity | reflexivity | right; vm_compute; reflexivity].
Defined.

(** * Further properties of the manager *)

(** ** What the methods do, step by step *)

Lemma addPrinter_steps (config : Manager.PrinterConfig.t) (now : N) (rnd : string)
    (w : Manager.World) :
  let id := Manager.printer_id config now rnd in
  exists w',
    Manager.addPrinter config now rnd w = Manager.Fulfilled id w' /\
    Manager.get_printer w' id
    = Some (length (Manager.devices w),
            {| Manager.PrinterDevice.id := id;
               Manager.PrinterDevice.name := Manager.PrinterConfig.name config;
               Manager.PrinterDevice.type := Manager.PrinterConfig.type config;
               Manager.PrinterDevice.status := Manager.disconnected;
               Manager.PrinterDevice.lastUsed := None;
               Manager.PrinterDevice.config := config |}) /\
    Manager.printers w' = <[id := length (Manager.devices w)]> (Manager.printers w) /\
    Manager.connections w' = Manager.connections w.
Proof.
  intros id. unfold Manager.addPrinter. eexists. split; [reflexivity|].
  fold id. unfold Manager.get_printer. cbn.
  rewrite lookup_insert_eq. cbn.
  rewrite lookup_app_r by done. by rewrite Nat.sub_diag.
Qed.

Lemma connectPrinter_steps (id : string) (o : Outcome)
    (st : Manager.PrinterConnection) (now : N) (w : Manager.World)
    (p : nat) (d : Manager.PrinterDevice.t) :
  Manager.get_printer w id = Some (p, d) ->
  Manager.PrinterDevice.status d <> Manager.connected ->
  let c := length (Manager.connObjs w) in
  exists w',
    Manager.printers w' = Manager.printers w /\
    Manager.connObjs w' = Manager.connObjs w ++ [st] /\
    Manager.calls w'
    = Manager.calls w ++ [Manager.constructed c id; Manager.called c Manager.connect;
                          Manager.settled c Manager.connect o] /\
    match o with
    | Resolved =>
        Manager.connectPrinter id o st now w = Manager.Fulfilled () w' /\
        Manager.connections w' = <[id := c]> (Manager.connections w) /\
        Manager.devices w' !! p
        = Some (Manager.PrinterDevice.set_lastUsed now
                  (Manager.PrinterDevice.set_status Manager.connected d)) /\
        Manager.emitted w'
        = Manager.emitted w ++ [Manager.printerStatusChanged id Manager.connecting None;
                                Manager.printerStatusChanged id Manager.connected None]
    | Rejected m =>
        Manager.connectPrinter id o st now w = Manager.Failed m w' /\
        Manager.connections w' = Manager.connections w /\
        Manager.devices w' !! p
        = Some (Manager.PrinterDevice.set_status Manager.error d) /\
        Manager.emitted w'
        = Manager.emitted w ++ [Manager.printerStatusChanged id Manager.connecting None;
                                Manager.printerStatusChanged id Manager.error (Some m)]
    end.
Proof.
  intros Ep Hst. unfold Manager.connectPrinter, Manager.connectPrinter_begin.
  rewrite Ep. apply get_printer_Some in Ep as [Ep Ed].
  set (body := Manager.complete _ _).
  assert (body = Manager.complete
            (fun k w => Manager.connectPrinter_finish k o now
                          (Manager.driver_sets (Manager.ck_connection k) st w))
            (let w1 := Manager.set_devices (alter (Manager.PrinterDevice.set_status Manager.connecting) p) w in
             let w2 := Manager.emit (Manager.printerStatusChanged id Manager.connecting None) w1 in
             let c := length (Manager.connObjs w2) in
             let w3 := Manager.set_connObjs
                       (fun cs => cs ++ [Manager.createConnection (Manager.PrinterDevice.config d)]) w2 in
             let w4 := Manager.log (Manager.constructed c id) w3 in
             let w5 := Manager.log (Manager.called c Manager.connect) w4 in
             Manager.Awaiting {| Manager.ck_id := id; Manager.ck_printer := p; Manager.ck_connection := c |} w5)) as ->.
  { subst body. by destruct (Manager.PrinterDevice.status d). }
  cbn [Manager.complete]. cbv zeta. unfold Manager.connectPrinter_finish.
  cbn [Manager.ck_connection Manager.ck_id Manager.ck_printer].
  assert (<[length (Manager.connObjs w) := st]>
            (Manager.connObjs w ++ [Manager.createConnection (Manager.PrinterDevice.config d)])
          = Manager.connObjs w ++ [st]) as Hobj.
  { rewrite insert_app_r_alt by done. by rewrite Nat.sub_diag. }
  destruct o as [|m].
  - eexists. split; [|split; [|split; [|split; [reflexivity|]]]]; cbn.
    + done.
    + exact Hobj.
    + by rewrite <- !app_assoc.
    + split; [done|]. split.
      * rewrite !list_lookup_alter_eq, Ed. done.
      * by rewrite <- !app_assoc.
  - eexists. split; [|split; [|split; [|split; [reflexivity|]]]]; cbn.
    + done.
    + exact Hobj.
    + by rewrite <- !app_assoc.
    + split; [done|]. split.
      * rewrite !list_lookup_alter_eq, Ed. done.
      * by rewrite <- !app_assoc.
Qed.

(** After a connect whose driver resolved, the id's connection is the
    object the connect made. *)
Lemma connectPrinter_registered (id : string) (st : Manager.PrinterConnection)
    (w w' : Manager.World) :
  Manager.connections w' = <[id := length (Manager.connObjs w)]> (Manager.connections w) ->
  Manager.connObjs w' = Manager.connObjs w ++ [st] ->
  Manager.get_connection w' id = Some (length (Manager.connObjs w), st).
Proof.
  intros Hconn Hobj. apply get_connection_Some.
  rewrite Hconn, lookup_insert_eq, Hobj.
  split; [done|]. rewrite lookup_app_r by done. by rewrite Nat.sub_diag.
Qed.

Lemma removePrinter_registered (id : string) (w : Manager.World) (p : nat)
    (d : Manager.PrinterDevice.t) :
  Manager.get_printer w id = Some (p, d) ->
  exists w' rest,
    Manager.removePrinter id w = (true, w', rest) /\
    Manager.printers w' = delete id (Manager.printers w) /\
    Manager.connections w' = delete id (Manager.connections w) /\
    Manager.devices w' = Manager.devices w /\
    Manager.activePrinterId w'
    = (if decide (Manager.activePrinterId w = Some id)
       then None else Manager.activePrinterId w) /\
    last (Manager.emitted w') = Some (Manager.printerRemoved id) /\
    match rest with
    | Some k =>
        Manager.PrinterDevice.status d = Manager.connected /\
        Manager.dk_id k = id /\
        Manager.connections w !! id = Some (Manager.dk_connection k) /\
        Manager.calls w'
        = Manager.calls w ++ [Manager.called (Manager.dk_connection k) Manager.disconnect]
    | None =>
        (Manager.PrinterDevice.status d <> Manager.connected \/
         Manager.get_connection w id = None) /\
        Manager.calls w' = Manager.calls w
    end.
Proof.
  intros Ep. unfold Manager.removePrinter. rewrite Ep.
  destruct (decide (Manager.PrinterDevice.status d = Manager.connected)) as [Hst|Hst].
  - rewrite Hst. unfold Manager.disconnectPrinter_begin. rewrite Ep.
    destruct (Manager.get_connection w id) as [[c connection]|] eqn:Ec.
    + apply get_connection_Some in Ec as [Ec _].
      eexists _, _. split; [reflexivity|]. cbn.
      case_bool_decide as Ha;
        [rewrite (decide_True _ _ Ha)|rewrite (decide_False _ _ Ha)]; cbn;
        rewrite last_snoc; done.
    + eexists _, _. split; [reflexivity|]. cbn.
      case_bool_decide as Ha;
        [rewrite (decide_True _ _ Ha)|rewrite (decide_False _ _ Ha)]; cbn;
        rewrite last_snoc; repeat split; by right.
  - assert ((let '(w0, rest) :=
               match Manager.PrinterDevice.status d with
               | Manager.connected =>
                   match Manager.disconnectPrinter_begin id w with
                   | Manager.Awaiting k w0 => (w0, Some k)
                   | Manager.Returned _ w0 | Manager.Threw _ w0 => (w0, None)
                   end
               | _ => (w, None)
               end in (w0, rest)) = (w, None)) as Hsame
      by by destruct (Manager.PrinterDevice.status d).
    destruct (match Manager.PrinterDevice.status d with
              | Manager.connected => _ | _ => _ end) as [w0 rest].
    injection Hsame as -> ->.
    eexists _, _. split; [reflexivity|]. cbn.
    case_bool_decide as Ha;
      [rewrite (decide_True _ _ Ha)|rewrite (decide_False _ _ Ha)]; cbn;
      rewrite last_snoc; repeat split; by left.
Qed.


(** The example worlds are reached by awaited calls. *)
Lemma registered_reachable : Manager.reachable Ex.registered.
Proof.
  apply (Manager.reachable_run Ex.fresh
           (Manager.do_addPrinter Ex.config_net Ex.clock0 Ex.random0)).
  - apply Manager.reachable_init.
  - vm_compute. reflexivity.
Qed.

Lemma online_reachable : Manager.reachable Ex.online.
Proof.
  apply (Manager.reachable_run Ex.registered
           (Manager.do_connectPrinter Ex.id_net Resolved
              (Manager.NetworkPrinterConnection Ex.net0) (Ex.clock0 + 50)%N)).
  - exact registered_reachable.
  - exact I.
Qed.

(** ** Looking a job up in the queue *)

Lemma findIndex_Some (w : Manager.World) (jobId : string) (q : list nat) (i : nat) :
  Manager.findIndex w jobId q = Some i ->
  job_at w q i jobId /\ forall i', i' < i -> ~ job_at w q i' jobId.
Proof.
  revert i. induction q as [|j q IH]; intros i; cbn; [done|].
  destruct (Manager.jobs w !! j) as [job|] eqn:Ej.
  - case_bool_decide as Hid.
    + intros [= <-]. split; [by exists j, job|]. intros i' Hi'. lia.
    + destruct (Manager.findIndex w jobId q) as [i0|]; [|done].
      cbn. intros [= <-]. destruct (IH i0 eq_refl) as [Hat Hfirst].
      split.
      * destruct Hat as (j' & job' & ? & ? & ?). by exists j', job'.
      * intros [|i'] Hi' (j' & job' & Hq & Hj & Hjid); cbn in Hq.
        -- injection Hq as <-. congruence.
        -- apply (Hfirst i'); [lia|]. by exists j', job'.
  - destruct (Manager.findIndex w jobId q) as [i0|]; [|done].
    cbn. intros [= <-]. destruct (IH i0 eq_refl) as [Hat Hfirst].
    split.
    * destruct Hat as (j' & job' & ? & ? & ?). by exists j', job'.
    * intros [|i'] Hi' (j' & job' & Hq & Hj & Hjid); cbn in Hq.
      -- injection Hq as <-. congruence.
      -- apply (Hfirst i'); [lia|]. by exists j', job'.
Qed.

Lemma findIndex_None (w : Manager.World) (jobId : string) (q : list nat) :
  Manager.findIndex w jobId q = None -> forall i, ~ job_at w q i jobId.
Proof.
  induction q as [|j q IH]; cbn.
  - intros _ i (j' & job' & Hq & _). done.
  - destruct (Manager.jobs w !! j) as [job|] eqn:Ej.
    + case_bool_decide as Hid; [done|].
      destruct (Manager.findIndex w jobId q) as [i0|]; [done|]. intros _.
      intros [|i] (j' & job' & Hq & Hj & Hjid); cbn in Hq.
      * injection Hq as <-. congruence.
      * apply (IH eq_refl i). by exists j', job'.
    + destruct (Manager.findIndex w jobId q) as [i0|]; [done|]. intros _.
      intros [|i] (j' & job' & Hq & Hj & Hjid); cbn in Hq.
      * injection Hq as <-. congruence.
      * apply (IH eq_refl i). by exists j', job'.
Qed.

(** ** Removing a printer *)

(** [removePrinter] on an id that is not registered returns [false] and
    changes nothing.  On a registered id it returns [true]; the id is no
    longer registered and has no connection registered; every other id
    keeps its printer and its connection; the active printer is reset
    exactly when it was this one; [disconnectPrinter] is started exactly
    when the printer is [connected] and has a connection object; the last
    event is [printerRemoved]. *)
Theorem removePrinter_effect (id : string) (w : Manager.World) :
  match Manager.get_printer w id with
  | None => Manager.removePrinter id w = (false, w, None)
  | Some (p, d) =>
      exists w' rest,
        Manager.removePrinter id w = (true, w', rest) /\
        Manager.getPrinter w' id = None /\
        Manager.get_connection w' id = None /\
        (forall id', id' <> id ->
           Manager.getPrinter w' id' = Manager.getPrinter w id' /\
           Manager.connections w' !! id' = Manager.connections w !! id') /\
        Manager.activePrinterId w'
        = (if decide (Manager.activePrinterId w = Some id)
           then None else Manager.activePrinterId w) /\
        last (Manager.emitted w') = Some (Manager.printerRemoved id) /\
        match rest with
        | Some k =>
            Manager.PrinterDevice.status d = Manager.connected /\
            Manager.dk_id k = id /\
            Manager.connections w !! id = Some (Manager.dk_connection k) /\
            Manager.calls w'
            = Manager.calls w ++ [Manager.called (Manager.dk_connection k) Manager.disconnect]
        | None =>
            (Manager.PrinterDevice.status d <> Manager.connected \/
             Manager.get_connection w id = None) /\
            Manager.calls w' = Manager.calls w
        end
  end.
Proof.
  destruct (Manager.get_printer w id) as [[p d]|] eqn:Ep.
  - destruct (removePrinter_registered id w p d Ep)
      as (w' & rest & E & Hp & Hc & Hd & Ha & He & Hrest).
    exists w', rest. split; [done|].
    split; [unfold Manager.getPrinter, Manager.get_printer; by rewrite Hp, lookup_delete_eq|].
    split; [unfold Manager.get_connection; by rewrite Hc, lookup_delete_eq|].
    split; [|done].
    intros id' Hne. unfold Manager.getPrinter, Manager.get_printer.
    by rewrite Hp, Hc, Hd, !lookup_delete_ne.
  - unfold Manager.removePrinter. by rewrite Ep.
Qed.



(** ** The active printer *)

(** [setActivePrinter] refuses an id that is not registered and changes
    nothing.  For a registered id it makes it the active one, and from then
    on [getActivePrinter] returns that printer and a [print] without an id
    goes to it -- unless the id is the empty string, which is registered
    as active but counts as none. *)
Theorem setActivePrinter_effect (id : string) (w : Manager.World) :
  match Manager.printers w !! id with
  | None => Manager.setActivePrinter id w = (false, w)
  | Some _ =>
      exists w',
        Manager.setActivePrinter id w = (true, w') /\
        Manager.activePrinterId w' = Some id /\
        Manager.emitted w' = Manager.emitted w ++ [Manager.activePrinterChanged id] /\
        Manager.printers w' = Manager.printers w /\
        Manager.connections w' = Manager.connections w /\
        if decide (id = "") then
          Manager.getActivePrinter w' = None /\ Manager.target None w' = None
        else
          Manager.getActivePrinter w' = Manager.getPrinter w id /\
          Manager.target None w' = Some id /\
          Manager.target (Some "") w' = Some id
  end.
Proof.
  unfold Manager.setActivePrinter.
  destruct (Manager.printers w !! id) as [p|]; [|done].
  eexists. split; [reflexivity|]. cbn. repeat split.
  unfold Manager.getActivePrinter, Manager.target, Manager.truthy. cbn.
  case_decide as Hid.
  - by rewrite bool_decide_true.
  - by rewrite bool_decide_false.
Qed.

(** After the active printer was removed, [getActivePrinter] returns
    nothing and a [print] without an id throws [No printer selected]. *)
Theorem print_after_active_removed (id : string) (w : Manager.World)
    (data : Uint8Array) (now : N) (rnd : string) :
  Manager.activePrinterId w = Some id ->
  is_Some (Manager.get_printer w id) ->
  let w' := (Manager.removePrinter id w).1.2 in
  Manager.getActivePrinter w' = None /\
  Manager.print_begin data None now rnd w' = Manager.Threw "No printer selected" w'.
Proof.
  intros Ha [[p d] Hp].
  destruct (removePrinter_registered id w p d Hp) as (w' & rest & -> & _ & _ & _ & Hact & _).
  cbn. rewrite decide_True in Hact by done.
  unfold Manager.getActivePrinter, Manager.print_begin, Manager.target. cbn.
  by rewrite Hact.
Qed.

Lemma print_after_active_removed_witness :
  let w' := (Manager.removePrinter Ex.id_net Ex.active).1.2 in
  Manager.getActivePrinter w' = None /\
  Manager.print_begin Ex.payload20 None Ex.clock0 Ex.random0 w'
  = Manager.Threw "No printer selected" w'.
Proof.
  apply (print_after_active_removed Ex.id_net Ex.active Ex.payload20 Ex.clock0 Ex.random0).
  - vm_compute. reflexivity.
  - exists (0, Ex.kitchen). vm_compute. reflexivity.
Defined.

(** ** Connecting and disconnecting *)



(** Connect, then disconnect: whatever the driver's [disconnect()] settles
    with -- a rejection is swallowed -- the printer ends [disconnected],
    the connection map is as it was before the connect, the connection
    object made by the connect had [disconnect()] called once and is no
    longer live. *)
Theorem connect_then_disconnect (id : string) (st st' : Manager.PrinterConnection)
    (o' : Outcome) (now : N) (w : Manager.World) (p : nat) (d : Manager.PrinterDevice.t) :
  Manager.get_printer w id = Some (p, d) ->
  Manager.PrinterDevice.status d <> Manager.connected ->
  Manager.connections w !! id = None ->
  let c := length (Manager.connObjs w) in
  let w1 := Manager.world_of (Manager.connectPrinter id Resolved st now w) in
  exists w2,
    Manager.disconnectPrinter id o' st' w1 = Manager.Fulfilled () w2 /\
    Manager.connections w2 = Manager.connections w /\
    Manager.printers w2 = Manager.printers w /\
    Manager.PrinterDevice.status <$> Manager.devices w2 !! p = Some Manager.disconnected /\
    Manager.calls w2
    = Manager.calls w1 ++ [Manager.called c Manager.disconnect;
                           Manager.settled c Manager.disconnect o'] /\
    Manager.session_of w2 c id /\
    ~ Manager.live w2 c /\
    last (Manager.emitted w2)
    = Some (Manager.printerStatusChanged id Manager.disconnected None).
Proof.
  intros Ep Hst Hnone c w1.
  destruct (connectPrinter_steps id Resolved st now w p d Ep Hst)
    as (w' & Hpr & Hobj & Hcalls & E & Hconn & Hdev & Hev).
  subst w1. rewrite E. cbn [Manager.world_of].
  assert (Manager.get_printer w' id
          = Some (p, Manager.PrinterDevice.set_lastUsed now
                       (Manager.PrinterDevice.set_status Manager.connected d))) as Ep'.
  { apply get_printer_Some. rewrite Hpr. by apply get_printer_Some in Ep as [? _]. }
  pose proof (connectPrinter_registered id st w w' Hconn Hobj) as Ec'.
  unfold Manager.disconnectPrinter, Manager.disconnectPrinter_begin.
  rewrite Ep', Ec'. cbn [Manager.complete]. unfold Manager.disconnectPrinter_finish.
  cbn [Manager.dk_connection Manager.dk_id Manager.dk_printer].
  eexists. split; [reflexivity|]. cbn.
  split; [by rewrite Hconn, delete_insert_eq, delete_id|].
  split; [done|].
  split; [by rewrite list_lookup_alter_eq, Hdev|].
  split; [by rewrite <- !app_assoc|].
  unfold Manager.session_of, Manager.live. cbn. rewrite Hcalls.
  split; [|split].
  - rewrite !elem_of_app, !elem_of_cons. tauto.
  - intros [_ H]. apply H. rewrite !elem_of_app, !elem_of_cons. tauto.
  - by rewrite last_snoc.
Qed.

Lemma connect_then_disconnect_witness :
  exists w2,
    Manager.disconnectPrinter Ex.id_net (Rejected "socket hang up") Ex.net_off Ex.online
    = Manager.Fulfilled () w2 /\
    Manager.connections w2 = Manager.connections Ex.registered /\
    ~ Manager.live w2 0.
Proof.
  destruct (connect_then_disconnect Ex.id_net (Manager.NetworkPrinterConnection Ex.net0)
              Ex.net_off (Rejected "socket hang up") (Ex.clock0 + 50)%N Ex.registered
              0 Ex.kitchen)
    as (w2 & E & Hc & _ & _ & _ & _ & Hl & _).
  - vm_compute. reflexivity.
  - discriminate.
  - vm_compute. reflexivity.
  - exists w2. split; [exact E|]. split; [exact Hc|exact Hl].
Defined.

(** A connection that dropped on its own (a socket that closed, a GATT
    server that went away) leaves the printer [connected] in the manager:
    [print] refuses it, [connectPrinter] returns at once without
    reconnecting, and [testPrinter] answers false -- all three leave the
    world as it is. *)
Theorem dropped_connection_is_stuck (id : string) (w : Manager.World) (p c : nat)
    (d : Manager.PrinterDevice.t) (connection : Manager.PrinterConnection) :
  Manager.get_printer w id = Some (p, d) ->
  Manager.PrinterDevice.status d = Manager.connected ->
  Manager.get_connection w id = Some (c, connection) ->
  Manager.isConnected connection = false ->
  id <> "" ->
  (forall data now rnd o st done,
     Manager.print_job data (Some id) now rnd o st done w
     = Manager.Failed "Printer not connected" w) /\
  (forall o st now, Manager.connectPrinter id o st now w = Manager.Fulfilled () w) /\
  (forall o st now, Manager.testPrinter id o st now w = (false, w)).
Proof.
  intros Ep Hst Ec Hoff Hid.
  assert (forall o st now, Manager.connectPrinter id o st now w = Manager.Fulfilled () w) as Hconn.
  { intros o st now. unfold Manager.connectPrinter, Manager.connectPrinter_begin.
    by rewrite Ep, Hst. }
  split; [|split; [done|]].
  - intros data now rnd o st done.
    unfold Manager.print_job, Manager.print_begin, Manager.target, Manager.truthy.
    rewrite bool_decide_false by done. by rewrite Ep, Ec, Hoff.
  - intros o st now. unfold Manager.testPrinter. by rewrite Hconn, Ec, Hoff.
Qed.

Lemma dropped_connection_is_stuck_witness :
  (forall data now rnd o st done,
     Manager.print_job data (Some Ex.id_net) now rnd o st done Ex.dropped
     = Manager.Failed "Printer not connected" Ex.dropped) /\
  (forall o st now,
     Manager.connectPrinter Ex.id_net o st now Ex.dropped = Manager.Fulfilled () Ex.dropped) /\
  (forall o st now, Manager.testPrinter Ex.id_net o st now Ex.dropped = (false, Ex.dropped)).
Proof.
  apply (dropped_connection_is_stuck Ex.id_net Ex.dropped 0 0
           (Manager.PrinterDevice.set_lastUsed (Ex.clock0 + 50)%N
              (Manager.PrinterDevice.set_status Manager.connected Ex.kitchen))
           (Manager.NetworkPrinterConnection (Network.onclose Ex.net0))).
  - vm_compute. reflexivity.
  - reflexivity.
  - vm_compute. reflexivity.
  - reflexivity.
  - discriminate.
Defined.

(** ** Ids that are not registered *)

(** Every method that takes a printer id leaves the world as it is when
    the id is not registered: [connectPrinter] throws [Printer not found],
    [print] throws [Printer not found or not connected], [testPrinter],
    [removePrinter] and [setActivePrinter] answer false,
    [disconnectPrinter] returns, [getPrinter] finds nothing and
    [getConnectionStatus] says [Not connected] when no connection is
    registered for the id either. *)
Theorem unknown_id (id : string) (w : Manager.World) :
  Manager.printers w !! id = None ->
  id <> "" ->
  (forall o st now,
     Manager.connectPrinter id o st now w = Manager.Failed "Printer not found" w) /\
  (forall o st, Manager.disconnectPrinter id o st w = Manager.Fulfilled () w) /\
  (forall data now rnd o st done,
     Manager.print_job data (Some id) now rnd o st done w
     = Manager.Failed "Printer not found or not connected" w) /\
  (forall o st now, Manager.testPrinter id o st now w = (false, w)) /\
  Manager.removePrinter id w = (false, w, None) /\
  Manager.setActivePrinter id w = (false, w) /\
  Manager.getPrinter w id = None /\
  (Manager.connections w !! id = None ->
   Manager.getConnectionStatus w id = "Not connected").
Proof.
  intros Hp Hid.
  assert (Manager.get_printer w id = None) as Hg
    by (unfold Manager.get_printer; by rewrite Hp).
  assert (forall o st now,
            Manager.connectPrinter id o st now w = Manager.Failed "Printer not found" w) as Hc.
  { intros. unfold Manager.connectPrinter, Manager.connectPrinter_begin. by rewrite Hg. }
  split; [done|]. split; [|split; [|split; [|split; [|split; [|split]]]]].
  - intros. unfold Manager.disconnectPrinter.
    by rewrite disconnectPrinter_no_printer.
  - intros. unfold Manager.print_job, Manager.print_begin, Manager.target, Manager.truthy.
    rewrite bool_decide_false by done. by rewrite Hg.
  - intros. unfold Manager.testPrinter. by rewrite Hc.
  - unfold Manager.removePrinter. by rewrite Hg.
  - unfold Manager.setActivePrinter. by rewrite Hp.
  - unfold Manager.getPrinter. by rewrite Hg.
  - intros Hn. unfold Manager.getConnectionStatus, Manager.get_connection. by rewrite Hn.
Qed.

Lemma unknown_id_witness :
  (forall o st now,
     Manager.connectPrinter "usb_1" o st now Ex.registered
     = Manager.Failed "Printer not found" Ex.registered) /\
  Manager.removePrinter "usb_1" Ex.registered = (false, Ex.registered, None).
Proof.
  destruct (unknown_id "usb_1" Ex.registered) as (Hc & _ & _ & _ & Hr & _).
  - vm_compute. reflexivity.
  - discriminate.
  - split; [exact Hc|exact Hr].
Defined.

(** ** The queue *)

(** [clearPrintQueue] makes the queue a new, empty array: the arrays handed
    out before (and the old queue array) keep their contents and the job
    objects are untouched.  A [print] that is waiting for its driver when
    the queue is cleared still finishes its job and announces it, but the
    job is in no queue. *)
Theorem clearPrintQueue_effect (w : Manager.World) :
  Manager.printQueue w < length (Manager.arrays w) ->
  let w' := Manager.clearPrintQueue w in
  Manager.queue w' = [] /\
  Manager.printQueue w' <> Manager.printQueue w /\
  (forall a, a < length (Manager.arrays w) ->
             Manager.arrays w' !! a = Manager.arrays w !! a) /\
  Manager.jobs w' = Manager.jobs w /\
  Manager.emitted w' = Manager.emitted w ++ [Manager.printQueueCleared] /\
  forall k o done job,
    Manager.jobs w !! Manager.pk_job k = Some job ->
    let w'' := Manager.world_of (Manager.print_finish k o done w') in
    Manager.queue w'' = [] /\
    Manager.PrintJob.status <$> Manager.jobs w'' !! Manager.pk_job k
    = Some (match o with Resolved => Manager.completed | Rejected _ => Manager.failed end) /\
    exists final,
      last (Manager.emitted w'') = Some (Manager.printJobUpdated (Manager.pk_job k) final).
Proof.
  intros Hq w'. subst w'. unfold Manager.clearPrintQueue.
  assert (Manager.queue
            (Manager.emit Manager.printQueueCleared
               (Manager.set_printQueue (length (Manager.arrays w))
                  (Manager.set_arrays (fun hs => hs ++ [[]]) w))) = []) as Hempty.
  { unfold Manager.queue. cbn. rewrite lookup_app_r by done. by rewrite Nat.sub_diag. }
  split; [done|]. split; [cbn; lia|]. split.
  { intros a Ha. cbn. by rewrite lookup_app_l. }
  split; [done|]. split; [done|].
  intros k o done job Hj. unfold Manager.print_finish, Manager.emit_job.
  destruct o as [|m]; cbn.
  - rewrite list_lookup_alter_eq, Hj. cbn.
    split; [|split; [by rewrite list_lookup_alter_eq, Hj|]].
    + unfold Manager.queue. cbn. rewrite lookup_app_r by done. by rewrite Nat.sub_diag.
    + eexists. by rewrite last_snoc.
  - rewrite list_lookup_alter_eq, Hj. cbn.
    split; [|split; [by rewrite list_lookup_alter_eq, Hj|]].
    + unfold Manager.queue. cbn. rewrite lookup_app_r by done. by rewrite Nat.sub_diag.
    + eexists. by rewrite last_snoc.
Qed.

Lemma clearPrintQueue_effect_witness :
  Manager.queue Ex.while_printing = [0] /\
  Manager.queue (Manager.clearPrintQueue Ex.while_printing) = [] /\
  Manager.queue
    (Manager.world_of
       (Manager.print_finish Ex.printing_k Resolved (Ex.clock0 + 200)%N
          (Manager.clearPrintQueue Ex.while_printing))) = [].
Proof.
  destruct (clearPrintQueue_effect Ex.while_printing) as (H1 & _ & _ & _ & _ & H2).
  - vm_compute. lia.
  - split; [vm_compute; reflexivity|]. split; [exact H1|].
    refine (proj1 (H2 Ex.printing_k Resolved (Ex.clock0 + 200)%N _ _)).
    vm_compute. reflexivity.
Defined.

(** [removePrintJob(jobId)] answers false and changes nothing when no job
    of the queue has that id.  Otherwise it answers true and takes out of
    the queue the first job with that id and nothing else: the other
    entries keep their order, a later job with the same id stays, the job
    objects are untouched, and [printJobRemoved] is announced. *)
Theorem removePrintJob_effect (jobId : string) (w : Manager.World) :
  Manager.printQueue w < length (Manager.arrays w) ->
  let '(r, w') := Manager.removePrintJob jobId w in
  if r then
    exists i,
      job_at w (Manager.queue w) i jobId /\
      (forall i', i' < i -> ~ job_at w (Manager.queue w) i' jobId) /\
      Manager.queue w' = delete i (Manager.queue w) /\
      S (length (Manager.queue w')) = length (Manager.queue w) /\
      Manager.jobs w' = Manager.jobs w /\
      Manager.emitted w' = Manager.emitted w ++ [Manager.printJobRemoved jobId]
  else
    w' = w /\ forall i, ~ job_at w (Manager.queue w) i jobId.
Proof.
  intros Hq. unfold Manager.removePrintJob.
  destruct (Manager.findIndex w jobId (Manager.queue w)) as [i|] eqn:E.
  - destruct (findIndex_Some _ _ _ _ E) as [Hat Hfirst].
    exists i. split; [done|]. split; [done|].
    assert (Manager.queue
              (Manager.emit (Manager.printJobRemoved jobId)
                 (Manager.set_arrays (alter (delete i) (Manager.printQueue w)) w))
            = delete i (Manager.queue w)) as Hdel.
    { unfold Manager.queue. cbn. rewrite list_lookup_alter_eq.
      apply lookup_lt_is_Some_2 in Hq as [q Hq]. by rewrite Hq. }
    split; [done|]. split; [|done].
    rewrite Hdel. destruct Hat as (j & job & Hi & _).
    apply lookup_lt_Some in Hi. rewrite length_delete by by apply lookup_lt_is_Some_2.
    lia.
  - split; [done|]. by apply findIndex_None.
Qed.

Lemma removePrintJob_effect_witness :
  let '(r, w') := Manager.removePrintJob "job_1700000000100_4fzyo82mv" Ex.while_printing in
  r = true /\ Manager.jobs w' = Manager.jobs Ex.while_printing.
Proof.
  pose proof (removePrintJob_effect "job_1700000000100_4fzyo82mv" Ex.while_printing) as H.
  destruct (Manager.removePrintJob "job_1700000000100_4fzyo82mv" Ex.while_printing)
    as [r w'] eqn:E.
  pose proof (f_equal fst E) as Hr. vm_compute in Hr. subst r.
  split; [reflexivity|].
  destruct H as (i & _ & _ & _ & _ & Hj & _).
  - vm_compute. lia.
  - exact Hj.
Defined.

(** ** Testing a printer *)

(** [testPrinter] is a connect: on a printer that is not [connected] it
    answers what the new connection object's [isConnected()] says when the
    driver's [connect()] resolved -- and then leaves the printer connected
    with the object registered -- and false when it was rejected, leaving
    the printer in state [error]. *)
Theorem testPrinter_connects (id : string) (o : Outcome)
    (st : Manager.PrinterConnection) (now : N) (w : Manager.World)
    (p : nat) (d : Manager.PrinterDevice.t) :
  Manager.get_printer w id = Some (p, d) ->
  Manager.PrinterDevice.status d <> Manager.connected ->
  let '(r, w') := Manager.testPrinter id o st now w in
  w' = Manager.world_of (Manager.connectPrinter id o st now w) /\
  match o with
  | Resolved =>
      r = Manager.isConnected st /\
      Manager.get_connection w' id = Some (length (Manager.connObjs w), st) /\
      Manager.PrinterDevice.status <$> Manager.devices w' !! p = Some Manager.connected
  | Rejected _ =>
      r = false /\
      Manager.connections w' = Manager.connections w /\
      Manager.PrinterDevice.status <$> Manager.devices w' !! p = Some Manager.error
  end.
Proof.
  intros Ep Hst.
  destruct (connectPrinter_steps id o st now w p d Ep Hst)
    as (w' & Hpr & Hobj & Hcalls & H).
  unfold Manager.testPrinter. destruct o as [|m].
  - destruct H as (-> & Hconn & Hdev & _). cbn [Manager.world_of].
    pose proof (connectPrinter_registered id st w w' Hconn Hobj) as Ec.
    rewrite Ec. split; [done|]. split; [done|]. split; [done|]. by rewrite Hdev.
  - destruct H as (-> & Hconn & Hdev & _). cbn [Manager.world_of].
    split; [done|]. split; [done|]. split; [done|]. by rewrite Hdev.
Qed.

Lemma testPrinter_connects_witness :
  let '(r, w') :=
    Manager.testPrinter Ex.id_net Resolved (Manager.NetworkPrinterConnection Ex.net0)
      Ex.clock0 Ex.registered in
  r = true /\
  Manager.PrinterDevice.status <$> Manager.devices w' !! 0 = Some Manager.connected.
Proof.
  pose proof (testPrinter_connects Ex.id_net Resolved
                (Manager.NetworkPrinterConnection Ex.net0) Ex.clock0 Ex.registered
                0 Ex.kitchen) as H.
  destruct (Manager.testPrinter Ex.id_net Resolved
              (Manager.NetworkPrinterConnection Ex.net0) Ex.clock0 Ex.registered)
    as [r w'].
  destruct H as (_ & Hr & _ & Hs).
  - vm_compute. reflexivity.
  - discriminate.
  - split; [exact Hr|exact Hs].
Defined.

(** The modal's connection test, on a world reached by awaited calls and
    with a temporary id that is new.  The status shown is [successful]
    exactly when the driver's [connect()] resolved and the tested
    connection object's [isConnected()] said yes.  When the handler is
    done the printer map and the connection map are as they were and the
    session the test may have made is no longer live; that stays so when
    the [disconnectPrinter] started by the removal finishes later. *)
Theorem handleTestConnection_cleans_up (tempConfig : Manager.PrinterConfig.t)
    (now : N) (rnd : string) (o : Outcome) (st : Manager.PrinterConnection)
    (tested : N) (w : Manager.World) :
  Manager.reachable w ->
  Manager.printers w !! Manager.printer_id tempConfig now rnd = None ->
  let id := Manager.printer_id tempConfig now rnd in
  let '(r, w', rest) :=
    AddPrinterModal.handleTestConnection tempConfig now rnd o st tested w in
  r = (if match o with Resolved => Manager.isConnected st | Rejected _ => false end
       then AddPrinterModal.Connection_successful
       else AddPrinterModal.Connection_failed) /\
  Manager.printers w' = Manager.printers w /\
  Manager.connections w' = Manager.connections w /\
  (forall c, Manager.session_of w' c id -> ~ Manager.live w' c) /\
  forall k o' st',
    rest = Some k ->
    let w'' := Manager.world_of
                 (Manager.disconnectPrinter_finish k o'
                    (Manager.driver_sets (Manager.dk_connection k) st' w')) in
    Manager.printers w'' = Manager.printers w /\
    Manager.connections w'' = Manager.connections w /\
    (forall c, Manager.session_of w'' c id -> ~ Manager.live w'' c).
Proof.
  intros Hr Hnew id. unfold AddPrinterModal.handleTestConnection.
  destruct (addPrinter_steps tempConfig now rnd w) as (w1 & E1 & Ep & Hp1 & Hc1).
  fold id in E1, Ep, Hp1, Hnew.
  assert (Manager.reachable w1) as Hr1.
  { replace w1 with (Manager.run (Manager.do_addPrinter tempConfig now rnd) w)
      by (cbn [Manager.run]; by rewrite E1).
    by apply Manager.reachable_run. }
  rewrite E1.
  match type of Ep with _ = Some (?p0, ?d0) => set (p := p0) in *; set (d := d0) in * end.
  assert (Manager.PrinterDevice.status d <> Manager.connected) as Hst by done.
  destruct (connectPrinter_steps id o st tested w1 p d Ep Hst)
    as (w2 & Hp2 & Hobj2 & _ & Ho).
  assert (Manager.testPrinter id o st tested w1
          = (match o with Resolved => Manager.isConnected st | Rejected _ => false end, w2) /\
          Manager.world_of (Manager.connectPrinter id o st tested w1) = w2 /\
          (Manager.connections w2 = Manager.connections w1 \/
           Manager.connections w2
           = <[id := length (Manager.connObjs w1)]> (Manager.connections w1)))
    as (E2 & Hw2 & Hc2).
  { unfold Manager.testPrinter. destruct o as [|m]; destruct Ho as (-> & Hconn & _).
    - rewrite (connectPrinter_registered id st w1 w2 Hconn Hobj2). auto.
    - auto. }
  rewrite E2.
  assert (Manager.reachable w2) as Hr2.
  { rewrite <- Hw2.
    exact (Manager.reachable_run w1 (Manager.do_connectPrinter id o st tested) Hr1 I). }
  pose proof (reachable_Inv w2 Hr2) as I2.
  assert (exists d2, Manager.get_printer w2 id = Some (p, d2)) as [d2 Hg2].
  { apply get_printer_Some in Ep as [Ep _].
    assert (Manager.printers w2 !! id = Some p) as Hid by by rewrite Hp2.
    pose proof (inv_store w2 I2 _ _ Hid) as Hlt.
    apply lookup_lt_is_Some_2 in Hlt as [d2 Hd2].
    exists d2. by apply get_printer_Some. }
  assert (Manager.connections w !! id = None) as Hcnone.
  { destruct (Manager.connections w !! id) as [c|] eqn:Ec; [|done].
    destruct (inv_conn w (reachable_Inv w Hr) _ _ Ec) as (? & ? & _). congruence. }
  assert (delete id (Manager.connections w2) = Manager.connections w) as Hdel.
  { destruct Hc2 as [-> | ->]; rewrite Hc1.
    - by apply delete_id.
    - rewrite delete_insert_eq. by apply delete_id. }
  assert (delete id (Manager.printers w2) = Manager.printers w) as Hdelp.
  { rewrite Hp2, Hp1, delete_insert_eq. by apply delete_id. }
  destruct (removePrinter_registered id w2 p d2 Hg2)
    as (w3 & rest & E3 & Hp3 & Hc3 & _ & _ & _ & Hrest).
  rewrite E3.
  assert (forall c, Manager.session_of w3 c id -> ~ Manager.live w3 c) as Hdead.
  { intros c Hs [Hl1 Hl2]. unfold Manager.session_of in Hs. destruct rest as [k|].
    - destruct Hrest as (_ & _ & Hk & Hcalls). rewrite Hcalls in Hs, Hl1, Hl2.
      rewrite elem_of_app, list_elem_of_singleton in Hs, Hl1.
      destruct Hs as [Hs|Hs]; [|discriminate Hs].
      destruct Hl1 as [Hl1|Hl1]; [|discriminate Hl1].
      assert (Manager.live w2 c) as Hl.
      { split; [done|]. intros Hin. apply Hl2. rewrite elem_of_app. by left. }
      pose proof (inv_live w2 I2 _ _ Hs Hl) as Hc.
      apply Hl2. rewrite elem_of_app, list_elem_of_singleton. right. congruence.
    - destruct Hrest as (Hno & Hcalls). rewrite Hcalls in Hs, Hl1, Hl2.
      pose proof (inv_live w2 I2 _ _ Hs (conj Hl1 Hl2)) as Hc.
      destruct Hno as [Hno|Hno].
      + destruct (inv_conn w2 I2 _ _ Hc) as (p' & Hp' & Hs').
        apply get_printer_Some in Hg2 as [Hg2 Hd2].
        rewrite Hg2 in Hp'. injection Hp' as <-.
        unfold status_of in Hs'. rewrite Hd2 in Hs'. cbn in Hs'. congruence.
      + pose proof (inv_fresh w2 I2 _ Hs) as Hlt. cbn in Hlt.
        apply lookup_lt_is_Some_2 in Hlt as [obj Hobj].
        assert (Manager.get_connection w2 id = Some (c, obj))
          by by apply get_connection_Some.
        congruence. }
  split; [done|]. split; [by rewrite Hp3|]. split; [by rewrite Hc3|].
  split; [done|].
  intros k o' st' ->. cbv zeta. unfold Manager.disconnectPrinter_finish. cbn.
  destruct Hrest as (_ & Hk & _). rewrite Hk.
  split; [by rewrite Hp3|]. split; [rewrite Hc3, Hdel; by apply delete_id|].
  intros c Hs [Hl1 Hl2]. unfold Manager.session_of in Hs. cbn in Hs, Hl1, Hl2.
  rewrite elem_of_app, list_elem_of_singleton in Hs, Hl1.
  destruct Hs as [Hs|Hs]; [|discriminate Hs].
  destruct Hl1 as [Hl1|Hl1]; [|discriminate Hl1].
  apply (Hdead c Hs). split; [done|].
  intros Hin. apply Hl2. rewrite elem_of_app. by left.
Qed.

Lemma handleTestConnection_cleans_up_witness :
  let '(r, w', rest) :=
    AddPrinterModal.handleTestConnection Ex.config_net (Ex.clock0 + 1)%N Ex.random0
      Resolved (Manager.NetworkPrinterConnection Ex.net0) (Ex.clock0 + 2)%N
      Ex.registered in
  r = AddPrinterModal.Connection_successful /\
  Manager.printers w' = Manager.printers Ex.registered /\
  Manager.connections w' = Manager.connections Ex.registered.
Proof.
  pose proof (handleTestConnection_cleans_up Ex.config_net (Ex.clock0 + 1)%N Ex.random0
                Resolved (Manager.NetworkPrinterConnection Ex.net0) (Ex.clock0 + 2)%N
                Ex.registered) as H.
  cbv zeta in H.
  destruct (AddPrinterModal.handleTestConnection Ex.config_net (Ex.clock0 + 1)%N Ex.random0
              Resolved (Manager.NetworkPrinterConnection Ex.net0) (Ex.clock0 + 2)%N
              Ex.registered) as [[r w'] rest].
  destruct H as (Hr & Hp & Hc & _).
  - exact registered_reachable.
  - vm_compute. reflexivity.
  - split; [exact Hr|]. split; [exact Hp|exact Hc].
Defined.

(** * Further properties of the drivers *)

(** ** USB *)

Lemma claim_listed_spec (h : USB.Host) (ifaces : list USB.USBInterface)
    (d : USB.USBDevice) (k : nat) :
  let '(b, d', _) := USB.claim_listed h ifaces d k in
  if b then exists n, d' = USB.add_claim n d else d' = d.
Proof.
  revert k. induction ifaces as [|iface rest IH]; intros k; simpl; [done|].
  destruct (USB.claimed iface); simpl; [apply IH|].
  destruct (USB.claimInterface h k (USB.interfaceNumber iface)); [by eexists|apply IH].
Qed.

Lemma claim_common_spec (h : USB.Host) (nums : list nat)
    (d : USB.USBDevice) (k : nat) :
  let '(b, d', _) := USB.claim_common h nums d k in
  if b then exists n, d' = USB.add_claim n d else d' = d.
Proof.
  revert k. induction nums as [|n rest IH]; intros k; simpl; [done|].
  destruct (USB.claimInterface h k n); [by eexists|apply IH].
Qed.

(** A [connect] that resolves has opened the device it was handed, left
    it with a configuration, claimed exactly one interface more than were
    claimed before, and keeps that device in a connection object that says
    it is connected.  A [connect] that is rejected leaves the connection
    object's device reference and its connected flag as they were -- an
    object that was connected goes on saying so -- and sets the status to
    the error. *)
Theorem usb_connect_outcome (c : USB.USBPrinterConnection) (h : USB.Host) :
  let '(o, c', d') := USB.connect c h in
  match o with
  | Resolved =>
      exists d0 d n,
        USB.requestDevice h = inr d0 /\ d' = Some d /\ USB.device c' = Some d /\
        USB.isConnected c' = true /\ USB.getStatus c' = "Connected" /\
        USB.opened d = true /\ is_Some (USB.configuration d) /\
        USB.claimedInterfaces d = USB.claimedInterfaces d0 ++ [n]
  | Rejected m =>
      USB.device c' = USB.device c /\ USB.isConnected c' = USB.isConnected c /\
      USB.getStatus c' = "Error: " +:+ m
  end.
Proof.
  unfold USB.connect.
  destruct (USB.requestDevice h) as [m|d0] eqn:Er; [done|].
  destruct (USB.open h) as [|m]; [|done].
  match goal with
  | |- context [match ?x with inl _ => _ | inr _ => _ end] => destruct x as [m|d1] eqn:Esel
  end; [done|].
  assert (USB.opened d1 = true /\ is_Some (USB.configuration d1) /\
          USB.claimedInterfaces d1 = USB.claimedInterfaces d0) as (Ho & Hcfg & Hcl).
  { cbn in Esel. destruct (USB.configuration d0) as [cfg|] eqn:Ecfg.
    - injection Esel as <-. cbn. by rewrite Ecfg.
    - destruct (USB.selectConfiguration h) as [m|cfg]; [discriminate Esel|].
      injection Esel as <-. cbn. by eauto. }
  assert (forall n, USB.opened (USB.add_claim n d1) = true /\
                    is_Some (USB.configuration (USB.add_claim n d1)) /\
                    USB.claimedInterfaces (USB.add_claim n d1)
                    = USB.claimedInterfaces d0 ++ [n]) as Hadd.
  { intros n. cbn. by rewrite Hcl. }
  destruct Hcfg as [cfg Hcfg]. rewrite Hcfg.
  pose proof (claim_listed_spec h (USB.interfaces cfg) d1 0) as H1.
  destruct (USB.claim_listed h (USB.interfaces cfg) d1 0) as [[b1 d2] k1].
  destruct b1; cbn [negb].
  - destruct H1 as [n ->]. destruct (Hadd n) as (? & ? & ?).
    exists d0, (USB.add_claim n d1), n. done.
  - subst d2. pose proof (claim_common_spec h [0; 1; 2] d1 k1) as H2.
    destruct (USB.claim_common h [0; 1; 2] d1 k1) as [[b2 d3] k2].
    destruct b2; cbn [negb].
    + destruct H2 as [n ->]. destruct (Hadd n) as (? & ? & ?).
      exists d0, (USB.add_claim n d1), n. done.
    + done.
Qed.

(** [print] without a device is rejected and transfers nothing.  With a
    device it offers the whole payload to the endpoints 1, 2, 3 in this
    order and stops at the first that takes it; it resolves exactly when
    one of them does, and when none does it has made three transfers and
    throws [Could not find working endpoint], whatever the endpoints
    answered. *)
Theorem usb_print_endpoints (c : USB.USBPrinterConnection) (out : USB.Transfers)
    (data : Uint8Array) :
  let '(o, ts) := USB.print c out data in
  match USB.device c with
  | None => o = Rejected "No USB device connected" /\ ts = []
  | Some _ =>
      exists k,
        1 <= k <= 3 /\
        ts = (fun endpoint => (endpoint, data)) <$> seq 1 k /\
        (forall e, 1 <= e < k -> is_resolved (out e) = false) /\
        (o = Resolved <-> is_resolved (out k) = true) /\
        (is_resolved (out k) = false ->
         k = 3 /\ o = Rejected "Could not find working endpoint")
  end.
Proof.
  unfold USB.print. destruct (USB.device c) as [d|]; [|done]. cbn.
  destruct (out 1) as [|m1] eqn:E1.
  { exists 1. rewrite E1. split; [lia|]. split; [done|].
    split; [intros e He; lia|]. done. }
  destruct (out 2) as [|m2] eqn:E2.
  { exists 2. rewrite E2. split; [lia|]. split; [done|].
    split; [|done]. intros e He. assert (e = 1) as -> by lia. by rewrite E1. }
  destruct (out 3) as [|m3] eqn:E3.
  { exists 3. rewrite E3. split; [lia|]. split; [done|].
    split; [|done]. intros e He.
    assert (e = 1 \/ e = 2) as [-> | ->] by lia; [by rewrite E1|by rewrite E2]. }
  exists 3. rewrite E3. split; [lia|]. split; [done|].
  split; [|done]. intros e He.
  assert (e = 1 \/ e = 2) as [-> | ->] by lia; [by rewrite E1|by rewrite E2].
Qed.

Lemma usb_connect_device (c c1 : USB.USBPrinterConnection) (h : USB.Host)
    (d1 : option USB.USBDevice) :
  USB.connect c h = (Resolved, c1, d1) -> USB.device c1 = d1 /\ is_Some d1.
Proof.
  unfold USB.connect, USB.failed.
  destruct (USB.requestDevice h) as [m|d0]; [done|].
  destruct (USB.open h) as [|m]; [|done].
  match goal with
  | |- context [match ?x with inl _ => _ | inr _ => _ end] => destruct x as [m|d]
  end; [done|].
  destruct (match USB.configuration d with Some _ => _ | None => _ end) as [[b1 d2] k1].
  destruct (if negb b1 then _ else _) as [[b2 d3] k2].
  destruct (negb b2); [done|]. intros [= <- <-]. by eauto.
Qed.

(** After a [connect] that resolved, [disconnect] calls [close()] on the
    device and -- whatever [close()] settles with -- leaves an object
    that is not connected, whose [print] transfers nothing, and on which
    a second [disconnect] calls nothing. *)
Theorem usb_session (c c1 : USB.USBPrinterConnection) (h : USB.Host)
    (d1 : option USB.USBDevice) (close : Outcome) :
  USB.connect c h = (Resolved, c1, d1) ->
  (USB.disconnect c1 close).2 = true /\
  let c2 := (USB.disconnect c1 close).1 in
  USB.isConnected c2 = false /\
  USB.getStatus c2 = "Disconnected" /\
  (forall out data,
     USB.print c2 out data = (Rejected "No USB device connected", [])) /\
  forall close', USB.disconnect c2 close' = (c2, false).
Proof.
  intros E. destruct (usb_connect_device c c1 h d1 E) as [Hd [d ->]].
  unfold USB.disconnect. by rewrite Hd.
Qed.

Lemma usb_session_witness :
  (USB.disconnect (USB.connect (USB.new Ex.usb_filter0) Ex.usb_host_ok).1.2
     (Rejected "The device was disconnected.")).2 = true.
Proof.
  refine (proj1 (usb_session (USB.new Ex.usb_filter0)
                   (USB.connect (USB.new Ex.usb_filter0) Ex.usb_host_ok).1.2
                   Ex.usb_host_ok
                   (USB.connect (USB.new Ex.usb_filter0) Ex.usb_host_ok).2
                   (Rejected "The device was disconnected.") _)).
  vm_compute. reflexivity.
Defined.

(** ** Network *)

(** [print] resolves exactly when the object says it is connected and
    either its WebSocket is open, or the printer's own HTTP port answered
    the POST, or the relay API answered it -- with whatever status: a
    response is never looked at.  It is rejected only for an object that
    is not connected, before anything is sent, or with the message of the
    failed request to the relay API after both requests failed.  The
    payload goes out over the socket or over HTTP, never both, and to the
    relay API only after the request to the printer failed. *)
Theorem network_print_paths (c : Network.NetworkPrinterConnection)
    (http : Network.Http) (data : Uint8Array) :
  let '(o, effs) := Network.print c http data in
  (o = Resolved <->
   Network.isConnected c = true /\
   (Network.socket_open c = true \/
    responded (Network.post_printer http) = true \/
    responded (Network.post_api http) = true)) /\
  (forall m, o = Rejected m ->
     (m = "Network printer not connected" /\ Network.isConnected c = false /\ effs = []) \/
     (Network.post_api http = Network.fetch_failed m /\
      effs = [Network.fetch_printer data; Network.fetch_api data])) /\
  (effs = [] \/ effs = [Network.socket_send data] \/
   effs = [Network.fetch_printer data] \/
   effs = [Network.fetch_printer data; Network.fetch_api data]) /\
  (Network.fetch_api data ∈ effs -> responded (Network.post_printer http) = false).
Proof.
  unfold Network.print, Network.printViaHTTP, Network.isConnected.
  destruct (Network.isConnectedFlag c), (Network.socket_open c),
           (Network.post_printer http) as [m1|ok1],
           (Network.post_api http) as [m2|ok2]; cbn;
    rewrite ?elem_of_cons, ?elem_of_nil;
    (split; [split; [intros E|intros [E1 E2]]|split; [intros m E|split]]);
    try discriminate; try tauto; try (injection E as <-); intuition (try discriminate).
Qed.

(** Direct mode: [connectDirect] never fails and always leaves the object
    connected, whether the printer answered or could not be reached.  A
    [print] on a new object connected this way sends nothing over a
    socket; it resolves exactly when one of the two HTTP requests gets a
    response. *)
Theorem network_direct_mode (ip : string) (port : N) (status : Network.Fetched)
    (http : Network.Http) (data : Uint8Array) :
  let c := (Network.connectDirect (Network.new ip port) status).2 in
  (Network.connectDirect (Network.new ip port) status).1 = Resolved /\
  Network.isConnected c = true /\
  ((Network.print c http data).1 = Resolved <->
   responded (Network.post_printer http) = true \/
   responded (Network.post_api http) = true) /\
  forall d, Network.socket_send d ∉ (Network.print c http data).2.
Proof.
  cbn. split; [done|]. split; [done|].
  unfold Network.print, Network.printViaHTTP. cbn.
  destruct (Network.post_printer http) as [m1|ok1],
           (Network.post_api http) as [m2|ok2]; cbn;
    (split; [split; [intros E|intros E]|intros d; rewrite ?elem_of_cons, ?elem_of_nil]);
    try discriminate; intuition (try discriminate).
Qed.

(** ** The proxy's relay *)

Lemma writes_app (a b : list Proxy.Action) : writes (a ++ b) = writes a ++ writes b.
Proof. apply omap_app. Qed.

Lemma sent_app (a b : list Proxy.Action) :
  Proxy.sent (a ++ b) = Proxy.sent a ++ Proxy.sent b.
Proof. apply omap_app. Qed.

(** For one WebSocket message the proxy writes the payload, unchanged,
    once each time the TCP socket connects and at no other time.  It
    reports [Print job completed] to the browser exactly when the TCP
    socket closed while the WebSocket is open -- also when the socket
    never connected and nothing was written.  With the WebSocket closed it
    reports nothing. *)
Theorem relay_actions (ws_open : bool) (data : Uint8Array)
    (es : list Proxy.SocketEvent) :
  let acts := Proxy.relay ws_open data es in
  writes acts = replicate (connects es) data /\
  (Proxy.status "Print job completed" ∈ Proxy.sent acts <->
   ws_open = true /\ Proxy.on_close ∈ es) /\
  (ws_open = false -> Proxy.sent acts = []).
Proof.
  cbv zeta. unfold Proxy.relay, connects.
  induction es as [|e es (IH1 & IH2 & IH3)]; cbn [map concat omap].
  - split; [done|]. split; [|done].
    split; [intros H; by apply elem_of_nil in H|intros [_ H]; by apply elem_of_nil in H].
  - rewrite writes_app, sent_app, IH1, elem_of_app, IH2, elem_of_cons.
    split; [|split].
    + by destruct e, ws_open.
    + destruct e, ws_open; cbn; rewrite ?list_elem_of_singleton, ?elem_of_nil;
        split; intros H; try (intuition congruence).
    + intros ->. rewrite IH3 by done. by destruct e.
Qed.

(** ** The network connection's WebSocket *)

Lemma handle_stays_connected (es : list Network.WsEvent)
    (c : Network.NetworkPrinterConnection) :
  Network.ws_close ∉ es -> Network.isConnected c = true ->
  Network.isConnected (foldl Network.handle c es) = true.
Proof.
  revert c. induction es as [|e es IH]; intros c Hc Hflag; [done|]. cbn [foldl].
  rewrite not_elem_of_cons in Hc. destruct Hc as [Hc1 Hc2].
  apply IH; [done|]. by destruct e.
Qed.

Lemma handle_stays_disconnected (es : list Network.WsEvent)
    (c : Network.NetworkPrinterConnection) :
  Network.ws_open ∉ es -> Network.isConnected c = false ->
  Network.isConnected (foldl Network.handle c es) = false.
Proof.
  revert c. induction es as [|e es IH]; intros c Ho Hflag; [done|]. cbn [foldl].
  rewrite not_elem_of_cons in Ho. destruct Ho as [Ho1 Ho2].
  apply IH; [done|]. by destruct e.
Qed.

Lemma settled_by_spec (es : list Network.WsEvent) :
  match Network.settled_by es with
  | Some o =>
      exists i e,
        es !! i = Some e /\ e <> Network.ws_close /\
        (forall j e', j < i -> es !! j = Some e' -> e' = Network.ws_close) /\
        o = match e with
            | Network.ws_open => Resolved
            | _ => Rejected "Failed to connect to network printer"
            end
  | None => forall e, e ∈ es -> e = Network.ws_close
  end.
Proof.
  induction es as [|e es IH]; cbn.
  - intros e He. by apply elem_of_nil in He.
  - destruct e.
    + exists 0, Network.ws_open. repeat split; try done. intros j e' Hj. lia.
    + exists 0, Network.ws_error. repeat split; try done. intros j e' Hj. lia.
    + destruct (Network.settled_by es) as [o|].
      * destruct IH as (i & e & Hi & He & Hbefore & Ho). exists (S i), e.
        split; [done|]. split; [done|]. split; [|done].
        intros [|j] e' Hj He'; cbn in He'; [congruence|]. apply (Hbefore j); [lia|done].
      * intros e He. apply elem_of_cons in He as [-> | He]; [done|by apply IH].
Qed.

(** [connect] over a WebSocket that could be made settles with the first
    event that is not a close: it resolves on an open and is rejected with
    [Failed to connect to network printer] on an error; as long as the
    socket only closes it stays pending.  What the object says about being
    connected afterwards follows the socket, not the promise: it is
    connected after an open that no close followed, not connected after a
    close that no open followed, and as before when the socket neither
    opened nor closed -- so a [connect] that resolved can leave an object
    that is not connected, and a rejected one an object that still is. *)
Theorem network_connect_events (c : Network.NetworkPrinterConnection)
    (es : list Network.WsEvent) :
  let '(o, c') := Network.connect c None es in
  match o with
  | Some o =>
      exists i e,
        es !! i = Some e /\ e <> Network.ws_close /\
        (forall j e', j < i -> es !! j = Some e' -> e' = Network.ws_close) /\
        o = match e with
            | Network.ws_open => Resolved
            | _ => Rejected "Failed to connect to network printer"
            end
  | None => forall e, e ∈ es -> e = Network.ws_close
  end /\
  (forall es1 es2, es = es1 ++ Network.ws_open :: es2 -> Network.ws_close ∉ es2 ->
                   Network.isConnected c' = true) /\
  (forall es1 es2, es = es1 ++ Network.ws_close :: es2 -> Network.ws_open ∉ es2 ->
                   Network.isConnected c' = false) /\
  (Network.ws_open ∉ es -> Network.ws_close ∉ es ->
   Network.isConnected c' = Network.isConnected c) /\
  (Network.url <$> Network.socket c') = Some (Network.wsUrl c).
Proof.
  unfold Network.connect.
  set (c0 := Network.Build_NetworkPrinterConnection _ _ _ _ _).
  split; [apply settled_by_spec|]. split; [|split; [|split]].
  - intros es1 es2 -> Hc. rewrite foldl_app. cbn [foldl].
    by apply handle_stays_connected.
  - intros es1 es2 -> Ho. rewrite foldl_app. cbn [foldl].
    by apply handle_stays_disconnected.
  - intros Ho Hc. destruct (Network.isConnected c) eqn:E.
    + by apply handle_stays_connected.
    + by apply handle_stays_disconnected.
  - assert (forall es c1,
              Network.url <$> Network.socket (foldl Network.handle c1 es)
              = Network.url <$> Network.socket c1) as Hs.
    { clear. induction es as [|e es IH]; intros c1; [done|]. cbn [foldl].
      rewrite IH. destruct e; cbn; by destruct (Network.socket c1). }
    rewrite Hs. done.
Qed.

(** After a [connect] whose socket opened and stays open, [print] sends
    the payload over that socket. *)
Lemma network_connect_then_print (c : Network.NetworkPrinterConnection)
    (http : Network.Http) (data : Uint8Array) :
  Network.print (Network.connect c None [Network.ws_open]).2 http data
  = (Resolved, [Network.socket_send data]).
Proof. reflexivity. Qed.

(** The connected object of the examples is the one a [connect] whose
    socket opened leaves. *)
Example network_connect_net0 :
  Network.connect (Network.new "192.168.1.100" 9100%N) None [Network.ws_open]
  = (Some Resolved, Ex.net0).
Proof. vm_compute. reflexivity. Qed.

(** ** Bluetooth *)

Lemma find_first {A} (f : A -> bool) (l : list A) :
  match List.find f l with
  | Some x =>
      exists i, l !! i = Some x /\ f x = true /\
                forall j y, j < i -> l !! j = Some y -> f y = false
  | None => forall y, y ∈ l -> f y = false
  end.
Proof.
  induction l as [|a l IH]; cbn.
  - intros y Hy. by apply elem_of_nil in Hy.
  - destruct (f a) eqn:Ea.
    + exists 0. split; [done|]. split; [done|]. intros j y Hj. lia.
    + destruct (List.find f l) as [x|].
      * destruct IH as (i & Hi & Hx & Hbefore). exists (S i).
        split; [done|]. split; [done|].
        intros [|j] y Hj Hy; cbn in Hy; [congruence|]. apply (Hbefore j); [lia|done].
      * intros y Hy. apply elem_of_cons in Hy as [-> | Hy]; [done|by apply IH].
Qed.

Lemma pick_characteristic_spec
    (characteristics : list Bluetooth.BluetoothRemoteGATTCharacteristic) :
  match Bluetooth.pick_characteristic characteristics with
  | Some ch =>
      exists i,
        characteristics !! i = Some ch /\
        (forall j x, j < i -> characteristics !! j = Some x -> Bluetooth.writable x = false) /\
        (Bluetooth.writable ch = false ->
         i = 0 /\ forall x, x ∈ characteristics -> Bluetooth.writable x = false)
  | None => characteristics = []
  end.
Proof.
  unfold Bluetooth.pick_characteristic.
  pose proof (find_first (fun c => Bluetooth.write c || Bluetooth.writeWithoutResponse c)
                characteristics) as H.
  assert (forall x, Bluetooth.writable x
                    = Bluetooth.write x || Bluetooth.writeWithoutResponse x) as Hw
    by (intros x; apply orb_comm).
  destruct (List.find _ characteristics) as [ch|].
  - destruct H as (i & Hi & Hch & Hbefore). exists i. split; [done|].
    split; [intros j x Hj Hx; rewrite Hw; by apply (Hbefore j)|].
    rewrite Hw. congruence.
  - destruct characteristics as [|ch rest]; [done|]. cbn. exists 0.
    split; [done|]. split; [intros j x Hj; lia|].
    intros _. split; [done|]. intros x Hx. rewrite Hw. by apply H.
Qed.

Lemma find_service_spec (server : Bluetooth.BluetoothRemoteGATTServer)
    (uuids : list string) :
  match Bluetooth.find_service server uuids with
  | Some service =>
      exists n u,
        uuids !! n = Some u /\ Bluetooth.getPrimaryService server u = inr service /\
        forall j u', j < n -> uuids !! j = Some u' ->
                     exists m, Bluetooth.getPrimaryService server u' = inl m
  | None =>
      forall u, u ∈ uuids -> exists m, Bluetooth.getPrimaryService server u = inl m
  end.
Proof.
  induction uuids as [|u uuids IH]; cbn.
  - intros u Hu. by apply elem_of_nil in Hu.
  - destruct (Bluetooth.getPrimaryService server u) as [m|service] eqn:Eu.
    + destruct (Bluetooth.find_service server uuids) as [service|].
      * destruct IH as (n & u0 & Hn & Hs & Hbefore). exists (S n), u0.
        split; [done|]. split; [done|].
        intros [|j] u' Hj Hu'; cbn in Hu'; [injection Hu' as <-; by eexists|].
        apply (Hbefore j); [lia|done].
      * intros u0 Hu0. apply elem_of_cons in Hu0 as [-> | Hu0]; [by eexists|by apply IH].
    + exists 0, u. split; [done|]. split; [done|]. intros j u' Hj. lia.
Qed.

(** What a [connect] that resolved went through. *)
Lemma connect_device_resolved (c1 c' : Bluetooth.BluetoothPrinterConnection)
    (h : Bluetooth.Host) :
  Bluetooth.connect_device c1 h = (Resolved, c') ->
  exists d g server service characteristics ch,
    Bluetooth.gatt_connect h = inr (g, server) /\
    match Bluetooth.find_service server Bluetooth.ALTERNATIVE_SERVICE_UUIDS with
    | Some s => service = s
    | None => exists rest, Bluetooth.getPrimaryServices server = inr (service :: rest)
    end /\
    Bluetooth.getCharacteristics service = inr characteristics /\
    Bluetooth.pick_characteristic characteristics = Some ch /\
    c' = {| Bluetooth.device := Some (Bluetooth.with_gatt g d);
            Bluetooth.characteristic := Some ch;
            Bluetooth.isConnectedFlag := true;
            Bluetooth.currentStatus := "Connected to Bluetooth printer";
            Bluetooth.bluetoothId := Bluetooth.bluetoothId c1 |}.
Proof.
  unfold Bluetooth.connect_device, Bluetooth.failed.
  cbn [Bluetooth.with_status Bluetooth.device].
  destruct (Bluetooth.device c1) as [d|]; [|done].
  destruct (Bluetooth.gatt d) as [g0|]; [|done].
  destruct (Bluetooth.gatt_connect h) as [m|[g server]]; [done|]. cbv zeta.
  destruct (Bluetooth.find_service server Bluetooth.ALTERNATIVE_SERVICE_UUIDS)
    as [service|] eqn:Ef.
  - destruct (Bluetooth.getCharacteristics service) as [m|characteristics] eqn:Ec; [done|].
    cbn [Bluetooth.with_characteristic Bluetooth.characteristic].
    destruct (Bluetooth.pick_characteristic characteristics) as [ch|] eqn:Ep; [|done].
    intros [= <-]. exists d, g, server, service, characteristics, ch.
    rewrite Ef. by repeat split.
  - destruct (Bluetooth.getPrimaryServices server) as [m|[|service rest]] eqn:Es;
      [done|done|].
    destruct (Bluetooth.getCharacteristics service) as [m|characteristics] eqn:Ec; [done|].
    cbn [Bluetooth.with_characteristic Bluetooth.characteristic].
    destruct (Bluetooth.pick_characteristic characteristics) as [ch|] eqn:Ep; [|done].
    intros [= <-]. exists d, g, server, service, characteristics, ch.
    rewrite Ef. repeat split; by eauto.
Qed.

(** [getDeviceById] always throws, so the stored id changes nothing. *)
Lemma bluetooth_lookup_by_id (c : Bluetooth.BluetoothPrinterConnection) :
  match Bluetooth.bluetoothId c with
  | Some bluetoothId =>
      if bool_decide (bluetoothId = "") then c
      else match Bluetooth.getDeviceById bluetoothId with
           | inr d => Bluetooth.with_device (Some d) c
           | inl _ => c
           end
  | None => c
  end = c.
Proof. destruct (Bluetooth.bluetoothId c) as [b|]; [|done]. by case_bool_decide. Qed.

Lemma bluetooth_connect_resolved (c c' : Bluetooth.BluetoothPrinterConnection)
    (h : Bluetooth.Host) :
  Bluetooth.connect c h = (Resolved, c') ->
  exists d g server service characteristics ch,
    Bluetooth.gatt_connect h = inr (g, server) /\
    match Bluetooth.find_service server Bluetooth.ALTERNATIVE_SERVICE_UUIDS with
    | Some s => service = s
    | None => exists rest, Bluetooth.getPrimaryServices server = inr (service :: rest)
    end /\
    Bluetooth.getCharacteristics service = inr characteristics /\
    Bluetooth.pick_characteristic characteristics = Some ch /\
    c' = {| Bluetooth.device := Some (Bluetooth.with_gatt g d);
            Bluetooth.characteristic := Some ch;
            Bluetooth.isConnectedFlag := true;
            Bluetooth.currentStatus := "Connected to Bluetooth printer";
            Bluetooth.bluetoothId := Bluetooth.bluetoothId c |}.
Proof.
  unfold Bluetooth.connect, Bluetooth.failed.
  destruct (Bluetooth.supported h); cbn [negb]; [|done].
  cbv zeta. rewrite bluetooth_lookup_by_id.
  destruct (Bluetooth.device _) as [d|].
  - intros E. by apply connect_device_resolved in E.
  - destruct (Bluetooth.requestDevice h) as [m|d]; [done|].
    intros E. by apply connect_device_resolved in E.
Qed.

(** A [connect] that resolved is connected to the GATT server and uses
    the first of the three known printer services the server has, in the
    order of the class's list, and the server's first service of any kind
    when it has none of them.  Of that service's characteristics it uses
    the first that can be written to; when none can, it uses the first
    characteristic all the same. *)
Theorem bluetooth_connect_picks (c c' : Bluetooth.BluetoothPrinterConnection)
    (h : Bluetooth.Host) :
  Bluetooth.connect c h = (Resolved, c') ->
  exists g server service characteristics ch i,
    Bluetooth.gatt_connect h = inr (g, server) /\
    ((exists n u,
        Bluetooth.ALTERNATIVE_SERVICE_UUIDS !! n = Some u /\
        Bluetooth.getPrimaryService server u = inr service /\
        forall j u', j < n -> Bluetooth.ALTERNATIVE_SERVICE_UUIDS !! j = Some u' ->
                     exists m, Bluetooth.getPrimaryService server u' = inl m) \/
     ((forall u, u ∈ Bluetooth.ALTERNATIVE_SERVICE_UUIDS ->
                 exists m, Bluetooth.getPrimaryService server u = inl m) /\
      exists rest, Bluetooth.getPrimaryServices server = inr (service :: rest))) /\
    Bluetooth.getCharacteristics service = inr characteristics /\
    Bluetooth.characteristic c' = Some ch /\
    characteristics !! i = Some ch /\
    (forall j x, j < i -> characteristics !! j = Some x -> Bluetooth.writable x = false) /\
    (Bluetooth.writable ch = false ->
     i = 0 /\ forall x, x ∈ characteristics -> Bluetooth.writable x = false) /\
    Bluetooth.isConnectedFlag c' = true /\
    Bluetooth.getStatus c' = "Connected to Bluetooth printer" /\
    exists d, Bluetooth.device c' = Some d /\ Bluetooth.gatt d = Some g.
Proof.
  intros E.
  destruct (bluetooth_connect_resolved c c' h E)
    as (d & g & server & service & characteristics & ch & Hg & Hs & Hc & Hp & ->).
  pose proof (pick_characteristic_spec characteristics) as Hpick. rewrite Hp in Hpick.
  destruct Hpick as (i & Hi & Hbefore & Hnone).
  exists g, server, service, characteristics, ch, i.
  split; [done|]. split.
  { pose proof (find_service_spec server Bluetooth.ALTERNATIVE_SERVICE_UUIDS) as Hf.
    destruct (Bluetooth.find_service server Bluetooth.ALTERNATIVE_SERVICE_UUIDS) as [s|].
    - subst s. by left.
    - right. done. }
  split; [done|]. split; [done|]. split; [done|]. split; [done|]. split; [done|].
  split; [done|]. split; [done|]. by eexists.
Qed.

Lemma bluetooth_connect_picks_witness :
  exists c',
    Bluetooth.connect (Bluetooth.new None) (Ex.bt_host [Ex.ch_readonly; Ex.ch0])
    = (Resolved, c') /\
    Bluetooth.characteristic c' = Some Ex.ch0.
Proof.
  eexists. split; [vm_compute; reflexivity|].
  destruct (bluetooth_connect_picks (Bluetooth.new None) _
              (Ex.bt_host [Ex.ch_readonly; Ex.ch0]) eq_refl)
    as (g & server & service & characteristics & ch & i & _).
  reflexivity.
Defined.

(** After a [connect] that resolved, a [print] of a payload that is not
    empty makes at least one write when the characteristic in use can be
    written to; when it cannot -- [connect] having resolved all the same --
    the [print] is rejected with [Characteristic does not support writing]
    before any write. *)
Theorem bluetooth_print_after_connect (c c' : Bluetooth.BluetoothPrinterConnection)
    (h : Bluetooth.Host) (link : Bluetooth.Link) (data : Uint8Array) :
  Bluetooth.connect c h = (Resolved, c') ->
  data <> [] ->
  exists ch,
    Bluetooth.characteristic c' = Some ch /\
    if Bluetooth.writable ch then
      exists o w ws, Bluetooth.print c' link data = Some (o, w :: ws)
    else
      Bluetooth.print c' link data
      = Some (Rejected "Bluetooth print failed: Characteristic does not support writing", []).
Proof.
  intros E Hdata.
  destruct (bluetooth_connect_resolved c c' h E)
    as (d & g & server & service & characteristics & ch & _ & _ & _ & _ & ->).
  exists ch. split; [done|].
  unfold Bluetooth.print, Bluetooth.print_with. cbn [Bluetooth.characteristic].
  destruct data as [|b data]; [done|]. cbn [length Bluetooth.print_loop Nat.ltb Nat.leb].
  assert (0 < Bluetooth.chunkSize) as HC by (unfold Bluetooth.chunkSize; lia).
  destruct (print_loop_total Bluetooth.chunkSize HC ch link (b :: data) (length data)
              (0 + Bluetooth.chunkSize) 1)
    as (o & ws & El); [cbn; unfold Bluetooth.chunkSize; lia|].
  unfold Bluetooth.writable.
  destruct (Bluetooth.writeWithoutResponse ch), (Bluetooth.write ch); cbn [orb];
    try done; rewrite El; destruct (link 0); cbn; by eexists _, _, _.
Qed.

Lemma bluetooth_print_after_connect_witness :
  exists c',
    Bluetooth.connect (Bluetooth.new None) (Ex.bt_host [Ex.ch_readonly]) = (Resolved, c') /\
    Bluetooth.print c' Ex.link_ok Ex.payload45
    = Some (Rejected "Bluetooth print failed: Characteristic does not support writing", []).
Proof.
  eexists. split; [vm_compute; reflexivity|].
  destruct (bluetooth_print_after_connect (Bluetooth.new None) _
              (Ex.bt_host [Ex.ch_readonly]) Ex.link_ok Ex.payload45 eq_refl)
    as (ch & Hch & H); [discriminate|].
  vm_compute. reflexivity.
Defined.

(** The device id a connection object was made with plays no part in
    [connect]: looking a device up by its id is not implemented, so the
    object goes through the device chooser as one made without an id, and
    ends in the same state. *)
Theorem bluetooth_saved_id_unused (c : Bluetooth.BluetoothPrinterConnection)
    (h : Bluetooth.Host) (saved : option string) :
  Bluetooth.connect (remembering saved c) h
  = ((Bluetooth.connect c h).1, remembering saved (Bluetooth.connect c h).2).
Proof.
  assert (forall c1, Bluetooth.connect_device (remembering saved c1) h
                     = ((Bluetooth.connect_device c1 h).1,
                        remembering saved (Bluetooth.connect_device c1 h).2)) as Hdev.
  { intros c1. unfold Bluetooth.connect_device, Bluetooth.failed.
    cbn [Bluetooth.with_status Bluetooth.device remembering].
    destruct (Bluetooth.device c1) as [d|]; [|done].
    destruct (Bluetooth.gatt d); [|done].
    destruct (Bluetooth.gatt_connect h) as [m|[g server]]; [done|]. cbv zeta.
    destruct (Bluetooth.find_service server Bluetooth.ALTERNATIVE_SERVICE_UUIDS) as [s|].
    - destruct (Bluetooth.getCharacteristics s) as [m|cs]; [done|].
      cbn. by destruct (Bluetooth.pick_characteristic cs).
    - destruct (Bluetooth.getPrimaryServices server) as [m|[|s rest]]; [done|done|].
      destruct (Bluetooth.getCharacteristics s) as [m|cs]; [done|].
      cbn. by destruct (Bluetooth.pick_characteristic cs). }
  unfold Bluetooth.connect, Bluetooth.failed.
  destruct (Bluetooth.supported h); cbn [negb]; [|done].
  cbv zeta. rewrite !bluetooth_lookup_by_id.
  cbn [Bluetooth.with_status Bluetooth.device remembering].
  destruct (Bluetooth.device c) as [d|].
  - apply (Hdev (Bluetooth.with_status "Scanning for Bluetooth printers..." c)).
  - destruct (Bluetooth.requestDevice h) as [m|d]; [done|].
    apply (Hdev (Bluetooth.with_device (Some d)
                   (Bluetooth.with_status "Scanning for Bluetooth printers..." c))).
Qed.

(** * More invariants of the manager *)

Lemma id_of_alter_same (f : Manager.PrinterDevice.t -> Manager.PrinterDevice.t)
    (w : Manager.World) (p q : nat) :
  (forall d, Manager.PrinterDevice.id (f d) = Manager.PrinterDevice.id d) ->
  id_of (Manager.set_devices (alter f p) w) q = id_of w q.
Proof.
  intros Hf. unfold id_of. cbn.
  destruct (decide (p = q)) as [->|Hne].
  - rewrite list_lookup_alter_eq. destruct (Manager.devices w !! q); cbn; by rewrite ?Hf.
  - by rewrite list_lookup_alter_ne.
Qed.

Lemma status_of_alter_other (f : Manager.PrinterDevice.t -> Manager.PrinterDevice.t)
    (w : Manager.World) (p q : nat) :
  p <> q -> status_of (Manager.set_devices (alter f p) w) q = status_of w q.
Proof. intros Hne. unfold status_of. cbn. by rewrite list_lookup_alter_ne. Qed.

(** A step that touches neither the maps, nor a printer's id or state,
    and loses no connection object keeps the invariant. *)
Lemma Inv2_frame (w w' : Manager.World) :
  Inv2 w ->
  Manager.printers w' = Manager.printers w ->
  Manager.connections w' = Manager.connections w ->
  (forall p, id_of w' p = id_of w p) ->
  (forall p, status_of w' p = status_of w p) ->
  length (Manager.connObjs w) <= length (Manager.connObjs w') ->
  Inv2 w'.
Proof.
  intros [Hkey Hobj Hon] Hp Hc Hid Hst Hlen. constructor.
  - intros id p i. rewrite Hp, Hid. apply Hkey.
  - intros id c. rewrite Hc. intros H. apply Hobj in H. lia.
  - intros id p. rewrite Hp, Hc, Hst. apply Hon.
Qed.

Lemma Inv2_load_one (w : Manager.World) (printer : Manager.PrinterDevice.t) :
  Inv w -> Inv2 w -> Manager.connections w = ∅ ->
  Inv2 (Manager.load_one w printer).
Proof.
  intros Hw [Hkey Hobj Hon] Hc. unfold Manager.load_one.
  constructor; unfold id_of, status_of; cbn.
  - intros id p i.
    destruct (decide (Manager.PrinterDevice.id printer = id)) as [<-|Hne].
    + rewrite lookup_insert_eq. intros [= <-].
      rewrite lookup_app_r by done. rewrite Nat.sub_diag. cbn. by intros [= <-].
    + rewrite lookup_insert_ne by done. intros Hp.
      rewrite lookup_app_l by by eapply (inv_store w Hw). by apply Hkey.
  - intros id c. rewrite Hc, lookup_empty. done.
  - intros id p.
    destruct (decide (Manager.PrinterDevice.id printer = id)) as [<-|Hne].
    + rewrite lookup_insert_eq. intros [= <-].
      rewrite lookup_app_r by done. rewrite Nat.sub_diag. cbn. done.
    + rewrite lookup_insert_ne by done. intros Hp.
      rewrite lookup_app_l by by eapply (inv_store w Hw). by apply Hon.
Qed.

Lemma Inv2_load (printersData : list Manager.PrinterDevice.t) (w : Manager.World) :
  Inv w -> Inv2 w -> Manager.connections w = ∅ ->
  Inv2 (foldl Manager.load_one w printersData).
Proof.
  revert w. induction printersData as [|printer rest IH]; intros w Hw H2 Hc; [done|].
  cbn [foldl].
  destruct (Inv_load [printer] w Hw Hc) as [Hw1 Hc1]. cbn [foldl] in Hw1, Hc1.
  apply IH; [done| |done]. by apply Inv2_load_one.
Qed.

Lemma Inv2_init (window : bool) (stored : Manager.Item) :
  Inv2 (Manager.init window stored).
Proof.
  unfold Manager.init, Manager.loadSavedPrinters. cbn [Manager.window Manager.localStorage].
  set (w0 := Manager.Build_World _ _ _ _ _ _ _ _ _ _ _ _).
  assert (Inv2 w0) as H0.
  { constructor; subst w0; cbn.
    - intros id p i. by rewrite lookup_empty.
    - intros id c. by rewrite lookup_empty.
    - intros id p. by rewrite lookup_empty. }
  assert (Inv w0) as Hw0.
  { constructor; subst w0; cbn.
    - intros id p. by rewrite lookup_empty.
    - intros id1 id2 p. by rewrite lookup_empty.
    - intros id c. by rewrite lookup_empty.
    - intros id c Hs. unfold Manager.session_of in Hs. cbn in Hs.
      by apply elem_of_nil in Hs.
    - intros e He. by apply elem_of_nil in He.
    - lia. }
  destruct window; [|done]. destruct stored; try done.
  by apply Inv2_load.
Qed.

Lemma Inv2_addPrinter (config : Manager.PrinterConfig.t) (now : N) (rnd : string)
    (w : Manager.World) :
  Inv w -> Inv2 w ->
  Inv2 (Manager.world_of (Manager.addPrinter config now rnd w)).
Proof.
  intros Hw [Hkey Hobj Hon]. unfold Manager.addPrinter. cbn [Manager.world_of].
  set (id := Manager.printer_id config now rnd) in *.
  constructor; unfold id_of, status_of; cbn.
  - intros id' p i.
    destruct (decide (id = id')) as [<-|Hne].
    + rewrite lookup_insert_eq. intros [= <-].
      rewrite lookup_app_r by done. rewrite Nat.sub_diag. cbn. by intros [= <-].
    + rewrite lookup_insert_ne by done. intros Hp.
      rewrite lookup_app_l by by eapply (inv_store w Hw). by apply Hkey.
  - done.
  - intros id' p.
    destruct (decide (id = id')) as [<-|Hne].
    + rewrite lookup_insert_eq. intros [= <-].
      rewrite lookup_app_r by done. rewrite Nat.sub_diag. cbn. done.
    + rewrite lookup_insert_ne by done. intros Hp.
      rewrite lookup_app_l by by eapply (inv_store w Hw). by apply Hon.
Qed.

Lemma Inv2_connect (id : string) (o : Outcome) (st : Manager.PrinterConnection)
    (now : N) (w : Manager.World) :
  Inv w -> Inv2 w ->
  Inv2 (Manager.world_of (Manager.connectPrinter id o st now w)).
Proof.
  intros Hw H2. pose proof H2 as [Hkey Hobj Hon].
  unfold Manager.connectPrinter, Manager.connectPrinter_begin.
  destruct (Manager.get_printer w id) as [[p d]|] eqn:Ep; [|done].
  apply get_printer_Some in Ep as [Epr Edev].
  destruct (decide (Manager.PrinterDevice.status d = Manager.connected)) as [Hst|Hst].
  { by rewrite Hst. }
  set (body := Manager.complete _ _).
  assert (body = Manager.complete
            (fun k w => Manager.connectPrinter_finish k o now
                          (Manager.driver_sets (Manager.ck_connection k) st w))
            (let w1 := Manager.set_devices (alter (Manager.PrinterDevice.set_status Manager.connecting) p) w in
             let w2 := Manager.emit (Manager.printerStatusChanged id Manager.connecting None) w1 in
             let c := length (Manager.connObjs w2) in
             let w3 := Manager.set_connObjs
                       (fun cs => cs ++ [Manager.createConnection (Manager.PrinterDevice.config d)]) w2 in
             let w4 := Manager.log (Manager.constructed c id) w3 in
             let w5 := Manager.log (Manager.called c Manager.connect) w4 in
             Manager.Awaiting {| Manager.ck_id := id; Manager.ck_printer := p; Manager.ck_connection := c |} w5)) as ->.
  { subst body. by destruct (Manager.PrinterDevice.status d). }
  cbn [Manager.complete]. cbv zeta. unfold Manager.connectPrinter_finish.
  cbn [Manager.ck_connection Manager.ck_id Manager.ck_printer].
  assert (forall id' p', Manager.printers w !! id' = Some p' -> id' <> id -> p <> p') as Hother.
  { intros id' p' Hp' Hne <-. apply Hne. by eapply (inv_inj w Hw). }
  destruct o as [|m]; cbn [Manager.world_of].
  - constructor; unfold id_of, status_of; cbn.
    + intros id' p' i Hp'.
      destruct (decide (p = p')) as [<-|Hne].
      * rewrite !list_lookup_alter_eq, Edev. cbn. intros [= <-].
        eapply Hkey; [exact Hp'|]. unfold id_of. by rewrite Edev.
      * rewrite !list_lookup_alter_ne by done. by apply Hkey.
    + intros id' c'. rewrite length_insert, length_app. cbn.
      destruct (decide (id = id')) as [<-|Hne].
      * rewrite lookup_insert_eq. intros [= <-]. lia.
      * rewrite lookup_insert_ne by done. intros Hc. apply Hobj in Hc. lia.
    + intros id' p' Hp'.
      destruct (decide (id = id')) as [<-|Hne]; [by rewrite lookup_insert_eq|].
      rewrite lookup_insert_ne by done.
      rewrite !list_lookup_alter_ne by (apply (Hother id'); done). by apply Hon.
  - constructor; unfold id_of, status_of; cbn.
    + intros id' p' i Hp'.
      destruct (decide (p = p')) as [<-|Hne].
      * rewrite !list_lookup_alter_eq, Edev. cbn. intros [= <-].
        eapply Hkey; [exact Hp'|]. unfold id_of. by rewrite Edev.
      * rewrite !list_lookup_alter_ne by done. by apply Hkey.
    + intros id' c'. rewrite length_insert, length_app. cbn.
      intros Hc. apply Hobj in Hc. lia.
    + intros id' p' Hp'.
      destruct (decide (p = p')) as [<-|Hne].
      * rewrite !list_lookup_alter_eq, Edev. done.
      * rewrite !list_lookup_alter_ne by done. by apply Hon.
Qed.

Lemma Inv2_log (e : Manager.DriverCall) (w : Manager.World) :
  Inv2 w -> Inv2 (Manager.log e w).
Proof. intros [Hkey Hobj Hon]. by constructor. Qed.

(** The rest of a [disconnectPrinter] whose printer, if its id is still
    registered, is the one registered under that id. *)
Lemma Inv2_disconnect_finish (k : Manager.DisconnectK) (o : Outcome)
    (st : Manager.PrinterConnection) (w : Manager.World) :
  Inv2 w ->
  (forall p, Manager.printers w !! Manager.dk_id k = Some p -> p = Manager.dk_printer k) ->
  Inv2 (Manager.world_of
          (Manager.disconnectPrinter_finish k o
             (Manager.driver_sets (Manager.dk_connection k) st w))).
Proof.
  intros [Hkey Hobj Hon] Hk. unfold Manager.disconnectPrinter_finish.
  cbn [Manager.world_of].
  constructor; cbn.
  - intros id p i Hp. unfold id_of. cbn.
    destruct (decide (Manager.dk_printer k = p)) as [<-|Hne].
    + rewrite list_lookup_alter_eq. intros Hi.
      apply (Hkey id (Manager.dk_printer k)); [done|]. unfold id_of.
      by destruct (Manager.devices w !! Manager.dk_printer k).
    + rewrite list_lookup_alter_ne by done. by apply Hkey.
  - intros id c Hc. apply lookup_delete_Some in Hc as [_ Hc].
    rewrite length_insert. by eapply Hobj.
  - intros id p Hp.
    destruct (decide (Manager.dk_printer k = p)) as [<-|Hne].
    + unfold status_of. cbn. rewrite list_lookup_alter_eq.
      by destruct (Manager.devices w !! Manager.dk_printer k).
    + unfold status_of. cbn. rewrite list_lookup_alter_ne by done.
      intros Hs. rewrite lookup_delete_ne; [by apply (Hon id p)|].
      intros <-. apply Hne. symmetry. by apply Hk.
Qed.

Lemma disconnectPrinter_begin_cases (id : string) (w : Manager.World) :
  Manager.disconnectPrinter_begin id w = Manager.Returned () w \/
  exists p d c connection,
    Manager.get_printer w id = Some (p, d) /\
    Manager.get_connection w id = Some (c, connection) /\
    Manager.disconnectPrinter_begin id w
    = Manager.Awaiting {| Manager.dk_id := id; Manager.dk_printer := p;
                          Manager.dk_connection := c |}
                       (Manager.log (Manager.called c Manager.disconnect) w).
Proof.
  unfold Manager.disconnectPrinter_begin.
  destruct (Manager.get_printer w id) as [[p d]|]; [|by left].
  destruct (Manager.get_connection w id) as [[c connection]|]; [|by left].
  right. by exists p, d, c, connection.
Qed.

Lemma Inv2_disconnectPrinter (id : string) (o : Outcome)
    (st : Manager.PrinterConnection) (w : Manager.World) :
  Inv2 w -> Inv2 (Manager.world_of (Manager.disconnectPrinter id o st w)).
Proof.
  intros H2. unfold Manager.disconnectPrinter.
  destruct (disconnectPrinter_begin_cases id w)
    as [-> | (p & d & c & connection & Ep & Ec & ->)]; [done|].
  cbn [Manager.complete]. apply Inv2_disconnect_finish; [by apply Inv2_log|].
  cbn. apply get_printer_Some in Ep as [Ep _]. congruence.
Qed.

Lemma Inv2_remove_sync (id : string) (w : Manager.World) :
  Inv2 w ->
  Inv2 (Manager.emit (Manager.printerRemoved id)
          (Manager.savePrinters
             (let w := Manager.set_connections (delete id)
                         (Manager.set_printers (delete id) w) in
              if bool_decide (Manager.activePrinterId w = Some id)
              then Manager.set_activePrinterId None w else w))).
Proof.
  intros [Hkey Hobj Hon]. cbv zeta.
  constructor; cbn; case_bool_decide; cbn.
  - intros id' p i Hp. apply lookup_delete_Some in Hp as [_ Hp]. by apply Hkey.
  - intros id' p i Hp. apply lookup_delete_Some in Hp as [_ Hp]. by apply Hkey.
  - intros id' c Hc. apply lookup_delete_Some in Hc as [_ Hc]. by eapply Hobj.
  - intros id' c Hc. apply lookup_delete_Some in Hc as [_ Hc]. by eapply Hobj.
  - intros id' p Hp. apply lookup_delete_Some in Hp as [Hne Hp].
    rewrite lookup_delete_ne by done. by apply Hon.
  - intros id' p Hp. apply lookup_delete_Some in Hp as [Hne Hp].
    rewrite lookup_delete_ne by done. by apply Hon.
Qed.

Lemma removePrinter_sync (id : string) (w : Manager.World) (p : nat)
    (d : Manager.PrinterDevice.t) :
  Manager.get_printer w id = Some (p, d) ->
  exists w1 rest,
    Manager.removePrinter id w
    = (true,
       Manager.emit (Manager.printerRemoved id)
         (Manager.savePrinters
            (let w := Manager.set_connections (delete id)
                        (Manager.set_printers (delete id) w1) in
             if bool_decide (Manager.activePrinterId w = Some id)
             then Manager.set_activePrinterId None w else w)),
       rest) /\
    match rest with
    | Some k =>
        Manager.dk_id k = id /\
        w1 = Manager.log (Manager.called (Manager.dk_connection k) Manager.disconnect) w
    | None => w1 = w
    end.
Proof.
  intros Ep. unfold Manager.removePrinter. rewrite Ep.
  destruct (decide (Manager.PrinterDevice.status d = Manager.connected)) as [Hst|Hst].
  - rewrite Hst.
    destruct (disconnectPrinter_begin_cases id w)
      as [-> | (p' & d' & c & connection & _ & _ & ->)].
    + by exists w, None.
    + eexists _, (Some _). split; [reflexivity|]. done.
  - assert ((let '(w0, rest) :=
               match Manager.PrinterDevice.status d with
               | Manager.connected =>
                   match Manager.disconnectPrinter_begin id w with
                   | Manager.Awaiting k w0 => (w0, Some k)
                   | Manager.Returned _ w0 | Manager.Threw _ w0 => (w0, None)
                   end
               | _ => (w, None)
               end in (w0, rest)) = (w, None)) as Hsame
      by by destruct (Manager.PrinterDevice.status d).
    destruct (match Manager.PrinterDevice.status d with
              | Manager.connected => _ | _ => _ end) as [w0 rest].
    injection Hsame as -> ->. by exists w, None.
Qed.

Lemma Inv2_removePrinter (id : string) (o : Outcome)
    (st : Manager.PrinterConnection) (w : Manager.World) :
  Inv2 w -> Inv2 (Manager.removePrinter_awaited id o st w).2.
Proof.
  intros H2. unfold Manager.removePrinter_awaited.
  destruct (Manager.get_printer w id) as [[p d]|] eqn:Ep.
  - destruct (removePrinter_sync id w p d Ep) as (w1 & rest & -> & Hrest).
    destruct rest as [k|]; cbn [snd].
    + destruct Hrest as [Hk ->]. apply Inv2_disconnect_finish.
      * apply Inv2_remove_sync. by apply Inv2_log.
      * rewrite Hk. cbn. case_bool_decide; cbn; intros p'; by rewrite lookup_delete_eq.
    + subst w1. by apply Inv2_remove_sync.
  - unfold Manager.removePrinter. by rewrite Ep.
Qed.

Lemma Inv2_print (data : Uint8Array) (printerId : option string) (now : N)
    (rnd : string) (o : Outcome) (st : Manager.PrinterConnection) (done : N)
    (w : Manager.World) :
  Inv2 w ->
  Inv2 (Manager.world_of (Manager.print_job data printerId now rnd o st done w)).
Proof.
  intros H2. unfold Manager.print_job, Manager.print_begin.
  destruct (Manager.target printerId w) as [targetId|]; [|done].
  destruct (Manager.get_printer w targetId) as [[p d]|]; [|done].
  destruct (Manager.get_connection w targetId) as [[c connection]|] eqn:Ec; [|done].
  destruct (negb (Manager.isConnected connection)); [done|].
  cbn [Manager.complete]. unfold Manager.print_finish.
  cbn [Manager.pk_connection Manager.pk_job Manager.pk_printer Manager.pk_data].
  destruct o as [|m]; cbn [Manager.world_of]; unfold Manager.emit_job.
  - match goal with |- context [Manager.jobs ?W !! ?J] => destruct (Manager.jobs W !! J) end.
    all: apply (Inv2_frame w); try done; cbn; try done.
    all: try (by rewrite length_insert).
    all: try (intros q; rewrite <- (id_of_alter_same (Manager.PrinterDevice.set_lastUsed done) w p q) by done; done).
    all: intros q; rewrite <- (status_of_alter_same (Manager.PrinterDevice.set_lastUsed done) w p q) by done; done.
  - match goal with |- context [Manager.jobs ?W !! ?J] => destruct (Manager.jobs W !! J) end.
    all: apply (Inv2_frame w); try done; cbn; try done.
    all: by rewrite length_insert.
Qed.

Lemma Inv2_disconnectAll_begin (ids : list string) (ks : list Manager.DisconnectK)
    (w : Manager.World) :
  Inv2 w -> Forall (about_registered w) ks ->
  let r := foldl (fun '(ks, w) id =>
                    match Manager.disconnectPrinter_begin id w with
                    | Manager.Awaiting k w => (ks ++ [k], w)
                    | Manager.Returned _ w | Manager.Threw _ w => (ks, w)
                    end) (ks, w) ids in
  Inv2 r.2 /\ Forall (about_registered r.2) r.1 /\
  Manager.printers r.2 = Manager.printers w.
Proof.
  revert ks w. induction ids as [|id ids IH]; intros ks w Hw Hks; [done|].
  cbn [foldl].
  destruct (disconnectPrinter_begin_cases id w)
    as [-> | (p & d & c & connection & Ep & Ec & ->)].
  - by apply IH.
  - apply get_printer_Some in Ep as [Ep _].
    apply (IH _ (Manager.log (Manager.called c Manager.disconnect) w)).
    + by apply Inv2_log.
    + apply Forall_app. split; [done|]. by constructor.
Qed.

Lemma Inv2_disconnectAll_finish (o : string -> Outcome)
    (st : string -> Manager.PrinterConnection) (ks : list Manager.DisconnectK)
    (w : Manager.World) :
  Inv2 w -> Forall (about_registered w) ks ->
  Inv2 (foldl (fun w k =>
                 Manager.world_of
                   (Manager.disconnectPrinter_finish k (o (Manager.dk_id k))
                      (Manager.driver_sets (Manager.dk_connection k)
                         (st (Manager.dk_id k)) w)))
              w ks).
Proof.
  revert w. induction ks as [|k ks IH]; intros w Hw Hks; [done|].
  cbn [foldl]. apply Forall_cons in Hks as [Hk Hks].
  apply IH; [|done].
  apply Inv2_disconnect_finish; [done|]. unfold about_registered in Hk. congruence.
Qed.

Lemma Inv2_disconnectAll (o : string -> Outcome)
    (st : string -> Manager.PrinterConnection) (w : Manager.World) :
  Inv2 w -> Inv2 (Manager.disconnectAll o st w).
Proof.
  intros Hw. unfold Manager.disconnectAll, Manager.disconnectAll_begin.
  pose proof (Inv2_disconnectAll_begin (map_to_list (Manager.printers w)).*1 [] w Hw
                (Forall_nil_2 _)) as H.
  cbv zeta in H. destruct (foldl _ _ _) as [ks w1]. destruct H as (H1 & Hks & _).
  by apply Inv2_disconnectAll_finish.
Qed.

Lemma Inv2_arrays (f : list (list nat) -> list (list nat)) (w : Manager.World) :
  Inv2 w -> Inv2 (Manager.set_arrays f w).
Proof. intros [Hkey Hobj Hon]. by constructor. Qed.

(** Every world reached by awaited calls satisfies the second invariant. *)
Lemma reachable_Inv2 (w : Manager.World) : Manager.reachable w -> Inv2 w.
Proof.
  induction 1 as [window stored|w call Hr IH Hadm]; [apply Inv2_init|].
  pose proof (reachable_Inv w Hr) as Hw.
  destruct call; cbn [Manager.run].
  - by apply Inv2_addPrinter.
  - by apply Inv2_removePrinter.
  - unfold Manager.setActivePrinter. destruct (Manager.printers w !! id); [|done].
    cbn. destruct IH. by constructor.
  - by apply Inv2_connect.
  - by apply Inv2_disconnectPrinter.
  - by apply Inv2_disconnectAll.
  - by apply Inv2_print.
  - unfold Manager.getPrintQueue. cbn. by apply Inv2_arrays.
  - unfold Manager.clearPrintQueue. destruct IH. by constructor.
  - unfold Manager.removePrintJob.
    destruct (Manager.findIndex w jobId (Manager.queue w)); [|done].
    cbn. destruct IH. by constructor.
  - unfold Manager.testPrinter.
    pose proof (Inv2_connect id o st now w Hw IH) as H.
    by destruct (Manager.connectPrinter id o st now w).
  - destruct IH as [Hkey Hobj Hon]. constructor; try done.
    cbn. intros id c' Hc. rewrite length_insert. by eapply Hobj.
  - unfold Manager.array_push. case_bool_decide; [done|]. by apply Inv2_arrays.
  - unfold Manager.array_splice. case_bool_decide; [done|]. by apply Inv2_arrays.
Qed.

(** ** Disconnecting everything *)





(** ** What is stored *)

Lemma elem_of_values (w : Manager.World) (d : Manager.PrinterDevice.t) :
  d ∈ Manager.values w <->
  exists id p, Manager.printers w !! id = Some p /\ Manager.devices w !! p = Some d.
Proof.
  unfold Manager.values. rewrite list_elem_of_omap. split.
  - intros (p & Hp & Hd). apply list_elem_of_fmap in Hp as ([id p'] & -> & Hin).
    apply elem_of_map_to_list in Hin. by exists id, p'.
  - intros (id & p & Hp & Hd). exists p. split; [|done].
    apply list_elem_of_fmap. exists (id, p). split; [done|].
    by apply elem_of_map_to_list.
Qed.

Lemma last_all {A} (l : list A) (x : A) :
  x ∈ l -> (forall y, y ∈ l -> y = x) -> last l = Some x.
Proof.
  intros Hx Hall. destruct (last l) as [y|] eqn:E.
  - f_equal. apply Hall. by apply last_Some_elem_of.
  - apply last_None in E. subst l. by apply elem_of_nil in Hx.
Qed.

(** Saving and loading again gives every printer back, its state reset. *)
Lemma round_trip (w : Manager.World) :
  store_ok w ->
  forall id,
    Manager.getPrinter (Manager.init true (Manager.saved (Manager.values w))) id
    = Manager.PrinterDevice.set_status Manager.disconnected <$> Manager.getPrinter w id.
Proof.
  intros [Hstore Hinj Hkey] id.
  unfold Manager.init, Manager.loadSavedPrinters. cbn [Manager.window Manager.localStorage].
  rewrite getPrinter_load by (intros ? ?; cbn; by rewrite lookup_empty).
  set (l := filter _ _).
  unfold Manager.getPrinter at 2. unfold Manager.get_printer.
  destruct (Manager.printers w !! id) as [p|] eqn:Ep; cbn.
  - pose proof (Hstore _ _ Ep) as Hlt. apply lookup_lt_is_Some_2 in Hlt as [d Hd].
    rewrite Hd. cbn.
    assert (Manager.PrinterDevice.id d = id) as Hid.
    { apply (Hkey id p); [done|]. unfold id_of. by rewrite Hd. }
    rewrite (last_all l d); [done| |].
    + subst l. apply list_elem_of_filter. split; [done|].
      apply elem_of_values. by exists id, p.
    + intros q Hq. subst l. apply list_elem_of_filter in Hq as [Hqid Hq].
      apply elem_of_values in Hq as (id' & p' & Hp' & Hd').
      assert (Manager.PrinterDevice.id q = id') as Hid'.
      { apply (Hkey id' p'); [done|]. unfold id_of. by rewrite Hd'. }
      assert (p' = p) as -> by congruence. congruence.
  - destruct (last l) as [q|] eqn:El; [|done].
    apply last_Some_elem_of in El. subst l.
    apply list_elem_of_filter in El as [Hqid Hq].
    apply elem_of_values in Hq as (id' & p' & Hp' & Hd').
    assert (Manager.PrinterDevice.id q = id') as Hid'.
    { apply (Hkey id' p'); [done|]. unfold id_of. by rewrite Hd'. }
    congruence.
Qed.

Lemma store_ok_Inv (w : Manager.World) : Inv w -> Inv2 w -> store_ok w.
Proof. intros [] []. by constructor. Qed.

(** The store facts only depend on the printer map and the ids. *)
Lemma store_ok_ids (w w' : Manager.World) :
  store_ok w ->
  Manager.printers w' = Manager.printers w ->
  length (Manager.devices w') = length (Manager.devices w) ->
  (forall p, id_of w' p = id_of w p) ->
  store_ok w'.
Proof.
  intros [Hstore Hinj Hkey] Hp Hlen Hid. constructor.
  - intros id p. rewrite Hp, Hlen. apply Hstore.
  - intros id1 id2 p. rewrite Hp. apply Hinj.
  - intros id p i. rewrite Hp, Hid. apply Hkey.
Qed.

Lemma store_ok_delete (id : string) (w w' : Manager.World) :
  store_ok w ->
  Manager.printers w' = delete id (Manager.printers w) ->
  Manager.devices w' = Manager.devices w ->
  store_ok w'.
Proof.
  intros [Hstore Hinj Hkey] Hp Hd. constructor; unfold id_of; rewrite Hp, ?Hd.
  - intros id' p H. apply lookup_delete_Some in H as [_ H]. by eapply Hstore.
  - intros id1 id2 p H1 H2. apply lookup_delete_Some in H1 as [_ H1].
    apply lookup_delete_Some in H2 as [_ H2]. by eapply Hinj.
  - intros id' p i H. apply lookup_delete_Some in H as [_ H]. by apply Hkey.
Qed.

Lemma getPrinter_same (w w' : Manager.World) (id : string) :
  same_printers w w' ->
  Manager.PrinterDevice.set_status Manager.disconnected <$> Manager.getPrinter w' id
  = Manager.PrinterDevice.set_status Manager.disconnected <$> Manager.getPrinter w id.
Proof.
  intros [Hp Hn]. unfold Manager.getPrinter, Manager.get_printer. rewrite Hp.
  destruct (Manager.printers w !! id) as [p|]; [|done]. cbn.
  specialize (Hn p). unfold norm in Hn.
  destruct (Manager.devices w' !! p), (Manager.devices w !! p); cbn in *; congruence.
Qed.

Lemma same_printers_refl (w : Manager.World) : same_printers w w.
Proof. by split. Qed.

Lemma same_printers_trans (w1 w2 w3 : Manager.World) :
  same_printers w1 w2 -> same_printers w2 w3 -> same_printers w1 w3.
Proof.
  intros [Hp1 Hn1] [Hp2 Hn2]. split; [congruence|]. intros p. by rewrite Hn2.
Qed.

Lemma norm_alter_status (s : Manager.Status) (w : Manager.World) (p q : nat) :
  norm (Manager.set_devices (alter (Manager.PrinterDevice.set_status s) p) w) q = norm w q.
Proof.
  unfold norm. cbn. destruct (decide (p = q)) as [->|Hne].
  - rewrite list_lookup_alter_eq. by destruct (Manager.devices w !! q).
  - by rewrite list_lookup_alter_ne.
Qed.

Lemma keeps_stored_restorable (w w' : Manager.World) :
  keeps_stored w w' -> Manager.window w = true -> restorable w -> restorable w'.
Proof.
  intros [Hwin [[Hls Hsame] | Hsaved]] Hw Hr id.
  - rewrite Hls, Hr. symmetry. by apply getPrinter_same.
  - destruct (Hsaved Hw) as (wm & Hok & -> & Hsame).
    rewrite round_trip by done. symmetry. by apply getPrinter_same.
Qed.

Lemma keeps_stored_refl (w : Manager.World) : keeps_stored w w.
Proof. split; [done|]. left. split; [done|]. apply same_printers_refl. Qed.

Lemma keeps_stored_trans (w1 w2 w3 : Manager.World) :
  keeps_stored w1 w2 -> keeps_stored w2 w3 -> keeps_stored w1 w3.
Proof.
  intros [Hwin1 H1] [Hwin2 H2]. split; [congruence|].
  destruct H2 as [[Hls2 Hs2] | Hsaved2].
  - destruct H1 as [[Hls1 Hs1] | Hsaved1].
    + left. split; [congruence|]. by eapply same_printers_trans.
    + right. intros Hw. destruct (Hsaved1 Hw) as (wm & Hok & Hls & Hs).
      exists wm. split; [done|]. split; [congruence|]. by eapply same_printers_trans.
  - right. intros Hw. apply Hsaved2. congruence.
Qed.

Lemma keeps_stored_same (w w' : Manager.World) :
  Manager.window w' = Manager.window w ->
  Manager.localStorage w' = Manager.localStorage w ->
  Manager.printers w' = Manager.printers w ->
  (forall p, norm w' p = norm w p) ->
  keeps_stored w w'.
Proof. intros. split; [done|]. left. by repeat split. Qed.

(** A world just saved. *)
Lemma keeps_stored_saved (w w' : Manager.World) :
  Manager.window w' = Manager.window w ->
  store_ok w' ->
  (Manager.window w = true ->
   Manager.localStorage w' = Manager.saved (Manager.values w')) ->
  keeps_stored w w'.
Proof.
  intros Hwin Hok Hls. split; [done|]. right. intros Hw. exists w'.
  split; [done|]. split; [by apply Hls|]. apply same_printers_refl.
Qed.

Lemma store_ok_addPrinter (config : Manager.PrinterConfig.t) (now : N) (rnd : string)
    (w : Manager.World) :
  store_ok w -> store_ok (Manager.world_of (Manager.addPrinter config now rnd w)).
Proof.
  intros [Hstore Hinj Hkey]. unfold Manager.addPrinter. cbn [Manager.world_of].
  set (id := Manager.printer_id config now rnd) in *.
  constructor; unfold id_of; cbn.
  - intros id' p. rewrite length_app. cbn.
    destruct (decide (id = id')) as [<-|Hne].
    + rewrite lookup_insert_eq. intros [= <-]. lia.
    + rewrite lookup_insert_ne by done. intros Hp. apply Hstore in Hp. lia.
  - intros id1 id2 p.
    destruct (decide (id = id1)) as [<-|Hne1]; destruct (decide (id = id2)) as [<-|Hne2];
      rewrite ?lookup_insert_eq, ?lookup_insert_ne by done; try done.
    + intros [= <-] Hp. apply Hstore in Hp. lia.
    + intros Hp [= <-]. apply Hstore in Hp. lia.
    + apply Hinj.
  - intros id' p i.
    destruct (decide (id = id')) as [<-|Hne].
    + rewrite lookup_insert_eq. intros [= <-].
      rewrite lookup_app_r by done. rewrite Nat.sub_diag. cbn. by intros [= <-].
    + rewrite lookup_insert_ne by done. intros Hp.
      rewrite lookup_app_l by by eapply Hstore. by apply Hkey.
Qed.

Lemma keeps_addPrinter (config : Manager.PrinterConfig.t) (now : N) (rnd : string)
    (w : Manager.World) :
  store_ok w ->
  keeps_stored w (Manager.world_of (Manager.addPrinter config now rnd w)).
Proof.
  intros Hw. apply keeps_stored_saved; [done|by apply store_ok_addPrinter|].
  intros Hwin. unfold Manager.addPrinter, Manager.savePrinters. cbn. by rewrite Hwin.
Qed.

Lemma keeps_connect (id : string) (o : Outcome) (st : Manager.PrinterConnection)
    (now : N) (w : Manager.World) :
  store_ok w ->
  keeps_stored w (Manager.world_of (Manager.connectPrinter id o st now w)).
Proof.
  intros Hw.
  unfold Manager.connectPrinter, Manager.connectPrinter_begin.
  destruct (Manager.get_printer w id) as [[p d]|] eqn:Ep; [|apply keeps_stored_refl].
  destruct (decide (Manager.PrinterDevice.status d = Manager.connected)) as [Hst|Hst].
  { rewrite Hst. apply keeps_stored_refl. }
  set (body := Manager.complete _ _).
  assert (body = Manager.complete
            (fun k w => Manager.connectPrinter_finish k o now
                          (Manager.driver_sets (Manager.ck_connection k) st w))
            (let w1 := Manager.set_devices (alter (Manager.PrinterDevice.set_status Manager.connecting) p) w in
             let w2 := Manager.emit (Manager.printerStatusChanged id Manager.connecting None) w1 in
             let c := length (Manager.connObjs w2) in
             let w3 := Manager.set_connObjs
                       (fun cs => cs ++ [Manager.createConnection (Manager.PrinterDevice.config d)]) w2 in
             let w4 := Manager.log (Manager.constructed c id) w3 in
             let w5 := Manager.log (Manager.called c Manager.connect) w4 in
             Manager.Awaiting {| Manager.ck_id := id; Manager.ck_printer := p; Manager.ck_connection := c |} w5)) as ->.
  { subst body. by destruct (Manager.PrinterDevice.status d). }
  cbn [Manager.complete]. cbv zeta. unfold Manager.connectPrinter_finish.
  cbn [Manager.ck_connection Manager.ck_id Manager.ck_printer].
  destruct o as [|m]; cbn [Manager.world_of].
  - apply keeps_stored_saved; [done| |].
    + apply (store_ok_ids w); [done|done|cbn; by rewrite !length_alter|].
      intros q. unfold id_of. cbn.
      destruct (decide (p = q)) as [->|Hne].
      * rewrite !list_lookup_alter_eq. by destruct (Manager.devices w !! q).
      * by rewrite !list_lookup_alter_ne.
    + intros Hwin. unfold Manager.savePrinters. cbn. by rewrite Hwin.
  - apply keeps_stored_same; try done. intros q.
    change (norm (Manager.set_devices (alter (Manager.PrinterDevice.set_status Manager.error) p)
                    (Manager.set_devices
                       (alter (Manager.PrinterDevice.set_status Manager.connecting) p) w)) q
            = norm w q).
    by rewrite !norm_alter_status.
Qed.

Lemma keeps_disconnect_finish (k : Manager.DisconnectK) (o : Outcome)
    (st : Manager.PrinterConnection) (w : Manager.World) :
  keeps_stored w
    (Manager.world_of
       (Manager.disconnectPrinter_finish k o
          (Manager.driver_sets (Manager.dk_connection k) st w))).
Proof.
  unfold Manager.disconnectPrinter_finish. cbn [Manager.world_of].
  apply keeps_stored_same; try done. intros q.
  change (norm (Manager.set_devices
                  (alter (Manager.PrinterDevice.set_status Manager.disconnected)
                     (Manager.dk_printer k)) w) q = norm w q).
  apply norm_alter_status.
Qed.

Lemma keeps_log (e : Manager.DriverCall) (w : Manager.World) :
  keeps_stored w (Manager.log e w).
Proof. by apply keeps_stored_same. Qed.

Lemma keeps_disconnect (id : string) (o : Outcome)
    (st : Manager.PrinterConnection) (w : Manager.World) :
  keeps_stored w (Manager.world_of (Manager.disconnectPrinter id o st w)).
Proof.
  unfold Manager.disconnectPrinter.
  destruct (disconnectPrinter_begin_cases id w)
    as [-> | (p & d & c & connection & Ep & Ec & ->)]; [apply keeps_stored_refl|].
  cbn [Manager.complete].
  eapply keeps_stored_trans; [apply keeps_log|apply keeps_disconnect_finish].
Qed.

Lemma keeps_remove_sync (id : string) (w : Manager.World) :
  store_ok w ->
  keeps_stored w
    (Manager.emit (Manager.printerRemoved id)
       (Manager.savePrinters
          (let w := Manager.set_connections (delete id)
                      (Manager.set_printers (delete id) w) in
           if bool_decide (Manager.activePrinterId w = Some id)
           then Manager.set_activePrinterId None w else w))).
Proof.
  intros Hw. cbv zeta. apply keeps_stored_saved.
  - cbn. by case_bool_decide.
  - apply (store_ok_delete id w); [done| |]; cbn; by case_bool_decide.
  - intros Hwin. unfold Manager.savePrinters. cbn. case_bool_decide; cbn; by rewrite Hwin.
Qed.

Lemma store_ok_log (e : Manager.DriverCall) (w : Manager.World) :
  store_ok w -> store_ok (Manager.log e w).
Proof. intros []. by constructor. Qed.

Lemma keeps_removePrinter (id : string) (o : Outcome)
    (st : Manager.PrinterConnection) (w : Manager.World) :
  store_ok w -> keeps_stored w (Manager.removePrinter_awaited id o st w).2.
Proof.
  intros Hw. unfold Manager.removePrinter_awaited.
  destruct (Manager.get_printer w id) as [[p d]|] eqn:Ep.
  - destruct (removePrinter_sync id w p d Ep) as (w1 & rest & -> & Hrest).
    destruct rest as [k|]; cbn [snd].
    + destruct Hrest as [Hk ->].
      eapply keeps_stored_trans; [apply keeps_log|].
      eapply keeps_stored_trans; [|apply keeps_disconnect_finish].
      apply keeps_remove_sync. by apply store_ok_log.
    + subst w1. by apply keeps_remove_sync.
  - unfold Manager.removePrinter. rewrite Ep. apply keeps_stored_refl.
Qed.

Lemma keeps_print (data : Uint8Array) (printerId : option string) (now : N)
    (rnd : string) (o : Outcome) (st : Manager.PrinterConnection) (done : N)
    (w : Manager.World) :
  store_ok w ->
  keeps_stored w (Manager.world_of (Manager.print_job data printerId now rnd o st done w)).
Proof.
  intros Hw. unfold Manager.print_job, Manager.print_begin.
  destruct (Manager.target printerId w) as [targetId|]; [|apply keeps_stored_refl].
  destruct (Manager.get_printer w targetId) as [[p d]|]; [|apply keeps_stored_refl].
  destruct (Manager.get_connection w targetId) as [[c connection]|] eqn:Ec;
    [|apply keeps_stored_refl].
  destruct (negb (Manager.isConnected connection)); [apply keeps_stored_refl|].
  cbn [Manager.complete]. unfold Manager.print_finish.
  cbn [Manager.pk_connection Manager.pk_job Manager.pk_printer Manager.pk_data].
  destruct o as [|m]; cbn [Manager.world_of]; unfold Manager.emit_job.
  - match goal with |- context [Manager.jobs ?W !! ?J] => destruct (Manager.jobs W !! J) end.
    all: apply keeps_stored_saved; [done| |].
    all: try (intros Hwin; unfold Manager.savePrinters; cbn; by rewrite Hwin).
    all: apply (store_ok_ids w); [done|done|cbn; by rewrite length_alter|].
    all: intros q; unfold id_of; cbn.
    all: destruct (decide (p = q)) as [->|Hne];
      [rewrite list_lookup_alter_eq; by destruct (Manager.devices w !! q)
      |by rewrite list_lookup_alter_ne].
  - match goal with |- context [Manager.jobs ?W !! ?J] => destruct (Manager.jobs W !! J) end.
    all: by apply keeps_stored_same.
Qed.

Lemma keeps_disconnectAll (o : string -> Outcome)
    (st : string -> Manager.PrinterConnection) (w : Manager.World) :
  keeps_stored w (Manager.disconnectAll o st w).
Proof.
  unfold Manager.disconnectAll, Manager.disconnectAll_begin.
  assert (forall ids ks w0,
            keeps_stored w0
              (foldl (fun '(ks, w) id =>
                        match Manager.disconnectPrinter_begin id w with
                        | Manager.Awaiting k w => (ks ++ [k], w)
                        | Manager.Returned _ w | Manager.Threw _ w => (ks, w)
                        end) (ks, w0) ids).2) as Hbegin.
  { induction ids as [|id ids IH]; intros ks w0; [apply keeps_stored_refl|]. cbn [foldl].
    destruct (disconnectPrinter_begin_cases id w0)
      as [-> | (p & d & c & connection & Ep & Ec & ->)]; [apply IH|].
    eapply keeps_stored_trans; [apply keeps_log|apply IH]. }
  specialize (Hbegin (map_to_list (Manager.printers w)).*1 [] w).
  destruct (foldl _ _ _) as [ks w1]. cbn [snd] in Hbegin.
  eapply keeps_stored_trans; [exact Hbegin|]. clear Hbegin.
  revert w1. induction ks as [|k ks IH]; intros w1; [apply keeps_stored_refl|].
  cbn [foldl]. eapply keeps_stored_trans; [apply keeps_disconnect_finish|apply IH].
Qed.

Lemma keeps_run (call : Manager.Call) (w : Manager.World) :
  store_ok w -> keeps_stored w (Manager.run call w).
Proof.
  intros Hw. destruct call; cbn [Manager.run].
  - by apply keeps_addPrinter.
  - by apply keeps_removePrinter.
  - unfold Manager.setActivePrinter.
    destruct (Manager.printers w !! id); [|apply keeps_stored_refl].
    by apply keeps_stored_same.
  - by apply keeps_connect.
  - apply keeps_disconnect.
  - apply keeps_disconnectAll.
  - by apply keeps_print.
  - by apply keeps_stored_same.
  - by apply keeps_stored_same.
  - unfold Manager.removePrintJob.
    destruct (Manager.findIndex w jobId (Manager.queue w)); [|apply keeps_stored_refl].
    by apply keeps_stored_same.
  - unfold Manager.testPrinter. pose proof (keeps_connect id o st now w Hw) as H.
    by destruct (Manager.connectPrinter id o st now w).
  - by apply keeps_stored_same.
  - unfold Manager.array_push. case_bool_decide; [apply keeps_stored_refl|].
    by apply keeps_stored_same.
  - unfold Manager.array_splice. case_bool_decide; [apply keeps_stored_refl|].
    by apply keeps_stored_same.
Qed.

Lemma window_load (printersData : list Manager.PrinterDevice.t) (w : Manager.World) :
  Manager.window (foldl Manager.load_one w printersData) = Manager.window w /\
  Manager.localStorage (foldl Manager.load_one w printersData) = Manager.localStorage w.
Proof.
  revert w. induction printersData as [|printer rest IH]; intros w; [done|].
  cbn [foldl]. destruct (IH (Manager.load_one w printer)) as [-> ->]. done.
Qed.

Lemma init_stored (window : bool) (stored : Manager.Item) :
  Manager.window (Manager.init window stored) = window /\
  Manager.localStorage (Manager.init window stored) = stored.
Proof.
  unfold Manager.init, Manager.loadSavedPrinters. cbn [Manager.window Manager.localStorage].
  destruct window; [|done]. destruct stored; try done. apply window_load.
Qed.

(** In a page, what is stored is always enough to get the printers back:
    in every world reached by awaited calls, a new manager constructed over
    the stored item holds exactly the printers the manager holds, each as
    the manager has it but in state [disconnected].  (Writing the item is
    taken to succeed, and a record to be read back as it was written.) *)
Theorem stored_printers_restorable (w : Manager.World) :
  Manager.reachable w ->
  Manager.window w = true ->
  forall id,
    Manager.getPrinter (Manager.init true (Manager.localStorage w)) id
    = Manager.PrinterDevice.set_status Manager.disconnected <$> Manager.getPrinter w id.
Proof.
  intros Hr. change (Manager.window w = true -> restorable w).
  induction Hr as [window stored|w call Hr IH Hadm].
  - destruct (init_stored window stored) as [Hwin Hls]. rewrite Hwin. intros -> id.
    rewrite Hls. unfold Manager.init, Manager.loadSavedPrinters.
    cbn [Manager.window Manager.localStorage].
    destruct stored as [| |printersData]; try done.
    rewrite getPrinter_load by (intros ? ?; cbn; by rewrite lookup_empty).
    destruct (last _); [|done]. done.
  - pose proof (keeps_run call w
                  (store_ok_Inv w (reachable_Inv w Hr) (reachable_Inv2 w Hr))) as Hk.
    intros Hwin. destruct Hk as [Hw Hk]. rewrite Hw in Hwin.
    apply (keeps_stored_restorable w); [by split|done|by apply IH].
Qed.

Lemma stored_printers_restorable_witness :
  Manager.getPrinter (Manager.init true (Manager.localStorage Ex.online)) Ex.id_net
  = Manager.PrinterDevice.set_status Manager.disconnected
    <$> Manager.getPrinter Ex.online Ex.id_net.
Proof.
  apply (stored_printers_restorable Ex.online).
  - exact online_reachable.
  - reflexivity.
Defined.

(** ** Listing the printers *)

Lemma omap_all_Some {A B} (f : A -> option B) (l : list A) :
  (forall x, x ∈ l -> is_Some (f x)) -> Some <$> omap f l = f <$> l.
Proof.
  induction l as [|a l IH]; intros Hall; [done|]. cbn.
  destruct (Hall a) as [b Hb]; [by left|]. rewrite Hb. cbn.
  rewrite IH; [done|]. intros x Hx. apply Hall. by right.
Qed.

(** [getPrinters], in a world reached by awaited calls, lists every
    registered printer exactly once: its elements are the printers
    [getPrinter] finds, each found under its own id, no element occurs
    twice, and there are as many as there are registered ids. *)
Theorem getPrinters_lists_registered (w : Manager.World) :
  Manager.reachable w ->
  (forall d, d ∈ Manager.getPrinters w <-> exists id, Manager.getPrinter w id = Some d) /\
  (forall d, d ∈ Manager.getPrinters w ->
             Manager.getPrinter w (Manager.PrinterDevice.id d) = Some d) /\
  NoDup (Manager.getPrinters w) /\
  length (Manager.getPrinters w) = size (Manager.printers w).
Proof.
  intros Hr. pose proof (reachable_Inv w Hr) as Hw. pose proof (reachable_Inv2 w Hr) as Hw2.
  unfold Manager.getPrinters.
  assert (forall d id, Manager.getPrinter w id = Some d <->
                       exists p, Manager.printers w !! id = Some p /\
                                 Manager.devices w !! p = Some d) as Hget.
  { intros d id. unfold Manager.getPrinter. split.
    - destruct (Manager.get_printer w id) as [[p d']|] eqn:E; [|done].
      cbn. intros [= <-]. apply get_printer_Some in E. by exists p.
    - intros (p & Hp & Hd). assert (Manager.get_printer w id = Some (p, d)) as ->
        by by apply get_printer_Some. done. }
  assert (Some <$> Manager.values w
          = (fun p => Manager.devices w !! p) <$> (map_to_list (Manager.printers w)).*2)
    as Hvalues.
  { unfold Manager.values. apply omap_all_Some. intros p Hp.
    apply list_elem_of_fmap in Hp as ([id p'] & -> & Hin).
    apply elem_of_map_to_list in Hin. apply lookup_lt_is_Some_2.
    by eapply (inv_store w Hw). }
  split; [|split; [|split]].
  - intros d. rewrite elem_of_values. split.
    + intros (id & p & Hp & Hd). exists id. apply Hget. by exists p.
    + intros (id & H). apply Hget in H as (p & Hp & Hd). by exists id, p.
  - intros d Hd. apply elem_of_values in Hd as (id & p & Hp & Hd).
    assert (Manager.PrinterDevice.id d = id) as ->.
    { apply (inv_key w Hw2 id p); [done|]. unfold id_of. by rewrite Hd. }
    apply Hget. by exists p.
  - apply (NoDup_fmap_1 Some). rewrite Hvalues.
    apply NoDup_fmap_2_strong.
    + intros p1 p2 Hp1 Hp2 Heq.
      apply list_elem_of_fmap in Hp1 as ([id1 p1'] & -> & Hin1).
      apply list_elem_of_fmap in Hp2 as ([id2 p2'] & -> & Hin2).
      apply elem_of_map_to_list in Hin1, Hin2. cbn in *.
      pose proof (inv_store w Hw _ _ Hin1) as Hlt.
      apply lookup_lt_is_Some_2 in Hlt as [d Hd].
      assert (id1 = id2) as ->.
      { transitivity (Manager.PrinterDevice.id d).
        - symmetry. apply (inv_key w Hw2 id1 p1'); [done|]. unfold id_of. by rewrite Hd.
        - apply (inv_key w Hw2 id2 p2'); [done|]. unfold id_of.
          by rewrite <- Heq, Hd. }
      congruence.
    + apply NoDup_fmap_2_strong; [|apply NoDup_map_to_list].
      intros [id1 p1] [id2 p2] Hin1 Hin2 Heq. cbn in Heq. subst p2.
      apply elem_of_map_to_list in Hin1, Hin2.
      f_equal. by eapply (inv_inj w Hw).
  - rewrite <- (length_fmap Some), Hvalues, !length_fmap. apply length_map_to_list.
Qed.

Lemma getPrinters_lists_registered_witness :
  length (Manager.getPrinters Ex.online) = size (Manager.printers Ex.online).
Proof.
  refine (proj2 (proj2 (proj2 (getPrinters_lists_registered Ex.online _)))).
  exact online_reachable.
Defined.

(** * ESC/POS commands *)

(** [setTextSize] appends one [GS !] command whose size byte, read back,
    gives the width and the height asked for, each brought into the range
    1 to 8; the byte is below 128, so [getBuffer] does not change it. *)
Theorem setTextSize_round_trip (width height : Z) (b : ESCPOS.Buffer) :
  exists size,
    ESCPOS.setTextSize width height b = b ++ [ESCPOS.GS; 0x21%Z; size] /\
    (0 <= size < 128)%Z /\
    decode_size size = (clamp_size width, clamp_size height) /\
    ESCPOS.getBuffer (ESCPOS.setTextSize width height b)
    = ESCPOS.getBuffer b ++ [ESCPOS.GS; 0x21%Z; size].
Proof.
  unfold ESCPOS.setTextSize. cbv zeta.
  assert (forall x, Z.max 1 (Z.min 8 x) = clamp_size x) as Hclamp.
  { intros x. unfold clamp_size.
    destruct (Z.ltb_spec x 1); [lia|]. destruct (Z.ltb_spec 8 x); lia. }
  rewrite !Hclamp.
  assert (forall x, clamp_size x = 1 \/ clamp_size x = 2 \/ clamp_size x = 3 \/
                    clamp_size x = 4 \/ clamp_size x = 5 \/ clamp_size x = 6 \/
                    clamp_size x = 7 \/ clamp_size x = 8)%Z as Hcases.
  { intros x. unfold clamp_size.
    destruct (Z.ltb_spec x 1); [lia|]. destruct (Z.ltb_spec 8 x); lia. }
  eexists. split; [reflexivity|].
  unfold ESCPOS.getBuffer. rewrite fmap_app. cbn [fmap list_fmap].
  destruct (Hcases width) as [-> | [-> | [-> | [-> | [-> | [-> | [-> | ->]]]]]]];
    destruct (Hcases height) as [-> | [-> | [-> | [-> | [-> | [-> | [-> | ->]]]]]]];
    (split; [vm_compute; by split|]); split; reflexivity.
Qed.

(** The store command of [qrCode] announces the length of the data plus
    three in two bytes, low byte first -- modulo 65536: for data of 65533
    bytes or more the announced length is not the real one.  The data
    follows the header unchanged. *)
Theorem qrCode_length_header (encoded : list Z) (b : ESCPOS.Buffer) :
  exists pL pH,
    ESCPOS.qrCode encoded b
    = b ++ [ESCPOS.GS; 0x28; 0x6b; 0x03; 0x00; 0x31; 0x43; 0x03]%Z
        ++ [ESCPOS.GS; 0x28; 0x6b; 0x03; 0x00; 0x31; 0x45; 0x31]%Z
        ++ [ESCPOS.GS; 0x28; 0x6b; pL; pH; 0x31; 0x50; 0x30]%Z
        ++ encoded
        ++ [ESCPOS.GS; 0x28; 0x6b; 0x03; 0x00; 0x31; 0x51; 0x30]%Z /\
    (0 <= pL < 256)%Z /\ (0 <= pH < 256)%Z /\
    (pL + 256 * pH = (Z.of_nat (length encoded) + 3) mod 65536)%Z /\
    (Z.of_nat (length encoded) + 3 < 65536 ->
     pL + 256 * pH = Z.of_nat (length encoded) + 3)%Z.
Proof.
  unfold ESCPOS.qrCode. cbv zeta.
  set (len := (Z.of_nat (length encoded) + 3)%Z).
  exists (Z.land len 0xff), (Z.land (Z.shiftr len 8) 0xff).
  split; [by rewrite <- !app_assoc|].
  assert (forall x, Z.land x 0xff = x mod 256)%Z as Hland.
  { intros x. change 0xff%Z with (Z.ones 8). by rewrite Z.land_ones. }
  rewrite !Hland, Z.shiftr_div_pow2 by lia. change (2 ^ 8)%Z with 256%Z.
  assert (len mod 256 + 256 * ((len / 256) mod 256) = len mod 65536)%Z as Hsum.
  { change 65536%Z with (256 * 256)%Z. by rewrite Z.rem_mul_r. }
  split; [apply Z.mod_pos_bound; lia|]. split; [apply Z.mod_pos_bound; lia|].
  split; [done|]. intros Hlen. rewrite Hsum. apply Z.mod_small. subst len. lia.
Qed.
